(* ===== verification/_CoqProject ===== *)
-Q . S2P
Prelude.v
Loops.v
JSNumber.v
Particle.v
Collision.v
Kinetics.v
PairLoop.v
Simulation.v
Distribution.v
Summary.v
Format.v
Table.v
Chart.v
ChartOptions.v
ChartLaws.v
VDom.v
ChartView.v
Canvas2D.v
CanvasDraw.v
Slider.v
App.v
AppView.v
