(* ===== verification/Prelude.v ===== *)
(** * A verification development of the Maxwell-Boltzmann simulation

    The repository is a React application: two components and the page
    that hosts them.

    - [src/src/components/SimulationCanvas.js], the kinetics engine: 50
      particles in a 400x400 box.  Every animation frame [updateParticles]
      (lines 62-131) moves each particle by its velocity, reflects it at the
      walls, resolves every overlapping pair with the inelastic
      [handleCollision] (lines 40-56) and a positional separation, and
      rescales all velocities so that the mean speed is
      [baseSpeedFactor * sqrt T] (the thermostat).  The ensemble is created
      once from [Math.random] (lines 22-37); the temperature prop reaches
      the frame loop through [tempRef] (lines 9-11).
    - [src/src/components/MBDistributionChart.js], lines 1-417, the chart:
      the modified Maxwell-Boltzmann density [mbDistribution] (lines 86-102)
      over the energies [0..600], a Chart.js chart whose datasets four
      effects keep up to date (the curve, snapshot curves, mode and mean
      markers), an activation-shading plugin, and [handleRecordData]
      (lines 237-264), which records the mode and the percentage of the
      density at or above the threshold (400, or 300 with the catalyst).
    - The same file, lines 422-532: [App], which holds the slider's
      temperature and the snapshot list and passes them as props to both
      components.  The components share nothing else.

    ** Numbers

    JS numbers are IEEE-754 binary64.  The engine is written once against
    the interface [JSNumber.JSNum] (the arithmetic, [Math.sqrt],
    [Math.abs], the comparisons and [ToBoolean] that the code uses).  It has
    three instances:
    - [R_JSNum], the real numbers, over which the algebraic theorems are
      proved;
    - [NaN_JSNum], JS numbers as [option R]: a finite real or [NaN].  It
      is exact on finite values, and [NaN] comes out of [0 / 0] and
      [Math.sqrt] of a negative number, absorbs every operation, compares
      false and is falsy.  The engine never divides a non-zero number by
      zero, so [NaN] is the only non-finite value it produces (the
      instance's comment gives the argument).  The canvas component's
      behaviour with its context ([CanvasDraw]) is proved over this
      instance, where [0 / 0] is not [0] as it is over [R];
    - [float_JSNum], Rocq's primitive binary64 floats, on which the same
      definitions run with [vm_compute].
    The real instance idealises rounding and [NaN]: its theorems state
    what the code computes in exact arithmetic while every value stays
    finite, and the theorems over [NaN_JSNum] cover what happens when one
    does not.  The chart's code uses [exp], [Math.pow] and [PI], which the
    primitive floats lack, so it is modelled over [R] only.

    ** Files, in dependency order, and what their theorems show

    - [Prelude]: this header, the [js_scope] notation scope, the hint
      databases, the [Decision] instances on [R], the loop lemma
      [fold_left_invariant], and the lemmas on sums of real lists.
    - [Loops]: the JS [for] loop [jsFor], on fuel, whose test re-reads its
      bound on the current state.  Theorem: with enough fuel it finishes
      and equals a [fold_left] over [seq]; with one unit less it does not.
    - [JSNumber]: the interface [JSNum], its three instances, the
      notations, [js_R], which turns the real instance's operations into
      the Stdlib's, and the rewriting lemmas [nan_rw] of the [NaN]
      instance.
    - [Particle]: the particle record, the constants, [move] and the wall
      tests.  Theorem: the wall pass puts a particle inside the box.
    - [Collision]: [handleCollision] and the pair-loop body [resolvePair].
      Theorems:
      - momentum conservation;
      - the restitution law;
      - the exact energy balance;
      - an overlapping pair ends touching, and touching pairs are left
        alone;
      - over JS numbers with [NaN], two particles at the same centre get
        [NaN] positions, whatever the centre, the velocities and the
        restitution.
    - [Kinetics]: the pair loops [particleCollisions], the thermostat and
      [updateParticles].  Theorems:
      - the pair pass conserves momentum and does not increase energy;
      - the thermostat hits the desired mean speed unless all particles
        are at rest;
      - rest is absorbing, and temperature 0 stops every particle;
      - a frame can end with a particle outside the walls, and one pass
        can leave, even create, an overlap (general families of inputs);
      - over JS numbers with [NaN], a particle with a [NaN] [x] is never
        resolved again, and two particles leaving through the same corner
        in one frame end it with a [NaN] position.
    - [PairLoop]: the pair pass as the two [for] loops of the code
      ([particleCollisionsLoop]).  Theorems: it terminates and equals
      [particleCollisions]; the pass is the fold over the reference list of
      pairs [i < j < n], [n (n - 1) / 2] of them.
    - [Simulation]: particle creation, and the canvas component as a state
      machine over mount, temperature and frame events ([handleEvent],
      [reachable]).  Theorems:
      - the count and radius invariant of every reachable state, by rule
        induction (used by [App]);
      - a frozen ensemble stays frozen.
    - [Distribution]: [effectiveTemperature], [mbDistribution], the energy
      grid and the curve [dynamicData].  Theorems: positivity, and the
      factor [2^1.5] between the code and its comment.
    - [Summary]: the mode scan, the mean, the area sums and
      [handleRecordData].  Theorems:
      - the scan finds the first maximum;
      - the percentage lies in [[0, 100]] and the catalyst raises it;
      - the mean lies in [[0, 600]];
      - the row recorded at [T = 300].
    - [Format]: [Math.round] and [toFixed(2)] from ECMA-262, and a parser
      of the printed strings.  Theorems: printing then parsing gives the
      value to within half a hundredth; a recorded row holds its
      percentage that way.
    - [Table]: the recorded-data table (lines 392-411).  Theorem: after
      Record Data the table gains one keyed row whose percentage cell
      reads back to within [0.005] of the curve's percentage.
    - [Chart]: the chart component's state, its four effects run in
      declaration order when their dependencies change ([mbStep]), the
      plugin as the canvas calls it issues, and the colour map.  Theorems:
      - refinement: the component is its contract [mbModelStep], with a
        chart that always shows the state and never throws;
      - the shading covers exactly the region the record reports;
      - the mode marker sits at the mode;
      - colours are valid on the slider's range (a lemma, used by [App]).
    - [ChartOptions]: the [options] prop of the chart (lines 267-301).
      Lemmas: its plugin options are Effect 4's, and the plugin's [xMax]
      and [yMax] are the axes' maxima.
    - [ChartLaws]: consequences of the refinement.  Theorems: a toggle
      pressed twice, or a temperature moved and moved back, restores the
      state; the dataset array is well formed in every reachable state.
    - [VDom]: the element trees JSX renders to ([vnode]): tags, class
      names, inline styles, attributes, handlers, text and component
      elements with their props, and the queries that read them back.
    - [ChartView]: the chart's JSX (lines 303-414): the [<Line>] element,
      the five buttons with their state-dependent styles, and the table.
      Theorem: from the mount, each toggle button is filled with its
      accent exactly when it has been pressed an odd number of times.
    - [Canvas2D]: the 2D context from the HTML canvas specification
      (drawing state, save stack, path, painted marks, the
      [IndexSizeError] throws, the [TypeError] of [createRadialGradient]'s
      argument conversion on [NaN], [arc] doing nothing on [NaN]) and the
      state-and-exception monad [drawM] of the drawing code.  Theorem: the activation plugin restores the
      drawing state and the stack it found.
    - [CanvasDraw]: the particle frame's drawing (lines 63-68 and
      132-155), and the canvas component over JS numbers with [NaN]: its
      refs, its context and whether a frame is requested ([world],
      [worldStep], [worldReachable]).  Theorems:
      - what a frame paints: the background, then the particles up to the
        first one with a [NaN] coordinate, where the frame throws;
      - in every reachable world a frame is requested exactly when every
        coordinate is finite, and no background was ever shadowed;
      - two particles leaving through the top-left corner in the same
        frame stop the animation for good, which a mount followed by one
        frame can reach.
    - [Slider]: the range input of the App (lines 474-482): the value
      sanitization of the HTML specification and [parseFloat] of the value
      string.  Theorem: a slider move yields an integer in [[100, 500]],
      read back exactly.
    - [App]: the page, composing the two components under the App's
      handlers.  Theorems: both components see the App's temperature and
      snapshots; the snapshot list records the temperature of each press;
      the slider's range keeps every snapshot colour of the chart valid.
    - [AppView]: the App's JSX (lines 434-527) and the [<canvas>] element
      of [SimulationCanvas] (lines 162-174).  Theorem: the rendered range
      input's value is the App's temperature, a fixed point of the
      sanitization that [handleTemperatureChange] reads back unchanged,
      and the children's props are what the children hold.

    ** Bounds and termination

    The loops of the code run over finite ranges: the particle loops, the
    pair loops and the energy grid [0..600].  Most files model them as a
    [fold_left] or a [map] over a [seq] list, which terminates by
    construction.  [Loops.jsFor] models the [for] loop as the code writes
    it, with its bound re-read at each test; it runs on fuel and returns
    [Timeout] when the fuel runs out.  [PairLoop] proves that
    [length ps + 1] units are enough for the pair loops and that
    [length ps] are not: one unit per outer iteration and one for the
    final test, each inner loop using fewer.  The animation loop and the
    user's actions are finite event lists ([run], [mbRun], [appRun],
    [worldReachable]).  Properties over all runs are proved for every list.

    ** Not modelled

    - How the browser lays out and paints the rendered elements (CSS),
      and Chart.js's own drawing of the curves, axes and legend.  The JSX
      is modelled as element trees ([VDom]); the chart is reduced to its
      dataset array and plugin options, and its plugin to the canvas calls
      it issues.
    - Rounding: [R_JSNum] and [NaN_JSNum] compute exactly, and the
      theorems are not about the rounding of binary64 (the
      [float_JSNum] instance runs the same code with it).  [Infinity] is
      not a value of [NaN_JSNum]; the code never produces one from finite
      values in exact arithmetic.
    - React's scheduling and [requestAnimationFrame]'s timing.  They are
      abstracted as sequences of events, one render or one frame each.
      Unmounting, which cancels the pending frame (line 159), is not an
      event of the model.
    - [Number::toString] (used by [toFixed] above [10^21] and for number
      cells of the table) is a section variable.  [parseFloat] is modelled
      on strings of decimal digits, the only strings the range input
      produces.
    - What Chart.js does with the [options] it is given (the axes, the
      legend, the animation): the object is modelled, the library's use of
      it is not.
    - The imports and exports of the two files, and [ChartJS.register]
      (line 20), which only configure the library. *)

From Stdlib Require Import Reals Lra.
From stdpp Require Import base list.

Declare Scope js_scope.
Delimit Scope js_scope with js.

Create HintDb mbsim.
Create Rewrite HintDb mbsim_rw.

(** Decidable comparisons on the reals, so that [decide] and
    [case_bool_decide] do the case analysis on the code's tests. *)
#[export] Instance Rlt_rdec : RelDecision Rlt := Rlt_dec.
#[export] Instance Rle_rdec : RelDecision Rle := Rle_dec.
#[export] Instance Req_rdec : RelDecision (@eq R) := Req_EM_T.

(** ** Loops *)

(** A property kept by every iteration of a [for ... of] loop over [l]
    holds after it. *)
(** A fold over a mapped list is a fold of the composed step. *)
Lemma fold_left_map_comp {T U S} (f : S -> U -> S) (g : T -> U) (l : list T) (a : S) :
  fold_left f (map g l) a = fold_left (fun acc t => f acc (g t)) l a.
Proof. revert a. induction l as [|t l IH]; intros a; [reflexivity|]. apply IH. Qed.

Lemma fold_left_invariant {T S} (P : S -> Prop) (f : S -> T -> S) (l : list T) (a : S) :
  P a -> (forall acc t, In t l -> P acc -> P (f acc t)) -> P (fold_left f l a).
Proof.
  revert a. induction l as [|t l IH]; intros a Ha Hf; simpl; [exact Ha|].
  apply IH; [apply Hf; [left; reflexivity | exact Ha]|].
  intros acc t' Ht'. apply Hf. right. exact Ht'.
Qed.

(** ** Lists updated by index *)

Lemma lookup_map {T U} (f : T -> U) (l : list T) (i : nat) :
  map f l !! i = option_map f (l !! i).
Proof. revert i. induction l as [|t l IH]; intros [|i]; simpl; auto. Qed.

Lemma map_insert {T U} (f : T -> U) (l : list T) (i : nat) (a : T) :
  map f (<[i:=a]> l) = <[i:=f a]> (map f l).
Proof. revert i. induction l as [|t l IH]; intros [|i]; simpl; f_equal; auto. Qed.

(** ** Real arithmetic *)

(** A sum of two squares is non-negative ([nra] does not find this when the
    squared terms are differences). *)
Lemma sum_sq_nonneg (a b : R) : (0 <= a * a + b * b)%R.
Proof. pose proof (Rle_0_sqr a). pose proof (Rle_0_sqr b). unfold Rsqr in *. lra. Qed.

#[export] Hint Resolve sum_sq_nonneg sqrt_pos exp_pos : mbsim.

(** ** Sums of real lists *)

Section Sums.
Local Open Scope R_scope.

(** The mathematical sum; the code's accumulations are left folds from
    [0], related to it by [fold_left_Rplus_map]. *)
Definition sumR (l : list R) : R := fold_right Rplus 0 l.

Lemma sumR_nil : sumR [] = 0.
Proof. reflexivity. Qed.

Lemma sumR_cons r l : sumR (r :: l) = r + sumR l.
Proof. reflexivity. Qed.

Lemma sumR_app l1 l2 : sumR (l1 ++ l2) = sumR l1 + sumR l2.
Proof. induction l1 as [|r l IH]; simpl; [lra|]. unfold sumR in *. rewrite IH. lra. Qed.

Lemma fold_left_Rplus_map {T} (f : T -> R) (l : list T) (a : R) :
  fold_left (fun s t => s + f t) l a = a + sumR (map f l).
Proof.
  revert a. induction l as [|t l IH]; intros a; simpl; [lra|].
  rewrite IH. unfold sumR. simpl. lra.
Qed.

Lemma sumR_scale {T} (c : R) (f : T -> R) (l : list T) :
  sumR (map (fun t => c * f t) l) = c * sumR (map f l).
Proof. induction l as [|t l IH]; simpl; [lra|]. unfold sumR in *. rewrite IH. lra. Qed.

Lemma sumR_nonneg (l : list R) : Forall (fun r => 0 <= r) l -> 0 <= sumR l.
Proof. induction 1; unfold sumR in *; simpl; lra. Qed.

(** A sum of non-negative terms is zero only when every term is. *)
Lemma sumR_nonneg_zero (l : list R) :
  Forall (fun r => 0 <= r) l -> sumR l = 0 -> Forall (fun r => r = 0) l.
Proof.
  induction 1 as [|r l Hr Hl IH]; intros Hs; constructor;
    unfold sumR in *; simpl in Hs; pose proof (sumR_nonneg l Hl); unfold sumR in *.
  - lra.
  - apply IH. lra.
Qed.

Lemma sumR_pos (l : list R) :
  Forall (fun r => 0 <= r) l -> Exists (fun r => 0 < r) l -> 0 < sumR l.
Proof.
  induction 1 as [|r l Hr Hl IH]; intros Hex; [inversion Hex|].
  pose proof (sumR_nonneg l Hl). unfold sumR in *; simpl.
  inversion Hex; subst; [lra|]. specialize (IH ltac:(assumption)). lra.
Qed.

Lemma sumR_map_le {T} (f g : T -> R) (l : list T) :
  (forall t, In t l -> f t <= g t) -> sumR (map f l) <= sumR (map g l).
Proof.
  induction l as [|t l IH]; intros Hfg; [simpl; lra|]. unfold sumR in *; simpl.
  pose proof (Hfg t (or_introl eq_refl)). pose proof (IH (fun u Hu => Hfg u (or_intror Hu))).
  lra.
Qed.

Lemma sumR_map_filter_le {T} (f : T -> R) (P : T -> Prop)
    `{!forall t, Decision (P t)} (l : list T) :
  (forall t, In t l -> 0 <= f t) -> sumR (map f (filter P l)) <= sumR (map f l).
Proof.
  intros Hf. induction l as [|t l IH]; [simpl; lra|]. rewrite filter_cons.
  pose proof (Hf t (or_introl eq_refl)).
  specialize (IH (fun u Hu => Hf u (or_intror Hu))).
  unfold sumR in *. case_decide; simpl; lra.
Qed.

Lemma sumR_map_nonneg {T} (f : T -> R) (l : list T) :
  (forall t, In t l -> 0 <= f t) -> 0 <= sumR (map f l).
Proof.
  intros Hf. apply sumR_nonneg, List.Forall_forall.
  intros ? (? & <- & ?)%in_map_iff. apply Hf. assumption.
Qed.

(** One non-negative term is at most the whole sum. *)
Lemma sumR_map_elem_le {T} (f : T -> R) (l : list T) (t : T) :
  (forall u, In u l -> 0 <= f u) -> In t l -> f t <= sumR (map f l).
Proof.
  induction l as [|u l IH]; intros Hf Ht; [destruct Ht|].
  pose proof (Hf u (or_introl eq_refl)).
  pose proof (sumR_map_nonneg f l (fun v Hv => Hf v (or_intror Hv))).
  unfold sumR in *; simpl. destruct Ht as [->|Ht]; [lra|].
  specialize (IH (fun v Hv => Hf v (or_intror Hv)) Ht). lra.
Qed.

(** A filter splits a sum into the kept and the dropped part. *)
Lemma sumR_map_filter_split {T} (f : T -> R) (P : T -> Prop)
    `{!forall t, Decision (P t)} (l : list T) :
  sumR (map f (filter P l)) + sumR (map f (filter (fun t => ~ P t) l)) = sumR (map f l).
Proof.
  induction l as [|t l IH]; [simpl; lra|]. rewrite !filter_cons.
  unfold sumR in *. case_decide; case_decide; simpl; try contradiction; lra.
Qed.

(** Keeping more non-negative terms does not decrease a sum. *)
Lemma sumR_map_filter_mono {T} (f : T -> R) (P Q : T -> Prop)
    `{!forall t, Decision (P t)} `{!forall t, Decision (Q t)} (l : list T) :
  (forall t, In t l -> 0 <= f t) -> (forall t, P t -> Q t) ->
  sumR (map f (filter P l)) <= sumR (map f (filter Q l)).
Proof.
  intros Hf HPQ. induction l as [|t l IH]; [simpl; lra|]. rewrite !filter_cons.
  pose proof (Hf t (or_introl eq_refl)).
  specialize (IH (fun u Hu => Hf u (or_intror Hu))).
  unfold sumR in *. case_decide; case_decide; simpl; try lra. exfalso; auto.
Qed.
(** The sum after a list update by index (stdpp's [<[i:=a]>]). *)
Lemma sumR_map_insert {T} (f : T -> R) (l : list T) (i : nat) (a b : T) :
  l !! i = Some b -> sumR (map f (<[i:=a]> l)) = sumR (map f l) - f b + f a.
Proof.
  revert i. induction l as [|c l IH]; intros [|i] Hi; simpl in *; try discriminate.
  - injection Hi as ->. unfold sumR; simpl. lra.
  - unfold sumR in *; simpl. rewrite (IH i Hi). lra.
Qed.

Lemma sumR_const {T} (c : R) (l : list T) :
  sumR (map (fun _ => c) l) = INR (length l) * c.
Proof.
  induction l as [|t l IH]; [simpl; lra|].
  cbn [map length]. rewrite S_INR. unfold sumR in *; simpl. rewrite IH. lra.
Qed.

Lemma sumR_map_ext {T} (f g : T -> R) (l : list T) :
  (forall t, f t = g t) -> sumR (map f l) = sumR (map g l).
Proof. intros Hfg. f_equal. apply map_ext. exact Hfg. Qed.
End Sums.

#[export] Hint Rewrite sumR_nil sumR_cons sumR_app : mbsim_rw.
#[export] Hint Resolve sumR_nonneg : mbsim.

(** [forall_nonneg] closes the [Forall (fun r => 0 <= r) (map f l)] side
    conditions of the sum lemmas from a pointwise fact. *)
Ltac forall_nonneg H :=
  apply List.Forall_forall; intros ? (? & <- & ?)%in_map_iff; apply H.
