(* ===== verification/Loops.v ===== *)
(** * The JS [for] loop

    [for (let i = i0; i < bound; i++) body] as the code writes it: the
    test is evaluated before every iteration, on the current state (the
    pair loops of [SimulationCanvas.js] re-read [particles.length] at each
    test, lines 99-100).  The model runs on fuel and returns [Timeout] when
    the fuel runs out, so that termination is a theorem
    ([jsFor_terminates]): when the body keeps the bound, [bound - i + 1]
    units of fuel (one per iteration and one for the final test) give the
    same state as the [fold_left] over [seq i (bound - i)] that the other
    files use. *)

From Stdlib Require Import Arith Lia List.
From S2P Require Import Prelude.
Import ListNotations.

Inductive loopResult (St : Type) :=
  | Timeout
  | Done (s : St).
Arguments Timeout {St}.
Arguments Done {St} _.

Section ForLoop.
Context {St : Type}.

(** [bound s] is the loop bound read on the current state; the body may
    itself loop, so it returns a [loopResult]. *)
Fixpoint jsFor (fuel : nat) (bound : St -> nat) (body : nat -> St -> loopResult St)
    (i : nat) (s : St) : loopResult St :=
  match fuel with
  | O => Timeout
  | S fuel' =>
      if i <? bound s then
        match body i s with
        | Done s' => jsFor fuel' bound body (S i) s'
        | Timeout => Timeout
        end
      else Done s
  end.

Section Terminates.
Variables (bound : St -> nat) (body : nat -> St -> loopResult St) (f : nat -> St -> St) (n : nat).
(** On states whose bound is [n], the body finishes, with [f], and keeps
    the bound. *)
Hypothesis body_done : forall j s, j < n -> bound s = n -> body j s = Done (f j s).
Hypothesis bound_kept : forall j s, bound s = n -> bound (f j s) = n.

Lemma jsFor_terminates fuel i s :
  bound s = n -> n - i < fuel ->
  jsFor fuel bound body i s = Done (fold_left (fun acc j => f j acc) (seq i (n - i)) s).
Proof.
  revert i s. induction fuel as [|fuel IH]; intros i s Hb Hf; [lia|]. cbn [jsFor]. rewrite Hb.
  destruct (Nat.ltb_spec i n) as [Hi|Hi].
  - rewrite body_done by assumption. rewrite IH by (try apply bound_kept; lia).
    replace (n - i) with (S (n - S i)) by lia. reflexivity.
  - replace (n - i) with 0 by lia. reflexivity.
Qed.

(** Without the final test's unit of fuel the loop times out. *)
Lemma jsFor_timeout i s :
  bound s = n -> i <= n -> jsFor (n - i) bound body i s = Timeout.
Proof.
  remember (n - i) as k eqn:Hk. revert i s Hk.
  induction k as [|k IH]; intros i s Hk Hb Hi; [reflexivity|]. cbn [jsFor]. rewrite Hb.
  destruct (Nat.ltb_spec i n) as [Hlt|Hge]; [|lia].
  rewrite body_done by assumption. apply IH; [lia | apply bound_kept, Hb | lia].
Qed.
End Terminates.
End ForLoop.
