(* ===== verification/JSNumber.v ===== *)
(** * JS numbers: the interface the engine is written against

    [JSNum A] collects the operations on JS numbers that
    [SimulationCanvas.js] performs: [+ - * /], unary minus, [Math.sqrt],
    [Math.abs], the comparisons [<], [>] (JS evaluates [a > b] as [b < a]),
    [===], and [ToBoolean] (used by [avgSpeed || 1], line 126), plus the
    conversion of an array length to a number (line 125).

    Three instances: [R_JSNum] (exact real arithmetic, for proofs),
    [float_JSNum] (IEEE-754 binary64 as Rocq's primitive floats, which is
    what a JS engine computes with, for execution) and [NaN_JSNum] (exact
    arithmetic on finite values with [NaN], for the proofs about what
    happens when a value stops being finite).  [js_R] rewrites the real
    instance's operations to the Stdlib's real operations; the hint
    database [nan_rw] holds the equations of [NaN_JSNum]. *)

From Stdlib Require Import Reals Lra Floats ZArith.
From stdpp Require Import base decidable.
From S2P Require Import Prelude.

Class JSNum (A : Type) := {
  js_zero : A;
  js_one : A;
  js_two : A;
  js_add : A -> A -> A;
  js_sub : A -> A -> A;
  js_mul : A -> A -> A;
  js_div : A -> A -> A;
  js_neg : A -> A;
  js_sqrt : A -> A;          (* Math.sqrt *)
  js_abs : A -> A;           (* Math.abs *)
  js_lt : A -> A -> bool;    (* a < b *)
  js_eq : A -> A -> bool;    (* a === b *)
  js_truthy : A -> bool;     (* ToBoolean: false on 0, -0 and NaN *)
  js_of_nat : nat -> A       (* an array length read as a number *)
}.

(** [a || b] on numbers: [a] when it is truthy, [b] otherwise. *)
Definition js_or {A} `{JSNum A} (a b : A) : A := if js_truthy a then a else b.

Notation "a + b" := (js_add a b) : js_scope.
Notation "a - b" := (js_sub a b) : js_scope.
Notation "a * b" := (js_mul a b) : js_scope.
Notation "a / b" := (js_div a b) : js_scope.
Notation "- a" := (js_neg a) : js_scope.
Notation "a <? b" := (js_lt a b) (at level 70) : js_scope.
Notation "a >? b" := (js_lt b a) (at level 70) : js_scope.
Notation "a =? b" := (js_eq a b) (at level 70) : js_scope.
Notation "a || b" := (js_or a b) : js_scope.

(** ** The real instance *)

#[export] Instance R_JSNum : JSNum R := {|
  js_zero := 0%R;
  js_one := 1%R;
  js_two := 2%R;
  js_add := Rplus;
  js_sub := Rminus;
  js_mul := Rmult;
  js_div := Rdiv;
  js_neg := Ropp;
  js_sqrt := R_sqrt.sqrt;
  js_abs := Rabs;
  js_lt a b := bool_decide (a < b)%R;
  js_eq a b := bool_decide (a = b);
  js_truthy a := bool_decide (a <> 0%R);
  js_of_nat := INR
|}.

(** Unfold the real instance's operations in the goal and the context
    ([js_or] is rewritten with [js_or_R] instead). *)
Ltac js_R :=
  cbn [js_zero js_one js_two js_add js_sub js_mul js_div js_neg js_sqrt
       js_abs js_lt js_eq js_truthy js_of_nat R_JSNum] in *.

Lemma js_or_R (a b : R) : js_or a b = if decide (a = 0%R) then b else a.
Proof.
  unfold js_or. js_R. case_bool_decide; case_decide; tauto.
Qed.

#[export] Hint Rewrite js_or_R : mbsim_rw.

(** ** The binary64 instance *)

#[export] Instance float_JSNum : JSNum float := {|
  js_zero := 0%float;
  js_one := 1%float;
  js_two := 2%float;
  js_add := PrimFloat.add;
  js_sub := PrimFloat.sub;
  js_mul := PrimFloat.mul;
  js_div := PrimFloat.div;
  js_neg := PrimFloat.opp;
  js_sqrt := PrimFloat.sqrt;
  js_abs := PrimFloat.abs;
  js_lt := PrimFloat.ltb;
  js_eq := PrimFloat.eqb;
  js_truthy a := negb (PrimFloat.eqb a 0%float || PrimFloat.is_nan a);
  js_of_nat n := PrimFloat.of_uint63 (Uint63.of_Z (Z.of_nat n))
|}.

(** ** JS numbers with [NaN]

    A JS number as [Some] of a finite real, or [None] for [NaN].  The
    arithmetic is exact on finite values and [NaN] absorbs every operation;
    [Math.sqrt] of a negative number and [0 / 0] are [NaN]; a comparison
    with [NaN] is [false]; [NaN] is falsy.  A non-zero number divided by
    zero, which would be an infinity, is [NaN] here as well: the engine
    never divides a non-zero number by zero (its divisions are [dx / dist]
    and [dy / dist], where [dist = 0] forces [dx = dy = 0], [sumSpeed /
    particles.length], where an empty array has [sumSpeed = 0], and a
    division by [avgSpeed || 1], which is never [0]), so the one
    non-finite value it can produce is [NaN]. *)

Abbreviation RN := (option R).

Definition nan_lift2 (f : R -> R -> R) (a b : RN) : RN :=
  match a, b with Some u, Some v => Some (f u v) | _, _ => None end.

Definition nan_cmp (f : R -> R -> bool) (a b : RN) : bool :=
  match a, b with Some u, Some v => f u v | _, _ => false end.

#[export] Instance NaN_JSNum : JSNum RN := {|
  js_zero := Some 0%R;
  js_one := Some 1%R;
  js_two := Some 2%R;
  js_add := nan_lift2 Rplus;
  js_sub := nan_lift2 Rminus;
  js_mul := nan_lift2 Rmult;
  js_div a b :=
    match a, b with
    | Some u, Some v => if decide (v = 0%R) then None else Some (u / v)%R
    | _, _ => None
    end;
  js_neg := fmap Ropp;
  js_sqrt a :=
    match a with
    | Some u => if decide (u < 0)%R then None else Some (R_sqrt.sqrt u)
    | None => None
    end;
  js_abs := fmap Rabs;
  js_lt := nan_cmp (fun u v => bool_decide (u < v)%R);
  js_eq := nan_cmp (fun u v => bool_decide (u = v));
  js_truthy a := match a with Some u => bool_decide (u <> 0%R) | None => false end;
  js_of_nat n := Some (INR n)
|}.

(** The constants and operations of [NaN_JSNum] on finite values. *)
Lemma nan_zero : js_zero (A:=RN) = Some 0%R.
Proof. reflexivity. Qed.
Lemma nan_one : js_one (A:=RN) = Some 1%R.
Proof. reflexivity. Qed.
Lemma nan_two : js_two (A:=RN) = Some 2%R.
Proof. reflexivity. Qed.
Lemma nan_add (a b : R) : js_add (Some a) (Some b) = Some (a + b)%R.
Proof. reflexivity. Qed.
Lemma nan_sub (a b : R) : js_sub (Some a) (Some b) = Some (a - b)%R.
Proof. reflexivity. Qed.
Lemma nan_mul (a b : R) : js_mul (Some a) (Some b) = Some (a * b)%R.
Proof. reflexivity. Qed.
Lemma nan_neg (a : R) : js_neg (Some a) = Some (- a)%R.
Proof. reflexivity. Qed.
Lemma nan_abs (a : R) : js_abs (Some a) = Some (Rabs a).
Proof. reflexivity. Qed.
Lemma nan_lt (a b : R) : js_lt (Some a) (Some b) = bool_decide (a < b)%R.
Proof. reflexivity. Qed.
Lemma nan_eq (a b : R) : js_eq (Some a) (Some b) = bool_decide (a = b).
Proof. reflexivity. Qed.
Lemma nan_div (a b : R) : b <> 0%R -> js_div (Some a) (Some b) = Some (a / b)%R.
Proof. intros Hb. cbn. rewrite decide_False by exact Hb. reflexivity. Qed.
Lemma nan_div_0 (a : R) : js_div (Some a) (Some 0%R) = None.
Proof. cbn. rewrite decide_True by reflexivity. reflexivity. Qed.
Lemma nan_sqrt (a : R) : (0 <= a)%R -> js_sqrt (Some a) = Some (R_sqrt.sqrt a).
Proof. intros Ha. cbn. rewrite decide_False by (apply Rle_not_lt, Ha). reflexivity. Qed.
Lemma nan_sqrt_neg (a : R) : (a < 0)%R -> js_sqrt (Some a) = None.
Proof. intros Ha. cbn. rewrite decide_True by exact Ha. reflexivity. Qed.

(** [NaN] absorbs the operations, and compares false. *)
Lemma nan_add_l (b : RN) : js_add None b = None.
Proof. reflexivity. Qed.
Lemma nan_add_r (a : RN) : js_add a None = None.
Proof. destruct a; reflexivity. Qed.
Lemma nan_sub_l (b : RN) : js_sub None b = None.
Proof. reflexivity. Qed.
Lemma nan_sub_r (a : RN) : js_sub a None = None.
Proof. destruct a; reflexivity. Qed.
Lemma nan_mul_l (b : RN) : js_mul None b = None.
Proof. reflexivity. Qed.
Lemma nan_mul_r (a : RN) : js_mul a None = None.
Proof. destruct a; reflexivity. Qed.
Lemma nan_div_l (b : RN) : js_div None b = None.
Proof. reflexivity. Qed.
Lemma nan_div_r (a : RN) : js_div a None = None.
Proof. destruct a; reflexivity. Qed.
Lemma nan_sqrt_nan : js_sqrt (A:=RN) None = None.
Proof. reflexivity. Qed.
Lemma nan_lt_l (b : RN) : js_lt None b = false.
Proof. reflexivity. Qed.
Lemma nan_lt_r (a : RN) : js_lt a None = false.
Proof. destruct a; reflexivity. Qed.

Create Rewrite HintDb nan_rw.
#[export] Hint Rewrite nan_zero nan_one nan_two nan_add nan_sub nan_mul nan_neg nan_abs nan_lt nan_eq
  nan_add_l nan_add_r nan_sub_l nan_sub_r nan_mul_l nan_mul_r nan_div_l nan_div_r
  nan_sqrt_nan nan_lt_l nan_lt_r : nan_rw.
