(* ===== verification/Particle.v ===== *)
(** * Particles, the configuration, integration and wall reflection

    The particle objects of [SimulationCanvas.js] (line 33:
    [{ x, y, vx, vy, radius }]), the component's constants (lines 13-17 and
    the radius of line 32), and the first two phases of [updateParticles]:
    position update (lines 75-78) and wall collisions (lines 81-96).  The
    JS loops mutate each particle object in place; a phase is modelled as
    the function that maps the old particle to the new one, applied to the
    whole ensemble with [map] in [Kinetics]. *)

From Stdlib Require Import Reals Lra.
From stdpp Require Import base decidable.
From Stdlib Require PrimFloat.
From S2P Require Import Prelude JSNumber.

Record particle (A : Type) := mkParticle {
  x : A;
  y : A;
  vx : A;
  vy : A;
  radius : A
}.
Arguments mkParticle {A} _ _ _ _ _.
Arguments x {A} _.
Arguments y {A} _.
Arguments vx {A} _.
Arguments vy {A} _.
Arguments radius {A} _.

(** The constants of the component. *)
Record config (A : Type) := mkConfig {
  width : A;
  height : A;
  numParticles : nat;
  baseSpeedFactor : A;
  restitution : A;
  initRadius : A
}.
Arguments mkConfig {A} _ _ _ _ _ _.
Arguments width {A} _.
Arguments height {A} _.
Arguments numParticles {A} _.
Arguments baseSpeedFactor {A} _.
Arguments restitution {A} _.
Arguments initRadius {A} _.

(** The values of lines 13-17 and 32. *)
Definition canvasConfig : config R :=
  mkConfig 400%R 400%R 50 0.5%R 0.9%R 5%R.

(** The same constants as binary64 values ([0.9] is the double nearest to
    it, as in the JS source). *)
Module Float64.
Import PrimFloat.
Local Set Warnings "-inexact-float".
Definition canvasConfigF : config float :=
  mkConfig 400%float 400%float 50 0.5%float 0.9%float 5%float.
End Float64.

Section Phases.
Context {A : Type} `{JSNum A}.
Local Open Scope js_scope.

(** [p.x += p.vx; p.y += p.vy] (lines 76-77). *)
Definition move (p : particle A) : particle A :=
  mkParticle (x p + vx p) (y p + vy p) (vx p) (vy p) (radius p).

(** The horizontal wall test (lines 82-88). *)
Definition wallX (width : A) (p : particle A) : particle A :=
  if x p - radius p <? js_zero then
    mkParticle (radius p) (y p) (js_abs (vx p)) (vy p) (radius p)
  else if x p + radius p >? width then
    mkParticle (width - radius p) (y p) (- js_abs (vx p)) (vy p) (radius p)
  else p.

(** The vertical wall test (lines 89-95). *)
Definition wallY (height : A) (p : particle A) : particle A :=
  if y p - radius p <? js_zero then
    mkParticle (x p) (radius p) (vx p) (js_abs (vy p)) (radius p)
  else if y p + radius p >? height then
    mkParticle (x p) (height - radius p) (vx p) (- js_abs (vy p)) (radius p)
  else p.

(** One iteration of the wall loop (lines 81-96): the x test, then the
    y test, on the same particle. *)
Definition wallCollide (width height : A) (p : particle A) : particle A :=
  wallY height (wallX width p).

(** [Math.sqrt(p.vx * p.vx + p.vy * p.vy)] (line 122). *)
Definition speed (p : particle A) : A :=
  js_sqrt (vx p * vx p + vy p * vy p).
End Phases.

(** ** Radii, in any number type *)

Section Radii.
Context {A : Type} `{JSNum A}.

Lemma wallX_radius (W : A) (p : particle A) : radius (wallX W p) = radius p.
Proof. unfold wallX. destruct (js_lt _ _); [reflexivity|]. destruct (js_lt _ _); reflexivity. Qed.

Lemma wallY_radius (H' : A) (p : particle A) : radius (wallY H' p) = radius p.
Proof. unfold wallY. destruct (js_lt _ _); [reflexivity|]. destruct (js_lt _ _); reflexivity. Qed.

Lemma wallCollide_radius (W H' : A) (p : particle A) : radius (wallCollide W H' p) = radius p.
Proof. unfold wallCollide. rewrite wallY_radius. apply wallX_radius. Qed.
End Radii.

(** ** Properties over the reals *)

Section WallsR.
Local Open Scope R_scope.

(** The interval the spec requires on one axis. *)
Definition inBox (lo hi c : R) : Prop := lo <= c <= hi.

(** The three branches of [wallX], with the guards in the order the code
    tests them. *)
Lemma wallX_cases (W : R) (p : particle R) :
  (x p - radius p < 0 /\
     wallX W p = mkParticle (radius p) (y p) (Rabs (vx p)) (vy p) (radius p)) \/
  (0 <= x p - radius p /\ W < x p + radius p /\
     wallX W p = mkParticle (W - radius p) (y p) (- Rabs (vx p)) (vy p) (radius p)) \/
  (0 <= x p - radius p /\ x p + radius p <= W /\ wallX W p = p).
Proof.
  unfold wallX. js_R.
  repeat case_bool_decide; [left|right;left|right;right]; repeat split; try lra; auto.
Qed.

Lemma wallY_cases (H : R) (p : particle R) :
  (y p - radius p < 0 /\
     wallY H p = mkParticle (x p) (radius p) (vx p) (Rabs (vy p)) (radius p)) \/
  (0 <= y p - radius p /\ H < y p + radius p /\
     wallY H p = mkParticle (x p) (H - radius p) (vx p) (- Rabs (vy p)) (radius p)) \/
  (0 <= y p - radius p /\ y p + radius p <= H /\ wallY H p = p).
Proof.
  unfold wallY. js_R.
  repeat case_bool_decide; [left|right;left|right;right]; repeat split; try lra; auto.
Qed.

Lemma wallY_x (H : R) (p : particle R) : x (wallY H p) = x p.
Proof. destruct (wallY_cases H p) as [[_ ->]|[[_ [_ ->]]|[_ [_ ->]]]]; reflexivity. Qed.

Lemma wallX_y (W : R) (p : particle R) : y (wallX W p) = y p.
Proof. destruct (wallX_cases W p) as [[_ ->]|[[_ [_ ->]]|[_ [_ ->]]]]; reflexivity. Qed.

Lemma wallX_inBox (W : R) (p : particle R) :
  2 * radius p <= W -> inBox (radius p) (W - radius p) (x (wallX W p)).
Proof.
  unfold inBox. intros Hw.
  destruct (wallX_cases W p) as [[_ ->]|[[_ [_ ->]]|[? [? ->]]]]; simpl; lra.
Qed.

Lemma wallY_inBox (H : R) (p : particle R) :
  2 * radius p <= H -> inBox (radius p) (H - radius p) (y (wallY H p)).
Proof.
  unfold inBox. intros Hh.
  destruct (wallY_cases H p) as [[_ ->]|[[_ [_ ->]]|[? [? ->]]]]; simpl; lra.
Qed.

(** C4: wall containment.  After the wall pass a particle lies in
    [[radius, W - radius] x [radius, H - radius]], whatever its position
    before, provided the box is at least one diameter wide and high. *)
Theorem wallCollide_contained (W H : R) (p : particle R) :
  2 * radius p <= W -> 2 * radius p <= H ->
  inBox (radius p) (W - radius p) (x (wallCollide W H p)) /\
  inBox (radius p) (H - radius p) (y (wallCollide W H p)).
Proof.
  intros Hw Hh. unfold wallCollide. split.
  - rewrite wallY_x. now apply wallX_inBox.
  - rewrite <- (wallX_radius W p) at 1 2. apply wallY_inBox. now rewrite wallX_radius.
Qed.

(** A particle that has crossed the right and the bottom edge of the
    400 x 400 canvas is put back into the box. *)
Lemma wallCollide_contained_witness :
  let p := mkParticle 398 (-3) 2 1 5 in
  (2 * radius p <= 400 /\ 2 * radius p <= 400) /\
  inBox (radius p) (400 - radius p) (x (wallCollide 400 400 p)) /\
  inBox (radius p) (400 - radius p) (y (wallCollide 400 400 p)).
Proof.
  cbv zeta. split; [simpl; lra|]. apply wallCollide_contained; simpl; lra.
Defined.
End WallsR.
