(* ===== verification/Collision.v ===== *)
(** * Pairwise collisions

    [handleCollision] (SimulationCanvas.js, lines 40-56) changes the
    velocities of two particles by an impulse along the line of centres,
    and the body of the pair loop (lines 101-115) calls it for an
    overlapping pair and then pushes the two particles apart by half the
    overlap each.  Both mutate the two particle objects in place; here they
    return the updated pair.

    Over the reals: momentum is conserved, the normal relative velocity of
    an approaching pair is reversed and scaled by the restitution, the
    kinetic energy drops by exactly [(1 - e^2)/2 * relVel^2], and an
    overlapping pair ends exactly touching.  Over JS numbers with [NaN]
    ([JSNumber.NaN_JSNum]): two particles at the same centre get [NaN]
    coordinates, because the separation divides by the zero distance that
    [handleCollision] guards against and the loop body does not.  Both
    definitions keep the radii in any number type. *)

From Stdlib Require Import Reals Lra.
From stdpp Require Import base decidable.
From S2P Require Import Prelude JSNumber Particle.

Section PairOps.
Context {A : Type} `{JSNum A}.
Local Open Scope js_scope.

Definition setVelocity (p : particle A) (vx' vy' : A) : particle A :=
  mkParticle (x p) (y p) vx' vy' (radius p).

Definition setPosition (p : particle A) (x' y' : A) : particle A :=
  mkParticle x' y' (vx p) (vy p) (radius p).

(** Lines 40-56.  The two early [return]s leave both particles as they
    are. *)
Definition handleCollision (restitution : A) (p1 p2 : particle A)
    : particle A * particle A :=
  let dx := x p2 - x p1 in
  let dy := y p2 - y p1 in
  let dist := js_sqrt (dx * dx + dy * dy) in
  if dist =? js_zero then (p1, p2) else
  let nx := dx / dist in
  let ny := dy / dist in
  let dvx := vx p2 - vx p1 in
  let dvy := vy p2 - vy p1 in
  let relVel := dvx * nx + dvy * ny in
  if relVel >? js_zero then (p1, p2) else
  let impulse := - (js_one + restitution) * relVel / js_two in
  (setVelocity p1 (vx p1 - impulse * nx) (vy p1 - impulse * ny),
   setVelocity p2 (vx p2 + impulse * nx) (vy p2 + impulse * ny)).

(** The body of the inner pair loop (lines 101-115) for [p1 = particles[i]]
    and [p2 = particles[j]]. *)
Definition resolvePair (restitution : A) (p1 p2 : particle A)
    : particle A * particle A :=
  let dx := x p2 - x p1 in
  let dy := y p2 - y p1 in
  let dist := js_sqrt (dx * dx + dy * dy) in
  if dist <? radius p1 + radius p2 then
    let '(q1, q2) := handleCollision restitution p1 p2 in
    let overlap := radius q1 + radius q2 - dist in
    let sepX := dx / dist * (overlap / js_two) in
    let sepY := dy / dist * (overlap / js_two) in
    (setPosition q1 (x q1 - sepX) (y q1 - sepY),
     setPosition q2 (x q2 + sepX) (y q2 + sepY))
  else (p1, p2).
End PairOps.

Section PairRadii.
Context {A : Type} `{JSNum A}.

Lemma handleCollision_radius e (p1 p2 : particle A) :
  radius (handleCollision e p1 p2).1 = radius p1 /\ radius (handleCollision e p1 p2).2 = radius p2.
Proof. unfold handleCollision. destruct (js_eq _ _); [auto|]. destruct (js_lt _ _); auto. Qed.

(** The pair-loop body keeps both radii, in any number type. *)
Lemma resolvePair_radius e (p1 p2 : particle A) :
  radius (resolvePair e p1 p2).1 = radius p1 /\ radius (resolvePair e p1 p2).2 = radius p2.
Proof.
  unfold resolvePair. destruct (js_lt _ _); [|auto].
  pose proof (handleCollision_radius e p1 p2) as Hr.
  destruct (handleCollision e p1 p2) as [q1 q2]. exact Hr.
Qed.
End PairRadii.

(** ** Quantities the theorems talk about (over the reals) *)

Section Quantities.
Local Open Scope R_scope.

(** The centre distance of lines 103-105 (and 41-43). *)
Definition centerDistance (p1 p2 : particle R) : R :=
  sqrt ((x p2 - x p1) * (x p2 - x p1) + (y p2 - y p1) * (y p2 - y p1)).

(** The relative velocity along the unit normal (lines 45-49). *)
Definition normalVelocity (p1 p2 : particle R) : R :=
  let d := centerDistance p1 p2 in
  (vx p2 - vx p1) * ((x p2 - x p1) / d) + (vy p2 - vy p1) * ((y p2 - y p1) / d).

(** Twice the kinetic energy of a unit-mass particle. *)
Definition speedSq (p : particle R) : R := vx p * vx p + vy p * vy p.
End Quantities.

(** ** Lemmas *)

Section CollisionR.
Local Open Scope R_scope.
Implicit Types (p : particle R) (e : R).

Lemma centerDistance_nonneg p1 p2 : 0 <= centerDistance p1 p2.
Proof. apply sqrt_pos. Qed.

Lemma centerDistance_sq p1 p2 :
  centerDistance p1 p2 * centerDistance p1 p2 =
  (x p2 - x p1) * (x p2 - x p1) + (y p2 - y p1) * (y p2 - y p1).
Proof. apply sqrt_sqrt, sum_sq_nonneg. Qed.

(** The normal [(dx/d, dy/d)] is a unit vector when [d <> 0]. *)
Lemma unit_normal p1 p2 :
  centerDistance p1 p2 <> 0 ->
  ((x p2 - x p1) / centerDistance p1 p2) * ((x p2 - x p1) / centerDistance p1 p2) +
  ((y p2 - y p1) / centerDistance p1 p2) * ((y p2 - y p1) / centerDistance p1 p2) = 1.
Proof.
  intros Hd. pose proof (centerDistance_sq p1 p2) as Hsq.
  set (d := centerDistance p1 p2) in *.
  transitivity (((x p2 - x p1) * (x p2 - x p1) + (y p2 - y p1) * (y p2 - y p1)) / (d * d));
    [field; exact Hd|].
  rewrite <- Hsq. field. exact Hd.
Qed.

(** The impulse branch of [handleCollision], in real arithmetic. *)
Lemma handleCollision_impulse e p1 p2 :
  centerDistance p1 p2 <> 0 -> normalVelocity p1 p2 <= 0 ->
  let d := centerDistance p1 p2 in
  let nx := (x p2 - x p1) / d in
  let ny := (y p2 - y p1) / d in
  let J := - (1 + e) * normalVelocity p1 p2 / 2 in
  handleCollision e p1 p2 =
    (setVelocity p1 (vx p1 - J * nx) (vy p1 - J * ny),
     setVelocity p2 (vx p2 + J * nx) (vy p2 + J * ny)).
Proof.
  intros Hd Hn. unfold handleCollision, normalVelocity, centerDistance in *. js_R.
  case_bool_decide; [contradiction|]. case_bool_decide; [lra|]. reflexivity.
Qed.

(** Both early returns of [handleCollision]. *)
Lemma handleCollision_skip e p1 p2 :
  centerDistance p1 p2 = 0 \/ 0 < normalVelocity p1 p2 ->
  handleCollision e p1 p2 = (p1, p2).
Proof.
  intros Hc. unfold handleCollision, normalVelocity, centerDistance in *. js_R.
  case_bool_decide; [reflexivity|]. case_bool_decide; [reflexivity|].
  destruct Hc; [contradiction | lra].
Qed.

(** Every outcome of [handleCollision] is one of the two above. *)
Lemma handleCollision_cases e p1 p2 :
  (centerDistance p1 p2 = 0 \/ 0 < normalVelocity p1 p2) \/
  (centerDistance p1 p2 <> 0 /\ normalVelocity p1 p2 <= 0).
Proof.
  destruct (decide (centerDistance p1 p2 = 0)); [left; left; assumption|].
  destruct (Rlt_le_dec 0 (normalVelocity p1 p2)); [left; right; assumption|].
  right; split; assumption.
Qed.

(** [handleCollision] writes only velocities. *)
Lemma handleCollision_keeps e p1 p2 :
  let '(q1, q2) := handleCollision e p1 p2 in
  x q1 = x p1 /\ y q1 = y p1 /\ radius q1 = radius p1 /\
  x q2 = x p2 /\ y q2 = y p2 /\ radius q2 = radius p2.
Proof.
  destruct (handleCollision_cases e p1 p2) as [Hs|[Hd Hn]].
  - rewrite handleCollision_skip by exact Hs. repeat split.
  - rewrite (handleCollision_impulse e p1 p2 Hd Hn). repeat split.
Qed.

Lemma centerDistance_setVelocity p1 p2 a b c d :
  centerDistance (setVelocity p1 a b) (setVelocity p2 c d) = centerDistance p1 p2.
Proof. reflexivity. Qed.

(** The algebra of an impulse [J] along a unit normal. *)
Lemma impulse_normal_algebra a1 a2 b1 b2 nx ny J :
  nx * nx + ny * ny = 1 ->
  ((a2 + J * nx) - (a1 - J * nx)) * nx + ((b2 + J * ny) - (b1 - J * ny)) * ny =
  ((a2 - a1) * nx + (b2 - b1) * ny) + 2 * J.
Proof.
  intros Hu.
  transitivity (((a2 - a1) * nx + (b2 - b1) * ny) + 2 * J * (nx * nx + ny * ny)); [ring|].
  rewrite Hu. ring.
Qed.

Lemma impulse_energy_algebra a1 a2 b1 b2 nx ny J :
  nx * nx + ny * ny = 1 ->
  (a1 - J * nx) * (a1 - J * nx) + (b1 - J * ny) * (b1 - J * ny) +
  ((a2 + J * nx) * (a2 + J * nx) + (b2 + J * ny) * (b2 + J * ny)) =
  a1 * a1 + b1 * b1 + (a2 * a2 + b2 * b2) +
  2 * J * ((a2 - a1) * nx + (b2 - b1) * ny) + 2 * J * J.
Proof.
  intros Hu.
  transitivity (a1 * a1 + b1 * b1 + (a2 * a2 + b2 * b2) +
    2 * J * ((a2 - a1) * nx + (b2 - b1) * ny) + 2 * J * J * (nx * nx + ny * ny)); [ring|].
  rewrite Hu. ring.
Qed.

(** The distance of two centres whose squared offset is [d * d]. *)
Lemma centerDistance_eq p1 p2 d :
  0 <= d -> (x p2 - x p1) * (x p2 - x p1) + (y p2 - y p1) * (y p2 - y p1) = d * d ->
  centerDistance p1 p2 = d.
Proof. intros Hd Hs. unfold centerDistance. rewrite Hs. apply sqrt_square, Hd. Qed.

(** A sample head-on pair: centres 8 apart on the x axis, closing at
    speed 2, radii 5 (so they overlap by 2). *)
Definition headOn1 : particle R := mkParticle 0 0 1 0 5.
Definition headOn2 : particle R := mkParticle 8 0 (-1) 0 5.

Lemma headOn_distance : centerDistance headOn1 headOn2 = 8.
Proof. apply centerDistance_eq; simpl; lra. Qed.

Lemma headOn_normalVelocity : normalVelocity headOn1 headOn2 = -2.
Proof. unfold normalVelocity. rewrite headOn_distance. simpl. field. Qed.

Lemma handleCollision_velocity_sum e p1 p2 :
  let '(q1, q2) := handleCollision e p1 p2 in
  vx q1 + vx q2 = vx p1 + vx p2 /\ vy q1 + vy q2 = vy p1 + vy p2.
Proof.
  destruct (handleCollision_cases e p1 p2) as [Hs|[Hd Hn]].
  - rewrite handleCollision_skip by exact Hs. split; reflexivity.
  - rewrite (handleCollision_impulse e p1 p2 Hd Hn). cbn. split; ring.
Qed.

(** C5: momentum conservation.  [handleCollision] keeps the sum of the
    two velocities, on every branch. *)
Theorem handleCollision_momentum e p1 p2 :
  let '(q1, q2) := handleCollision e p1 p2 in
  vx q1 + vx q2 = vx p1 + vx p2 /\ vy q1 + vy q2 = vy p1 + vy p2.
Proof. apply handleCollision_velocity_sum. Qed.

(** C2: the restitution law.  For an approaching pair at a non-zero
    distance, the relative velocity along the normal after the impulse
    is [-restitution] times the one before. *)
Theorem handleCollision_restitution e p1 p2 :
  centerDistance p1 p2 <> 0 -> normalVelocity p1 p2 <= 0 ->
  let '(q1, q2) := handleCollision e p1 p2 in
  normalVelocity q1 q2 = - e * normalVelocity p1 p2.
Proof.
  intros Hd Hn. rewrite (handleCollision_impulse e p1 p2 Hd Hn).
  pose proof (unit_normal p1 p2 Hd) as Hu.
  unfold normalVelocity at 1. rewrite centerDistance_setVelocity. cbn [x y vx vy setVelocity].
  rewrite impulse_normal_algebra by exact Hu. unfold normalVelocity. field; exact Hd.
Qed.

(** The head-on pair with restitution [0.9]: the closing speed [2]
    becomes a separating speed [1.8]. *)
Lemma handleCollision_restitution_witness :
  (centerDistance headOn1 headOn2 <> 0 /\ normalVelocity headOn1 headOn2 <= 0) /\
  let '(q1, q2) := handleCollision 0.9 headOn1 headOn2 in
  normalVelocity q1 q2 = Ropp 0.9 * normalVelocity headOn1 headOn2.
Proof.
  split; [rewrite headOn_distance, headOn_normalVelocity; split; lra|].
  apply handleCollision_restitution; [rewrite headOn_distance | rewrite headOn_normalVelocity]; lra.
Defined.

Lemma handleCollision_energy_balance e p1 p2 :
  centerDistance p1 p2 <> 0 -> normalVelocity p1 p2 <= 0 ->
  let '(q1, q2) := handleCollision e p1 p2 in
  speedSq q1 + speedSq q2 =
    speedSq p1 + speedSq p2 - (1 - e * e) / 2 * (normalVelocity p1 p2 * normalVelocity p1 p2).
Proof.
  intros Hd Hn. rewrite (handleCollision_impulse e p1 p2 Hd Hn).
  pose proof (unit_normal p1 p2 Hd) as Hu. unfold speedSq. cbn [vx vy setVelocity].
  rewrite impulse_energy_algebra by exact Hu. fold (normalVelocity p1 p2). field.
Qed.

(** C6: the energy balance.  An impulse lowers the sum of [vx^2 + vy^2]
    over the pair, [speedSq p1 + speedSq p2] (twice the kinetic energy of
    two unit masses), by exactly [(1 - e^2)/2 * relVel^2]. *)
Theorem handleCollision_energy e p1 p2 :
  centerDistance p1 p2 <> 0 -> normalVelocity p1 p2 <= 0 ->
  let '(q1, q2) := handleCollision e p1 p2 in
  speedSq q1 + speedSq q2 =
    speedSq p1 + speedSq p2 - (1 - e * e) / 2 * (normalVelocity p1 p2 * normalVelocity p1 p2).
Proof. apply handleCollision_energy_balance. Qed.

Lemma handleCollision_energy_witness :
  (centerDistance headOn1 headOn2 <> 0 /\ normalVelocity headOn1 headOn2 <= 0) /\
  let '(q1, q2) := handleCollision 0.9 headOn1 headOn2 in
  speedSq q1 + speedSq q2 =
    speedSq headOn1 + speedSq headOn2 -
    (1 - 0.9 * 0.9) / 2 * (normalVelocity headOn1 headOn2 * normalVelocity headOn1 headOn2).
Proof.
  split; [rewrite headOn_distance, headOn_normalVelocity; split; lra|].
  apply handleCollision_energy; [rewrite headOn_distance | rewrite headOn_normalVelocity]; lra.
Defined.

(** With a restitution in [[0, 1]] no branch increases the energy. *)
Lemma handleCollision_energy_le e p1 p2 :
  0 <= e <= 1 ->
  let '(q1, q2) := handleCollision e p1 p2 in
  speedSq q1 + speedSq q2 <= speedSq p1 + speedSq p2.
Proof.
  intros He. destruct (handleCollision_cases e p1 p2) as [Hs|[Hd Hn]].
  - rewrite handleCollision_skip by exact Hs. lra.
  - pose proof (handleCollision_energy_balance e p1 p2 Hd Hn) as HE.
    destruct (handleCollision e p1 p2) as [q1 q2]. rewrite HE.
    pose proof (Rle_0_sqr (normalVelocity p1 p2)) as Hsq. unfold Rsqr in Hsq.
    assert (0 <= (1 - e * e) / 2 * (normalVelocity p1 p2 * normalVelocity p1 p2));
      [apply Rmult_le_pos; [nra | exact Hsq] | lra].
Qed.
End CollisionR.

(** ** The overlap resolution over the reals *)

Section ResolveR.
Local Open Scope R_scope.
Implicit Types (p : particle R) (e : R).

(** The separation displacement of lines 108-110. *)
Definition separation (p1 p2 : particle R) : R * R :=
  let d := centerDistance p1 p2 in
  let overlap := radius p1 + radius p2 - d in
  ((x p2 - x p1) / d * (overlap / 2), (y p2 - y p1) / d * (overlap / 2)).

Lemma resolvePair_far e p1 p2 :
  radius p1 + radius p2 <= centerDistance p1 p2 -> resolvePair e p1 p2 = (p1, p2).
Proof.
  intros Hf. unfold resolvePair, centerDistance in *. js_R.
  case_bool_decide; [lra | reflexivity].
Qed.

Lemma resolvePair_near e p1 p2 :
  centerDistance p1 p2 < radius p1 + radius p2 ->
  resolvePair e p1 p2 =
    let '(q1, q2) := handleCollision e p1 p2 in
    (setPosition q1 (x p1 - fst (separation p1 p2)) (y p1 - snd (separation p1 p2)),
     setPosition q2 (x p2 + fst (separation p1 p2)) (y p2 + snd (separation p1 p2))).
Proof.
  intros Hn. pose proof (handleCollision_keeps e p1 p2) as Hk.
  unfold resolvePair. js_R. case_bool_decide as Hc; [|unfold centerDistance in Hn; lra].
  destruct (handleCollision e p1 p2) as [q1 q2].
  destruct Hk as (-> & -> & -> & -> & -> & ->). reflexivity.
Qed.

(** Moving both centres apart by [(dx, dy)/d * (Rs - d)/2] each puts them
    [Rs] apart. *)
Lemma separated_distance a1 a2 b1 b2 d Rs :
  d <> 0 -> d * d = (a2 - a1) * (a2 - a1) + (b2 - b1) * (b2 - b1) -> 0 <= Rs ->
  let sx := (a2 - a1) / d * ((Rs - d) / 2) in
  let sy := (b2 - b1) / d * ((Rs - d) / 2) in
  sqrt ((a2 + sx - (a1 - sx)) * (a2 + sx - (a1 - sx)) +
        (b2 + sy - (b1 - sy)) * (b2 + sy - (b1 - sy))) = Rs.
Proof.
  intros Hd Hsq HR sx sy.
  replace (_ + _) with (Rs * Rs); [apply sqrt_square, HR|].
  transitivity (Rs / d * (Rs / d) * (d * d)); [field; exact Hd|].
  rewrite Hsq. unfold sx, sy. field. exact Hd.
Qed.

(** C3: no interpenetration after a resolution.  An overlapping pair at a
    positive distance ends exactly touching: its centres are
    [radius p1 + radius p2] apart. *)
Theorem resolvePair_touching e p1 p2 :
  0 < centerDistance p1 p2 < radius p1 + radius p2 ->
  let '(q1, q2) := resolvePair e p1 p2 in
  centerDistance q1 q2 = radius p1 + radius p2.
Proof.
  intros [Hpos Hlt]. rewrite (resolvePair_near e p1 p2 Hlt).
  destruct (handleCollision e p1 p2) as [q1 q2].
  unfold centerDistance at 1. unfold separation. cbn [x y setPosition fst snd].
  apply separated_distance; [lra | apply centerDistance_sq | lra].
Qed.

(** The head-on pair (overlap 2) ends 10 apart. *)
Lemma resolvePair_touching_witness :
  0 < centerDistance headOn1 headOn2 < radius headOn1 + radius headOn2 /\
  let '(q1, q2) := resolvePair 0.9 headOn1 headOn2 in
  centerDistance q1 q2 = radius headOn1 + radius headOn2.
Proof.
  split; [rewrite headOn_distance; simpl; lra|].
  apply resolvePair_touching. rewrite headOn_distance. simpl. lra.
Defined.

(** C31: a pair whose centres are at least [radius p1 + radius p2] apart is
    left as it is, whatever its velocities: in particular two particles
    that just touch while approaching each other are not resolved (the
    test on line 106 is strict). *)
Theorem resolvePair_untouched e p1 p2 :
  radius p1 + radius p2 <= centerDistance p1 p2 -> resolvePair e p1 p2 = (p1, p2).
Proof. apply resolvePair_far. Qed.

(** Two approaching particles exactly touching (centres 10 apart, radii
    5) are not resolved. *)
Lemma resolvePair_untouched_witness :
  let p1 := mkParticle 0 0 1 0 5 in
  let p2 := mkParticle 10 0 (-1) 0 5 in
  radius p1 + radius p2 <= centerDistance p1 p2 /\ resolvePair 0.9 p1 p2 = (p1, p2).
Proof.
  cbv zeta.
  assert (Hd : centerDistance (mkParticle 0 0 1 0 5) (mkParticle 10 0 (-1) 0 5) = 10)
    by (apply centerDistance_eq; simpl; lra).
  split; [rewrite Hd; simpl; lra|]. apply resolvePair_untouched. rewrite Hd. simpl. lra.
Defined.

Lemma resolvePair_sums e p1 p2 :
  let '(q1, q2) := resolvePair e p1 p2 in
  vx q1 + vx q2 = vx p1 + vx p2 /\ vy q1 + vy q2 = vy p1 + vy p2.
Proof.
  destruct (Rlt_le_dec (centerDistance p1 p2) (radius p1 + radius p2)) as [Hn|Hf].
  - rewrite (resolvePair_near e p1 p2 Hn).
    pose proof (handleCollision_velocity_sum e p1 p2) as Hm.
    destruct (handleCollision e p1 p2) as [q1 q2]. exact Hm.
  - rewrite (resolvePair_far e p1 p2 Hf). split; reflexivity.
Qed.

(** Two particles on a row, [d] apart. *)
Lemma row_distance a b d u1 w1 u2 w2 r1 r2 :
  0 <= d -> centerDistance (mkParticle a b u1 w1 r1) (mkParticle (a + d) b u2 w2 r2) = d.
Proof. intros Hd. apply centerDistance_eq; [exact Hd | cbn; ring]. Qed.

(** Two resting particles on a row, overlapping at a positive distance:
    no impulse, and each is pushed back by half the overlap. *)
Lemma resolvePair_row_rest e a b d r1 r2 :
  0 < d < r1 + r2 ->
  resolvePair e (mkParticle a b 0 0 r1) (mkParticle (a + d) b 0 0 r2) =
  (mkParticle (a - (r1 + r2 - d) / 2) b 0 0 r1, mkParticle (a + d + (r1 + r2 - d) / 2) b 0 0 r2).
Proof.
  intros Hd. pose proof (row_distance a b d 0 0 0 0 r1 r2 ltac:(lra)) as Hc.
  rewrite resolvePair_near by (rewrite Hc; cbn; lra).
  assert (Hn : normalVelocity (mkParticle a b 0 0 r1) (mkParticle (a + d) b 0 0 r2) = 0)
    by (unfold normalVelocity; cbn; ring).
  rewrite handleCollision_impulse by (rewrite ?Hc, ?Hn; lra). cbv zeta. rewrite Hn.
  unfold separation. rewrite Hc. cbn.
  unfold setPosition, setVelocity. cbn [x y vx vy radius]. f_equal; f_equal; field; lra.
Qed.

End ResolveR.

(** ** Coincident centres, with [NaN] *)

Section CoincidentNaN.
Local Open Scope R_scope.

(** Two particles at the same finite centre, with [NaN]. *)
Lemma resolvePair_same_centre (e : RN) (a b u1 w1 u2 w2 r1 r2 : R) :
  0 < r1 + r2 ->
  resolvePair e (mkParticle (Some a) (Some b) (Some u1) (Some w1) (Some r1))
    (mkParticle (Some a) (Some b) (Some u2) (Some w2) (Some r2)) =
  (mkParticle None None (Some u1) (Some w1) (Some r1),
   mkParticle None None (Some u2) (Some w2) (Some r2)).
Proof.
  intros Hr. unfold resolvePair, handleCollision. cbn [x y vx vy radius].
  rewrite !nan_sub, !nan_mul. rewrite nan_add. replace (a - a) with 0 by ring. replace (b - b) with 0 by ring.
  rewrite Rmult_0_l, Rplus_0_l, nan_sqrt, sqrt_0 by lra.
  rewrite nan_add, nan_lt, bool_decide_true by exact Hr.
  rewrite nan_zero, nan_eq, bool_decide_true by reflexivity.
  cbn [setPosition x y vx vy radius]. rewrite !nan_div_0. reflexivity.
Qed.

(** C25: coincident centres make the positions [NaN].  For any two
    particles with finite coordinates at the same centre and a positive
    sum of radii, the pair-loop body over JS numbers with [NaN] leaves both
    velocities as they were ([handleCollision] returns early on [dist ===
    0], line 44) and sets both particles' [x] and [y] to [NaN]: the
    separation of lines 108-112 computes [dx / dist = 0 / 0]. *)
Theorem resolvePair_coincident_nan (e : RN) (a b u1 w1 u2 w2 r1 r2 : R) :
  0 < r1 + r2 ->
  resolvePair e (mkParticle (Some a) (Some b) (Some u1) (Some w1) (Some r1))
    (mkParticle (Some a) (Some b) (Some u2) (Some w2) (Some r2)) =
  (mkParticle None None (Some u1) (Some w1) (Some r1),
   mkParticle None None (Some u2) (Some w2) (Some r2)).
Proof. apply resolvePair_same_centre. Qed.

(** Two particles of the canvas's radius dropped at the same point. *)
Lemma resolvePair_coincident_nan_witness :
  0 < 5 + 5 /\
  resolvePair (Some 0.9) (mkParticle (Some 200) (Some 200) (Some 1) (Some 0) (Some 5))
    (mkParticle (Some 200) (Some 200) (Some (-1)) (Some 0) (Some 5)) =
  (mkParticle None None (Some 1) (Some 0) (Some 5), mkParticle None None (Some (-1)) (Some 0) (Some 5)).
Proof. split; [lra|]. apply resolvePair_coincident_nan. lra. Defined.
End CoincidentNaN.
