(* ===== verification/Kinetics.v ===== *)
(** * One animation frame: [updateParticles]

    The frame function of [SimulationCanvas.js] (lines 70-130, its
    physics; the drawing of lines 63-68 and 133-153 is in [CanvasDraw]): integrate positions, reflect at the
    walls, resolve every pair [i < j] in ascending order (lines 99-117),
    then rescale all velocities to the desired mean speed (lines 120-130).

    The ensemble is a list updated by index with stdpp's [<[i:=p]>]; the
    nested loop is a [fold_left] over [seq], so it terminates by
    construction, and [particleCollisions_ind] is its induction principle:
    any property kept by one pair step holds after the whole pass.

    In any number type the ensemble keeps its size and every particle its
    radius.  Over the reals: the pair pass conserves total momentum and
    never increases the kinetic energy; after the thermostat the mean
    speed is [baseSpeedFactor * sqrt T], unless every particle is at rest,
    and an ensemble at rest stays at rest forever.  What a frame does not
    guarantee, for whole families of inputs: a particle at the wall can
    end the frame outside it, and one pass can leave two particles
    overlapping that did not overlap before.  Over JS numbers with [NaN]:
    a pair with a [NaN] [x] is never resolved, so a [NaN] position stays,
    and two particles that leave through the top-left corner in the same
    frame are both put at [(r, r)] and end the frame with [NaN]
    positions. *)

From Stdlib Require Import Reals Lra.
From stdpp Require Import base decidable list.
From S2P Require Import Prelude JSNumber Particle Collision.

Section Frame.
Context {A : Type} `{JSNum A}.
Local Open Scope js_scope.

(** One iteration [(i, j)] of the pair loop: [p1 = particles[i]],
    [p2 = particles[j]], both objects updated in place. *)
Definition collideAt (restitution : A) (ps : list (particle A)) (i j : nat)
    : list (particle A) :=
  match ps !! i, ps !! j with
  | Some p1, Some p2 =>
      let '(q1, q2) := resolvePair restitution p1 p2 in
      <[j := q2]> (<[i := q1]> ps)
  | _, _ => ps
  end.

(** [for (let j = i + 1; j < particles.length; j++)] (line 100). *)
Definition innerLoop (restitution : A) (ps : list (particle A)) (i : nat)
    : list (particle A) :=
  fold_left (fun acc j => collideAt restitution acc i j)
    (seq (S i) (length ps - S i)) ps.

(** [for (let i = 0; i < particles.length; i++)] (line 99). *)
Definition particleCollisions (restitution : A) (ps : list (particle A))
    : list (particle A) :=
  fold_left (fun acc i => innerLoop restitution acc i) (seq 0 (length ps)) ps.

(** [sumSpeed] (lines 120-124): a left fold from [0]. *)
Definition sumSpeed (ps : list (particle A)) : A :=
  fold_left (fun s p => s + speed p) ps js_zero.

(** [avgSpeed = sumSpeed / particles.length] (line 125). *)
Definition avgSpeed (ps : list (particle A)) : A :=
  sumSpeed ps / js_of_nat (length ps).

(** [p.vx *= scale; p.vy *= scale] (lines 128-129). *)
Definition scaleVelocity (scale : A) (p : particle A) : particle A :=
  setVelocity p (vx p * scale) (vy p * scale).

(** The thermostat (lines 120-130); [avgSpeed || 1] replaces a zero (or
    [NaN]) mean speed by [1]. *)
Definition thermostat (desiredAvgSpeed : A) (ps : list (particle A))
    : list (particle A) :=
  let scale := desiredAvgSpeed / (avgSpeed ps || js_one) in
  map (scaleVelocity scale) ps.

(** [baseSpeedFactor * Math.sqrt(currentTemp)] (line 71). *)
Definition desiredAvgSpeed (cfg : config A) (T : A) : A :=
  baseSpeedFactor cfg * js_sqrt T.

(** The simulation part of [updateParticles] (lines 70-130). *)
Definition updateParticles (cfg : config A) (T : A) (ps : list (particle A))
    : list (particle A) :=
  let desired := desiredAvgSpeed cfg T in
  let ps1 := map move ps in
  let ps2 := map (wallCollide (width cfg) (height cfg)) ps1 in
  let ps3 := particleCollisions (restitution cfg) ps2 in
  thermostat desired ps3.

(** ** The loop structure *)

Lemma collideAt_length e ps i j : length (collideAt e ps i j) = length ps.
Proof.
  unfold collideAt. destruct (ps !! i), (ps !! j); try reflexivity.
  destruct (resolvePair e _ _). rewrite !length_insert. reflexivity.
Qed.

Lemma innerLoop_length e ps i : length (innerLoop e ps i) = length ps.
Proof.
  unfold innerLoop. apply (fold_left_invariant (fun l => length l = length ps));
    [reflexivity|]. intros acc j _ Hl. rewrite collideAt_length. exact Hl.
Qed.

(** The induction principle of the pair pass. *)
Lemma particleCollisions_ind (P : list (particle A) -> Prop) e ps :
  P ps ->
  (forall l i j, P l -> i < j -> length l = length ps -> P (collideAt e l i j)) ->
  P (particleCollisions e ps).
Proof.
  intros H0 Hstep. unfold particleCollisions.
  apply (fold_left_invariant (fun l => P l /\ length l = length ps)); [split; auto|].
  intros acc i _ [HP Hl]. unfold innerLoop.
  apply (fold_left_invariant (fun l => P l /\ length l = length ps)); [split; auto|].
  intros acc' j Hj [HP' Hl']. apply in_seq in Hj. split.
  - apply Hstep; [exact HP' | lia | exact Hl'].
  - rewrite collideAt_length. exact Hl'.
Qed.

Lemma particleCollisions_length e ps : length (particleCollisions e ps) = length ps.
Proof.
  apply (particleCollisions_ind (fun l => length l = length ps)); [reflexivity|].
  intros l i j _ _ Hl. rewrite collideAt_length. exact Hl.
Qed.

Lemma updateParticles_length cfg T ps : length (updateParticles cfg T ps) = length ps.
Proof.
  unfold updateParticles, thermostat.
  rewrite length_map, particleCollisions_length, !length_map. reflexivity.
Qed.
(** The pass over two and three particles, pair by pair in the loop's
    order. *)
Lemma particleCollisions_two e p1 p2 :
  particleCollisions e [p1; p2] = let '(q1, q2) := resolvePair e p1 p2 in [q1; q2].
Proof.
  unfold particleCollisions, innerLoop, collideAt. cbn.
  destruct (resolvePair e p1 p2); reflexivity.
Qed.

Lemma particleCollisions_three e p0 p1 p2 :
  particleCollisions e [p0; p1; p2] =
  let '(a0, a1) := resolvePair e p0 p1 in
  let '(b0, a2) := resolvePair e a0 p2 in
  let '(c1, c2) := resolvePair e a1 a2 in [b0; c1; c2].
Proof.
  unfold particleCollisions, innerLoop, collideAt. cbn.
  destruct (resolvePair e p0 p1) as [a0 a1]. cbn.
  destruct (resolvePair e a0 p2) as [b0 a2]. cbn.
  destruct (resolvePair e a1 a2); reflexivity.
Qed.

(** The first step of the pass is the pair (0, 1); any property that step
    establishes and every step keeps holds after the pass. *)
Lemma particleCollisions_first (P : list (particle A) -> Prop) e p0 p1 rest :
  P (collideAt e (p0 :: p1 :: rest) 0 1) ->
  (forall l i j, P l -> P (collideAt e l i j)) ->
  P (particleCollisions e (p0 :: p1 :: rest)).
Proof.
  intros H0 Hstep.
  assert (Hin : forall l i, P l -> P (innerLoop e l i)).
  { intros l i Hl. unfold innerLoop. apply fold_left_invariant; [exact Hl|].
    intros acc j _ Ha. apply Hstep, Ha. }
  assert (Hc : forall (f : list (particle A) -> nat -> list (particle A)) k l a,
            fold_left f (k :: l) a = fold_left f l (f a k)) by reflexivity.
  unfold particleCollisions.
  change (seq 0 (length (p0 :: p1 :: rest))) with (0 :: seq 1 (S (length rest))).
  rewrite Hc. apply (fold_left_invariant P); [|intros acc i _ Ha; apply Hin, Ha].
  unfold innerLoop.
  change (seq 1 (length (p0 :: p1 :: rest) - 1)) with (1 :: seq 2 (length rest)).
  rewrite Hc. apply (fold_left_invariant P); [exact H0|]. intros acc j _ Ha. apply Hstep, Ha.
Qed.

(** The thermostat writes only velocities. *)
Lemma thermostat_x d ps : map x (thermostat d ps) = map x ps.
Proof. unfold thermostat. rewrite map_map. reflexivity. Qed.

(** The pass keeps the radius at every index, in any number type. *)
Lemma particleCollisions_radius e ps :
  map radius (particleCollisions e ps) = map radius ps.
Proof.
  apply (particleCollisions_ind (fun l => map radius l = map radius ps)); [reflexivity|].
  intros l i j Hl _ _. rewrite <- Hl. unfold collideAt.
  destruct (l !! i) as [p1|] eqn:E1; [|reflexivity]. destruct (l !! j) as [p2|] eqn:E2; [|reflexivity].
  pose proof (resolvePair_radius e p1 p2) as [Hr1 Hr2].
  destruct (resolvePair e p1 p2) as [q1 q2]. cbn in Hr1, Hr2.
  rewrite !map_insert, Hr1, Hr2. rewrite list_insert_id; [apply list_insert_id|].
  - rewrite lookup_map, E1. reflexivity.
  - destruct (decide (i = j)) as [->|Hij].
    + rewrite list_lookup_insert_eq; [congruence|].
      rewrite length_map. eapply lookup_lt_Some, E1.
    + rewrite list_lookup_insert_ne by exact Hij. rewrite lookup_map, E2. reflexivity.
Qed.

Lemma updateParticles_radii cfg T ps :
  map radius (updateParticles cfg T ps) = map radius ps.
Proof.
  unfold updateParticles, thermostat. rewrite map_map. cbn [radius scaleVelocity setVelocity].
  rewrite <- (map_map (fun p => p) radius), map_id.
  rewrite particleCollisions_radius, !map_map.
  apply map_ext. intros p. rewrite wallCollide_radius. reflexivity.
Qed.
End Frame.

(** ** The pair pass over the reals *)

Section PassR.
Local Open Scope R_scope.
Implicit Types (ps : list (particle R)) (e : R).

(** One pair step does not increase a sum [f q1 + f q2 <= f p1 + f p2]
    that [resolvePair] does not increase. *)
Lemma collideAt_sum_le (f : particle R -> R) e ps i j :
  i <> j ->
  (forall p1 p2, let '(q1, q2) := resolvePair e p1 p2 in f q1 + f q2 <= f p1 + f p2) ->
  sumR (map f (collideAt e ps i j)) <= sumR (map f ps).
Proof.
  intros Hij Hf. unfold collideAt.
  destruct (ps !! i) as [p1|] eqn:E1; [|lra]. destruct (ps !! j) as [p2|] eqn:E2; [|lra].
  specialize (Hf p1 p2). destruct (resolvePair e p1 p2) as [q1 q2].
  rewrite (sumR_map_insert f _ j q2 p2) by (rewrite list_lookup_insert_ne; auto).
  rewrite (sumR_map_insert f ps i q1 p1 E1). lra.
Qed.

Lemma particleCollisions_sum_le (f : particle R -> R) e ps :
  (forall p1 p2, let '(q1, q2) := resolvePair e p1 p2 in f q1 + f q2 <= f p1 + f p2) ->
  sumR (map f (particleCollisions e ps)) <= sumR (map f ps).
Proof.
  intros Hf. apply (particleCollisions_ind (fun l => sumR (map f l) <= sumR (map f ps)));
    [lra|]. intros l i j Hl Hij _.
  pose proof (collideAt_sum_le f e l i j ltac:(lia) Hf). lra.
Qed.

Lemma particleCollisions_sum_eq (f : particle R -> R) e ps :
  (forall p1 p2, let '(q1, q2) := resolvePair e p1 p2 in f q1 + f q2 = f p1 + f p2) ->
  sumR (map f (particleCollisions e ps)) = sumR (map f ps).
Proof.
  intros Hf. apply Rle_antisym.
  - apply particleCollisions_sum_le. intros p1 p2. specialize (Hf p1 p2).
    destruct (resolvePair e p1 p2). lra.
  - pose proof (particleCollisions_sum_le (fun p => -1 * f p) e ps) as Hn.
    rewrite !sumR_scale in Hn. enough (H1 : -1 * sumR (map f (particleCollisions e ps)) <=
      -1 * sumR (map f ps)) by lra.
    apply Hn. intros p1 p2. specialize (Hf p1 p2). destruct (resolvePair e p1 p2). lra.
Qed.

(** A per-particle property kept by [resolvePair] holds after the pass. *)
Lemma particleCollisions_Forall (P : particle R -> Prop) e ps :
  (forall p1 p2, P p1 -> P p2 -> let '(q1, q2) := resolvePair e p1 p2 in P q1 /\ P q2) ->
  Forall P ps -> Forall P (particleCollisions e ps).
Proof.
  intros HP Hps. apply (particleCollisions_ind (Forall P)); [exact Hps|].
  intros l i j Hl _ _. unfold collideAt.
  destruct (l !! i) as [p1|] eqn:E1; [|exact Hl]. destruct (l !! j) as [p2|] eqn:E2; [|exact Hl].
  specialize (HP p1 p2 (Forall_lookup_1 _ _ _ _ Hl E1) (Forall_lookup_1 _ _ _ _ Hl E2)).
  destruct (resolvePair e p1 p2) as [q1 q2]. destruct HP as [Hq1 Hq2].
  apply Forall_insert; [apply Forall_insert|]; assumption.
Qed.






(** C7: the pair pass conserves the total momentum: the sums of [vx] and
    of [vy] over the ensemble are the same after the pass as before. *)
Theorem particleCollisions_momentum e ps :
  let ps' := particleCollisions e ps in
  sumR (map vx ps') = sumR (map vx ps) /\ sumR (map vy ps') = sumR (map vy ps).
Proof.
  split; apply particleCollisions_sum_eq; intros p1 p2;
    pose proof (resolvePair_sums e p1 p2) as Hc;
    destruct (resolvePair e p1 p2); tauto.
Qed.

Lemma resolvePair_energy_le e p1 p2 :
  0 <= e <= 1 ->
  let '(q1, q2) := resolvePair e p1 p2 in
  speedSq q1 + speedSq q2 <= speedSq p1 + speedSq p2.
Proof.
  intros He. destruct (Rlt_le_dec (centerDistance p1 p2) (radius p1 + radius p2)) as [Hn|Hf].
  - rewrite (resolvePair_near e p1 p2 Hn).
    pose proof (handleCollision_energy_le e p1 p2 He) as HE.
    destruct (handleCollision e p1 p2) as [q1 q2]. exact HE.
  - rewrite (resolvePair_far e p1 p2 Hf). lra.
Qed.

(** C8: with a restitution in [[0, 1]] the pair pass never increases the
    total kinetic energy. *)
Theorem particleCollisions_energy e ps :
  0 <= e <= 1 ->
  sumR (map speedSq (particleCollisions e ps)) <= sumR (map speedSq ps).
Proof. intros He. apply particleCollisions_sum_le. intros. apply resolvePair_energy_le, He. Qed.

(** The head-on pair of [Collision] with the canvas's restitution. *)
Lemma particleCollisions_energy_witness :
  0 <= 0.9 <= 1 /\
  sumR (map speedSq (particleCollisions 0.9 [headOn1; headOn2])) <=
  sumR (map speedSq [headOn1; headOn2]).
Proof. split; [lra|]. apply particleCollisions_energy. lra.
Defined.

End PassR.

(** ** The thermostat over the reals *)

Section ThermostatR.
Local Open Scope R_scope.
Implicit Types (ps : list (particle R)) (p : particle R).

Definition atRest p : Prop := vx p = 0 /\ vy p = 0.

Lemma speed_nonneg p : 0 <= speed p.
Proof. apply sqrt_pos. Qed.

Lemma sumSpeed_sumR ps : sumSpeed ps = sumR (map speed ps).
Proof. unfold sumSpeed. js_R. rewrite fold_left_Rplus_map. lra. Qed.

Lemma sumSpeed_nonneg ps : 0 <= sumSpeed ps.
Proof. rewrite sumSpeed_sumR. apply sumR_nonneg. forall_nonneg speed_nonneg. Qed.

Lemma avgSpeed_nonneg ps : 0 <= avgSpeed ps.
Proof.
  unfold avgSpeed. js_R. unfold Rdiv. apply Rmult_le_pos; [apply sumSpeed_nonneg|].
  destruct (length ps) as [|n]; [change (INR 0) with 0; rewrite Rinv_0; lra|].
  apply Rlt_le, Rinv_0_lt_compat, lt_0_INR. lia.
Qed.

Lemma speed_scale s p : speed (scaleVelocity s p) = Rabs s * speed p.
Proof.
  unfold speed, scaleVelocity. js_R. cbn [vx vy setVelocity].
  replace (vx p * s * (vx p * s) + vy p * s * (vy p * s))
    with ((s * s) * (vx p * vx p + vy p * vy p)) by ring.
  rewrite sqrt_mult_alt by (apply Rle_0_sqr). rewrite <- sqrt_Rsqr_abs. reflexivity.
Qed.

Lemma speed_zero p : speed p = 0 -> atRest p.
Proof.
  unfold speed, atRest. js_R. intros Hs.
  apply sqrt_eq_0 in Hs; [|auto with mbsim].
  pose proof (Rle_0_sqr (vx p)). pose proof (Rle_0_sqr (vy p)). unfold Rsqr in *.
  split; nra.
Qed.

(** A zero mean speed means every particle is at rest. *)
Lemma avgSpeed_zero ps : avgSpeed ps = 0 -> Forall atRest ps.
Proof.
  unfold avgSpeed. js_R. intros Ha. unfold Rdiv in Ha.
  apply Rmult_integral in Ha as [Hs|Hn].
  - rewrite sumSpeed_sumR in Hs.
    apply sumR_nonneg_zero in Hs; [|forall_nonneg speed_nonneg].
    apply List.Forall_forall. intros p Hp. apply speed_zero.
    rewrite List.Forall_forall in Hs. apply Hs, in_map, Hp.
  - destruct ps as [|p ps]; [constructor|].
    exfalso. revert Hn. apply Rinv_neq_0_compat. apply not_0_INR. simpl. lia.
Qed.

Lemma scaleVelocity_atRest s p : atRest p -> atRest (scaleVelocity s p).
Proof.
  unfold atRest, scaleVelocity. js_R. cbn [vx vy setVelocity]. intros [-> ->]. lra.
Qed.

Lemma avgSpeed_scale s ps :
  avgSpeed (map (scaleVelocity s) ps) = Rabs s * avgSpeed ps.
Proof.
  unfold avgSpeed. js_R. rewrite length_map, !sumSpeed_sumR, map_map.
  erewrite sumR_map_ext by (intros; apply speed_scale).
  rewrite sumR_scale. unfold Rdiv. ring.
Qed.

Lemma thermostat_mean_speed d ps :
  0 <= d ->
  avgSpeed (thermostat d ps) = d \/ (Forall atRest ps /\ Forall atRest (thermostat d ps)).
Proof.
  intros Hd. unfold thermostat. autorewrite with mbsim_rw.
  destruct (decide (avgSpeed ps = 0)) as [H0|H0].
  - right. pose proof (avgSpeed_zero ps H0) as Hr. split; [exact Hr|].
    apply List.Forall_map. eapply Forall_impl; [exact Hr|]. intros p. apply scaleVelocity_atRest.
  - left. rewrite avgSpeed_scale. pose proof (avgSpeed_nonneg ps). js_R.
    rewrite Rabs_right; [field; exact H0|].
    apply Rle_ge. unfold Rdiv. apply Rmult_le_pos; [exact Hd|].
    apply Rlt_le, Rinv_0_lt_compat. lra.
Qed.

(** C1: the thermostat.  When the mean speed is non-zero, rescaling makes
    it exactly the desired mean speed [d]; when it is zero every particle
    is at rest, before and after. *)
Theorem thermostat_avgSpeed d ps :
  0 <= d ->
  avgSpeed (thermostat d ps) = d \/ (Forall atRest ps /\ Forall atRest (thermostat d ps)).
Proof. apply thermostat_mean_speed. Qed.

Lemma thermostat_avgSpeed_witness :
  0 <= 2 /\
  (avgSpeed (thermostat 2 [headOn1; headOn2]) = 2 \/
   (Forall atRest [headOn1; headOn2] /\ Forall atRest (thermostat 2 [headOn1; headOn2]))).
Proof. split; [lra|]. apply thermostat_avgSpeed. lra.
Defined.
End ThermostatR.

(** ** A whole frame over the reals *)

Section FrameR.
Local Open Scope R_scope.
Implicit Types (ps : list (particle R)) (p : particle R) (cfg : config R).

Lemma wallCollide_atRest (W H : R) p : atRest p -> atRest (wallCollide W H p).
Proof.
  unfold atRest, wallCollide. intros [Hx Hy].
  destruct (wallX_cases W p) as [[_ E]|[[_ [_ E]]|[_ [_ E]]]]; rewrite E;
    [set (p' := mkParticle _ _ _ _ _)|set (p' := mkParticle _ _ _ _ _)|set (p' := p)];
    destruct (wallY_cases H p') as [[_ ->]|[[_ [_ ->]]|[_ [_ ->]]]]; subst p'; cbn;
    rewrite ?Hx, ?Hy, ?Rabs_R0; lra.
Qed.

Lemma setVelocity_id p a b : a = vx p -> b = vy p -> setVelocity p a b = p.
Proof. intros -> ->. destruct p. reflexivity. Qed.

Lemma resolvePair_atRest e p1 p2 :
  atRest p1 -> atRest p2 -> let '(q1, q2) := resolvePair e p1 p2 in atRest q1 /\ atRest q2.
Proof.
  intros [Hx1 Hy1] [Hx2 Hy2].
  assert (Hh : handleCollision e p1 p2 = (p1, p2)).
  { destruct (handleCollision_cases e p1 p2) as [Hs|[Hd Hn]];
      [apply handleCollision_skip, Hs|].
    rewrite (handleCollision_impulse e p1 p2 Hd Hn).
    assert (Hnv : normalVelocity p1 p2 = 0)
      by (unfold normalVelocity; rewrite Hx1, Hy1, Hx2, Hy2; ring).
    cbv zeta. rewrite Hnv. f_equal; apply setVelocity_id; unfold Rdiv; rewrite Rmult_0_r, Rmult_0_l, Rmult_0_l; lra. }
  destruct (Rlt_le_dec (centerDistance p1 p2) (radius p1 + radius p2)) as [Hn|Hf].
  - rewrite (resolvePair_near e p1 p2 Hn), Hh. unfold atRest. cbn. lra.
  - rewrite (resolvePair_far e p1 p2 Hf). unfold atRest. lra.
Qed.

Lemma updateParticles_mean_speed cfg T ps :
  0 <= baseSpeedFactor cfg ->
  avgSpeed (updateParticles cfg T ps) = baseSpeedFactor cfg * sqrt T \/
  Forall atRest (updateParticles cfg T ps).
Proof.
  intros Hk. unfold updateParticles.
  destruct (thermostat_mean_speed (desiredAvgSpeed cfg T)
              (particleCollisions (restitution cfg)
                 (map (wallCollide (width cfg) (height cfg)) (map move ps))))
    as [E|[_ E]].
  - apply Rmult_le_pos; auto with mbsim.
  - left. exact E.
  - right. exact E.
Qed.

(** C9: after a frame the mean speed is the desired one,
    [baseSpeedFactor * sqrt T], unless the whole ensemble is at rest. *)
Theorem updateParticles_avgSpeed cfg T ps :
  0 <= baseSpeedFactor cfg ->
  avgSpeed (updateParticles cfg T ps) = baseSpeedFactor cfg * sqrt T \/
  Forall atRest (updateParticles cfg T ps).
Proof. apply updateParticles_mean_speed. Qed.

Lemma updateParticles_avgSpeed_witness :
  0 <= baseSpeedFactor canvasConfig /\
  (avgSpeed (updateParticles canvasConfig 300 [headOn1; headOn2]) =
     baseSpeedFactor canvasConfig * sqrt 300 \/
   Forall atRest (updateParticles canvasConfig 300 [headOn1; headOn2])).
Proof. split; [simpl; lra|]. apply updateParticles_avgSpeed. simpl. lra.
Defined.

(** Rest is absorbing: the thermostat multiplies zero velocities, so an
    ensemble at rest stays at rest through a frame at any temperature. *)
Lemma updateParticles_rest cfg T ps :
  Forall atRest ps -> Forall atRest (updateParticles cfg T ps).
Proof.
  intros Hr. unfold updateParticles, thermostat.
  apply List.Forall_map. eapply Forall_impl; [|intros p; apply scaleVelocity_atRest].
  apply particleCollisions_Forall; [intros; apply resolvePair_atRest; assumption|].
  apply List.Forall_map, List.Forall_map. eapply Forall_impl; [exact Hr|].
  intros p Hp. apply wallCollide_atRest. exact Hp.
Qed.

Lemma updateParticles_stops_at_zero cfg ps :
  Forall atRest (updateParticles cfg 0 ps).
Proof.
  unfold updateParticles, thermostat, desiredAvgSpeed. js_R. rewrite sqrt_0.
  apply List.Forall_map, List.Forall_forall. intros p _.
  unfold atRest, scaleVelocity. js_R. cbn [vx vy setVelocity].
  unfold Rdiv. split; ring.
Qed.

End FrameR.

(** ** What one frame does not guarantee *)

Section Limits.
Local Open Scope R_scope.

Lemma move_rest a b r : move (mkParticle a b 0 0 r) = mkParticle a b 0 0 r.
Proof. unfold move. js_R. cbn. rewrite !Rplus_0_r. reflexivity. Qed.

Lemma wallCollide_inside (W H : R) p :
  0 <= x p - radius p -> x p + radius p <= W -> 0 <= y p - radius p -> y p + radius p <= H ->
  wallCollide W H p = p.
Proof.
  intros. unfold wallCollide, wallX. js_R.
  do 2 (case_bool_decide; [lra|]). unfold wallY. js_R.
  do 2 (case_bool_decide; [lra|]). reflexivity.
Qed.

(** C26: the walls do not contain the particles at the end of a frame.
    Two resting particles of radius [r] on a row, the first against the
    left wall and the second [d < 2r] to its right: the wall pass leaves
    both where they are, then the separation (lines 108-114) pushes the
    first to [x = d/2], left of [r], outside the box the wall pass
    guarantees; the thermostat does not move anything. *)
Theorem updateParticles_leaves_box cfg T b r d :
  0 < d < 2 * r -> 2 * r + d <= width cfg -> r <= b -> b + r <= height cfg ->
  map x (updateParticles cfg T [mkParticle r b 0 0 r; mkParticle (r + d) b 0 0 r]) =
    [d / 2; 2 * r + d / 2] /\
  d / 2 < r.
Proof.
  intros Hd Hw Hb Hh. split; [|lra].
  unfold updateParticles. rewrite thermostat_x. cbn [map]. rewrite !move_rest.
  rewrite !wallCollide_inside by (cbn; lra).
  rewrite particleCollisions_two, resolvePair_row_rest by lra.
  cbn. f_equal; [|f_equal]; field.
Qed.

(** The canvas's particles, the first at the wall, the second 3 away. *)
Lemma updateParticles_leaves_box_witness :
  (0 < 3 < 2 * 5 /\ 2 * 5 + 3 <= width canvasConfig /\ 5 <= 200 /\ 200 + 5 <= height canvasConfig) /\
  map x (updateParticles canvasConfig 300 [mkParticle 5 200 0 0 5; mkParticle (5 + 3) 200 0 0 5]) =
    [3 / 2; 2 * 5 + 3 / 2] /\
  3 / 2 < 5.
Proof.
  split; [cbn; lra|]. apply updateParticles_leaves_box; cbn; lra.
Defined.

(** C27: one pass over the pairs does not remove every overlap, and can
    create one.  Three resting particles of radius [r] on a row: the first
    two exactly touching (centres [2r] apart), the last two overlapping
    ([d < 2r] apart).  The pairs (0, 1) and (0, 2) are not resolved; the
    pair (1, 2), resolved last, pushes particle 1 back to [r + d/2] from
    particle 0, which now overlaps it, and nothing resolves it in this
    pass. *)
Theorem particleCollisions_overlap_remains e a b r d :
  0 < d < 2 * r ->
  particleCollisions e [mkParticle a b 0 0 r; mkParticle (a + 2 * r) b 0 0 r;
                        mkParticle (a + 2 * r + d) b 0 0 r] =
    [mkParticle a b 0 0 r; mkParticle (a + r + d / 2) b 0 0 r; mkParticle (a + 3 * r + d / 2) b 0 0 r] /\
  centerDistance (mkParticle a b 0 0 r) (mkParticle (a + r + d / 2) b 0 0 r) < r + r.
Proof.
  intros Hd. split;
    [|replace (a + r + d / 2) with (a + (r + d / 2)) by ring; rewrite row_distance; lra].
  rewrite particleCollisions_three.
  rewrite resolvePair_far by (rewrite row_distance; cbn; lra).
  replace (a + 2 * r + d) with (a + (2 * r + d)) by ring.
  rewrite resolvePair_far by (rewrite row_distance; cbn; lra).
  replace (a + (2 * r + d)) with ((a + 2 * r) + d) by ring.
  rewrite resolvePair_row_rest by lra.
  replace (a + 2 * r - (r + r - d) / 2) with (a + r + d / 2) by field.
  replace (a + 2 * r + d + (r + r - d) / 2) with (a + 3 * r + d / 2) by field. reflexivity.
Qed.

(** The canvas's radius, centres [10] and [6] apart. *)
Lemma particleCollisions_overlap_remains_witness :
  0 < 6 < 2 * 5 /\
  particleCollisions 0.9 [mkParticle 100 200 0 0 5; mkParticle (100 + 2 * 5) 200 0 0 5;
                          mkParticle (100 + 2 * 5 + 6) 200 0 0 5] =
    [mkParticle 100 200 0 0 5; mkParticle (100 + 5 + 6 / 2) 200 0 0 5;
     mkParticle (100 + 3 * 5 + 6 / 2) 200 0 0 5] /\
  centerDistance (mkParticle 100 200 0 0 5) (mkParticle (100 + 5 + 6 / 2) 200 0 0 5) < 5 + 5.
Proof. split; [lra|]. apply particleCollisions_overlap_remains. lra. Defined.
End Limits.

(** ** A [NaN] position is never resolved again *)

Section PassNaN.
Local Open Scope R_scope.
Implicit Types (ps l : list (particle RN)) (p : particle RN) (e : RN).

(** A particle with a [NaN] [x] makes [dist] [NaN], so [dist < r1 + r2] is
    false and the pair is left alone. *)
Lemma resolvePair_nan_l e p1 p2 : x p1 = None -> resolvePair e p1 p2 = (p1, p2).
Proof.
  intros Hx. unfold resolvePair. rewrite Hx, nan_sub_r, nan_mul_l, nan_add_l, nan_sqrt_nan, nan_lt_l.
  reflexivity.
Qed.

Lemma resolvePair_nan_r e p1 p2 : x p2 = None -> resolvePair e p1 p2 = (p1, p2).
Proof.
  intros Hx. unfold resolvePair. rewrite Hx, nan_sub_l, nan_mul_l, nan_add_l, nan_sqrt_nan, nan_lt_l.
  reflexivity.
Qed.

(** A step on a pair with a [NaN] [x] leaves the ensemble as it is. *)
Lemma collideAt_nan_id e l i j p1 p2 :
  l !! i = Some p1 -> l !! j = Some p2 -> x p1 = None \/ x p2 = None -> collideAt e l i j = l.
Proof.
  intros E1 E2 Hx. unfold collideAt. rewrite E1, E2.
  destruct Hx as [Hx|Hx]; [rewrite resolvePair_nan_l by exact Hx | rewrite resolvePair_nan_r by exact Hx];
    rewrite (list_insert_id l i p1 E1); apply list_insert_id, E2.
Qed.

(** Every step keeps a particle whose [x] is [NaN]. *)
Lemma collideAt_nan e l i j k p :
  l !! k = Some p -> x p = None -> collideAt e l i j !! k = Some p.
Proof.
  intros Ek Hx. destruct (l !! i) as [p1|] eqn:E1; [|unfold collideAt; rewrite E1; exact Ek].
  destruct (l !! j) as [p2|] eqn:E2; [|unfold collideAt; rewrite E1, E2; exact Ek].
  destruct (decide (k = i)) as [->|Hi];
    [rewrite (collideAt_nan_id e l i j p1 p2 E1 E2); [exact Ek | left; congruence]|].
  destruct (decide (k = j)) as [->|Hj];
    [rewrite (collideAt_nan_id e l i j p1 p2 E1 E2); [exact Ek | right; congruence]|].
  unfold collideAt. rewrite E1, E2. destruct (resolvePair e p1 p2).
  rewrite !list_lookup_insert_ne by congruence. exact Ek.
Qed.

(** A particle leaving through the top-left corner is put at [(r, r)]. *)
Lemma wall_corner W H a b u v r :
  a + u < r -> b + v < r ->
  wallCollide W H (move (mkParticle (Some a) (Some b) (Some u) (Some v) (Some r))) =
  mkParticle (Some r) (Some r) (Some (Rabs u)) (Some (Rabs v)) (Some r).
Proof.
  intros Ha Hb. unfold wallCollide, move, wallX. cbn [x y vx vy radius].
  rewrite !nan_add, nan_sub, nan_zero, nan_lt, bool_decide_true by lra. rewrite nan_abs.
  unfold wallY. cbn [x y vx vy radius].
  rewrite nan_sub, nan_zero, nan_lt, bool_decide_true by lra. rewrite nan_abs. reflexivity.
Qed.

(** Two particles that leave through the top-left corner in the same frame
    are both put at [(r, r)]; the first pair the loop resolves is theirs,
    at distance [0], and the frame ends with the first particle's [x]
    [NaN]. *)
Lemma updateParticles_corner_nan cfg T a0 b0 u0 v0 a1 b1 u1 v1 r rest :
  0 < r -> a0 + u0 < r -> b0 + v0 < r -> a1 + u1 < r -> b1 + v1 < r ->
  exists q, updateParticles cfg T
    (mkParticle (Some a0) (Some b0) (Some u0) (Some v0) (Some r) ::
     mkParticle (Some a1) (Some b1) (Some u1) (Some v1) (Some r) :: rest) !! 0%nat = Some q /\ x q = None.
Proof.
  intros Hr H0 H0' H1 H1'. unfold updateParticles, thermostat.
  cbn [map]. rewrite !wall_corner by assumption.
  set (d := desiredAvgSpeed cfg T).
  set (ps := particleCollisions _ _).
  enough (Hq : exists q, ps !! 0%nat = Some q /\ x q = None).
  { destruct Hq as (q & Eq & Hx). exists (scaleVelocity (d / (avgSpeed ps || js_one))%js q).
    rewrite list_lookup_fmap, Eq. split; [reflexivity | exact Hx]. }
  subst ps. apply particleCollisions_first.
  - unfold collideAt. cbn [lookup list_lookup].
    rewrite (resolvePair_same_centre _ r r) by lra.
    eexists. split; reflexivity.
  - intros l i j (q & Eq & Hx). exists q. split; [apply collideAt_nan; assumption | exact Hx].
Qed.
End PassNaN.
