(* ===== verification/PairLoop.v ===== *)
(** * The pair loops as the JS runs them

    [Kinetics.particleCollisions] folds over [seq].  The code (lines
    99-117 of [SimulationCanvas.js]) is two [for] loops whose tests re-read
    [particles.length] before every iteration:
<<
      for (let i = 0; i < particles.length; i++)
        for (let j = i + 1; j < particles.length; j++) { ... }
>>
    [particleCollisionsLoop] is that text over [Loops.jsFor].  Two
    theorems relate the two:
    - termination ([particleCollisionsLoop_terminates]): with more fuel than
      particles the loops finish, and give [particleCollisions];
    - the reference ([particleCollisions_pairs]): the pass is the fold of
      the pair step over [pairsLex n], the list of all pairs [i < j < n] in
      lexicographic order, which has [n (n - 1) / 2] elements (1225 pair
      tests per frame for the 50 particles). *)

From Stdlib Require Import Reals Lra Lia.
From stdpp Require Import base decidable list.
From Stdlib Require PrimFloat.
From S2P Require Import Prelude JSNumber Loops Particle Collision Kinetics.

(** The pairs [(i, j)] with [i < j < n], in the order the loops visit
    them. *)
Definition pairsLex (n : nat) : list (nat * nat) :=
  flat_map (fun i => map (fun j => (i, j)) (seq (S i) (n - S i))) (seq 0 n).

Section Loops.
Context {A : Type} `{JSNum A}.

(** Lines 99-117: both bounds are [particles.length], read on the current
    array at each test. *)
Definition particleCollisionsLoop (fuel : nat) (restitution : A) (ps : list (particle A))
    : loopResult (list (particle A)) :=
  jsFor fuel length
    (fun i ps1 => jsFor fuel length (fun j ps2 => Done (collideAt restitution ps2 i j)) (S i) ps1)
    0 ps.

Lemma innerLoop_for fuel e (ps : list (particle A)) i :
  length ps - S i < fuel ->
  jsFor fuel length (fun j ps2 => Done (collideAt e ps2 i j)) (S i) ps = Done (innerLoop e ps i).
Proof.
  intros Hf. unfold innerLoop.
  apply (jsFor_terminates length _ (fun j acc => collideAt e acc i j) (length ps));
    [reflexivity | intros; rewrite collideAt_length; assumption | reflexivity | exact Hf].
Qed.

Lemma particleCollisionsLoop_done fuel e (ps : list (particle A)) :
  length ps < fuel -> particleCollisionsLoop fuel e ps = Done (particleCollisions e ps).
Proof.
  intros Hf. unfold particleCollisionsLoop, particleCollisions.
  rewrite (jsFor_terminates length _ (fun i acc => innerLoop e acc i) (length ps)).
  - rewrite Nat.sub_0_r. reflexivity.
  - intros j s _ Hs. apply innerLoop_for. lia.
  - intros j s Hs. rewrite innerLoop_length. exact Hs.
  - reflexivity.
  - lia.
Qed.

(** The pass is the fold over [pairsLex], given the outer indices still
    to visit. *)
Lemma innerLoops_pairs e (l : list nat) (acc : list (particle A)) :
  fold_left (fun acc i => innerLoop e acc i) l acc =
  fold_left (fun acc ij => collideAt e acc (fst ij) (snd ij))
    (flat_map (fun i => map (fun j => (i, j)) (seq (S i) (length acc - S i))) l) acc.
Proof.
  revert acc. induction l as [|i l IH]; intros acc; [reflexivity|].
  cbn [fold_left flat_map]. rewrite fold_left_app, IH, innerLoop_length.
  unfold innerLoop. rewrite fold_left_map_comp. reflexivity.
Qed.

Lemma particleCollisions_fold_pairs e (ps : list (particle A)) :
  particleCollisions e ps =
  fold_left (fun acc ij => collideAt e acc (fst ij) (snd ij)) (pairsLex (length ps)) ps.
Proof. unfold particleCollisions, pairsLex. apply innerLoops_pairs. Qed.
End Loops.

(** ** The pair list *)

Lemma pairsLex_In n i j : In (i, j) (pairsLex n) <-> i < j < n.
Proof.
  unfold pairsLex. rewrite in_flat_map. split.
  - intros (i' & Hi' & Hin). apply in_map_iff in Hin as (j' & [= <- <-] & Hj).
    apply in_seq in Hi'. apply in_seq in Hj. lia.
  - intros Hij. exists i. split; [apply in_seq; lia|].
    apply in_map_iff. exists j. split; [reflexivity|]. apply in_seq. lia.
Qed.

Lemma pairsLex_count_aux n k m :
  k + m = n ->
  2 * length (flat_map (fun i => map (fun j => (i, j)) (seq (S i) (n - S i))) (seq k m)) =
  m * (m - 1).
Proof.
  revert k. induction m as [|m IH]; intros k Hk; [reflexivity|].
  cbn [seq flat_map]. rewrite length_app, length_map, length_seq.
  rewrite Nat.mul_add_distr_l, (IH (S k)) by lia. replace (n - S k) with m by lia.
  destruct m; [reflexivity|]. nia.
Qed.

Lemma pairsLex_count n : 2 * length (pairsLex n) = n * (n - 1).
Proof. apply pairsLex_count_aux. lia. Qed.

(** ** The claims *)

Section Claims.
Context {A : Type} `{JSNum A}.

(** C13: the pair loops terminate.  With more fuel than particles (one unit
    per outer iteration and one for the final test), the two [for] loops
    of lines 99-117, re-reading [particles.length] at every test, finish
    and leave the array [particleCollisions] computes; with exactly
    [length ps] units the outer loop's last test is not reached. *)
Theorem particleCollisionsLoop_terminates fuel e (ps : list (particle A)) :
  length ps < fuel ->
  particleCollisionsLoop fuel e ps = Done (particleCollisions e ps) /\
  particleCollisionsLoop (length ps) e ps = Timeout.
Proof.
  intros Hf. split; [apply particleCollisionsLoop_done, Hf|].
  unfold particleCollisionsLoop. rewrite <- (Nat.sub_0_r (length ps)) at 1.
  apply (jsFor_timeout length _ (fun i acc => innerLoop e acc i) (length ps)); [| |reflexivity|lia].
  - intros j s Hj Hs. apply innerLoop_for. lia.
  - intros j s Hs. rewrite innerLoop_length. exact Hs.
Qed.

(** C14: the pair loops visit every unordered pair once, in lexicographic
    order: the pass is the fold of the pair step over [pairsLex n], whose
    elements are exactly the pairs [i < j < n], [n (n - 1) / 2] of them. *)
Theorem particleCollisions_pairs e (ps : list (particle A)) :
  particleCollisions e ps =
    fold_left (fun acc ij => collideAt e acc (fst ij) (snd ij)) (pairsLex (length ps)) ps /\
  (forall i j, In (i, j) (pairsLex (length ps)) <-> i < j < length ps) /\
  2 * length (pairsLex (length ps)) = length ps * (length ps - 1).
Proof.
  split; [apply particleCollisions_fold_pairs|].
  split; [intros; apply pairsLex_In | apply pairsLex_count].
Qed.
End Claims.

(** The canvas's 50 particles give 1225 pair tests per frame. *)
Lemma pairsLex_50 : length (pairsLex 50) = 1225.
Proof. vm_compute. reflexivity. Qed.

Module Float64Loop.
Import PrimFloat.
Local Open Scope float_scope.
Local Set Warnings "-inexact-float".

(** Three particles in binary64: four units of fuel suffice, three do
    not. *)
Lemma particleCollisionsLoop_terminates_witness :
  let ps := [mkParticle 100 200 0 0 5; mkParticle 106 200 0 0 5; mkParticle 112 200 0 0 5] in
  (length ps < 4)%nat /\
  (particleCollisionsLoop 4 0.9 ps = Done (particleCollisions 0.9 ps) /\
   particleCollisionsLoop (length ps) 0.9 ps = Timeout).
Proof.
  cbv zeta. split; [simpl; lia|]. apply particleCollisionsLoop_terminates. simpl. lia.
Defined.
End Float64Loop.
