(* ===== verification/Simulation.v ===== *)
(** * The simulation component as a state machine

    [SimulationCanvas] keeps two refs: [tempRef] (line 6, updated by the
    effect of lines 9-11) and [particlesRef] (line 21, filled once by the
    effect of lines 22-37 and mutated by every animation frame, lines
    62-158).  The component is modelled as a state of these two refs and
    three events: the mount effect that creates the particles (with the
    values [Math.random] returns, as a function from call number to value),
    a temperature change, and a frame.  [reachable] is the step relation's
    reflexive-transitive closure from the first render; invariants are
    proved by rule induction on it.

    The particle creation uses [Math.cos], [Math.sin] and [Math.PI], so
    this file is stated over the reals, where every value stays finite
    ([Math.sqrt] of a negative temperature is [0] here, a value the App's
    slider never passes).  The same component over JS numbers with [NaN],
    together with its drawing context, is [CanvasDraw.world]. *)

From Stdlib Require Import Reals Lra.
From stdpp Require Import base decidable list.
From S2P Require Import Prelude JSNumber Particle Collision Kinetics.

Local Open Scope R_scope.

(** ** Particle creation (lines 22-37) *)

(** One iteration of the creation loop (lines 26-33). *)
Definition initParticle (cfg : config R) (T rx ry ra : R) : particle R :=
  let x0 := rx * width cfg in
  let y0 := ry * height cfg in
  let angle := ra * 2 * PI in
  let speed0 := baseSpeedFactor cfg * sqrt T in
  mkParticle x0 y0 (speed0 * cos angle) (speed0 * sin angle) (initRadius cfg).

(** The loop of lines 25-34: particle [i] takes the [3i]-th, [3i+1]-th and
    [3i+2]-th values of [Math.random]. *)
Definition initParticles (cfg : config R) (T : R) (rnd : nat -> R) : list (particle R) :=
  map (fun i => initParticle cfg T (rnd (3 * i)%nat) (rnd (3 * i + 1)%nat) (rnd (3 * i + 2)%nat))
    (seq 0 (numParticles cfg)).

(** ** The component *)

Record canvasState := mkCanvas {
  tempRef : R;
  particlesRef : list (particle R)
}.

Inductive event :=
  | Mount (rnd : nat -> R)       (* the effect of lines 22-37 *)
  | SetTemperature (T : R)       (* the effect of lines 9-11 *)
  | Frame.                       (* one call of updateParticles *)

(** [useRef(temperature)] and [useRef([])] at the first render. *)
Definition initialState (T0 : R) : canvasState := mkCanvas T0 [].

Definition handleEvent (cfg : config R) (s : canvasState) (ev : event) : canvasState :=
  match ev with
  | Mount rnd =>
      if decide (length (particlesRef s) = 0)%nat
      then mkCanvas (tempRef s) (initParticles cfg (tempRef s) rnd)
      else s
  | SetTemperature T => mkCanvas T (particlesRef s)
  | Frame => mkCanvas (tempRef s) (updateParticles cfg (tempRef s) (particlesRef s))
  end.

(** A run of events in order. *)
Definition run (cfg : config R) (s : canvasState) (evs : list event) : canvasState :=
  fold_left (handleEvent cfg) evs s.

Inductive reachable (cfg : config R) (T0 : R) : canvasState -> Prop :=
  | reach_init : reachable cfg T0 (initialState T0)
  | reach_step s ev : reachable cfg T0 s -> reachable cfg T0 (handleEvent cfg s ev).

(** ** Creation *)

Lemma initParticles_length cfg T rnd : length (initParticles cfg T rnd) = numParticles cfg.
Proof. unfold initParticles. rewrite length_map, length_seq. reflexivity. Qed.

Lemma initParticle_speed cfg T rx ry ra :
  0 <= baseSpeedFactor cfg -> speed (initParticle cfg T rx ry ra) = baseSpeedFactor cfg * sqrt T.
Proof.
  intros Hk. unfold speed, initParticle. js_R. cbn [vx vy].
  set (s := baseSpeedFactor cfg * sqrt T). set (a := ra * 2 * PI).
  replace (s * cos a * (s * cos a) + s * sin a * (s * sin a))
    with (s * s * (Rsqr (sin a) + Rsqr (cos a))) by (unfold Rsqr; ring).
  rewrite sin2_cos2, Rmult_1_r. apply sqrt_square.
  apply Rmult_le_pos; auto with mbsim.
Qed.



Lemma initParticles_mean_speed cfg T rnd :
  0 <= baseSpeedFactor cfg -> (0 < numParticles cfg)%nat ->
  avgSpeed (initParticles cfg T rnd) = baseSpeedFactor cfg * sqrt T.
Proof.
  intros Hk Hn. unfold avgSpeed. js_R. rewrite sumSpeed_sumR, initParticles_length.
  unfold initParticles. rewrite map_map.
  erewrite sumR_map_ext by (intros; apply initParticle_speed, Hk).
  rewrite sumR_const, length_seq. field. apply not_0_INR. lia.
Qed.

(** C30: a freshly created ensemble has mean speed [baseSpeedFactor * sqrt T]
    (every particle has exactly that speed). *)
Theorem initParticles_avgSpeed cfg T rnd :
  0 <= baseSpeedFactor cfg -> (0 < numParticles cfg)%nat ->
  avgSpeed (initParticles cfg T rnd) = baseSpeedFactor cfg * sqrt T.
Proof. apply initParticles_mean_speed. Qed.

(** The canvas's 50 particles at [T = 300], with a constant random source. *)
Lemma initParticles_avgSpeed_witness :
  (0 <= baseSpeedFactor canvasConfig /\ (0 < numParticles canvasConfig)%nat) /\
  avgSpeed (initParticles canvasConfig 300 (fun _ => 0.5)) =
    baseSpeedFactor canvasConfig * sqrt 300.
Proof.
  split; [split; simpl; [lra | lia]|].
  apply initParticles_avgSpeed; simpl; [lra | lia].
Defined.

(** ** Invariants of the component *)

(** What every reachable state satisfies: the ensemble is empty (before the
    mount effect) or has [numParticles] particles, every particle has the
    creation radius, and the mean speed is [baseSpeedFactor * sqrt T'] for
    some temperature [T'] unless every particle is at rest. *)
Definition canvasInv (cfg : config R) (s : canvasState) : Prop :=
  (particlesRef s = [] \/ length (particlesRef s) = numParticles cfg) /\
  Forall (fun p => radius p = initRadius cfg) (particlesRef s) /\
  ((exists T', avgSpeed (particlesRef s) = baseSpeedFactor cfg * sqrt T') \/
   Forall atRest (particlesRef s)).

Lemma radius_Forall_map {A} (r : A) (ps qs : list (particle A)) :
  map radius qs = map radius ps ->
  Forall (fun p => radius p = r) ps -> Forall (fun p => radius p = r) qs.
Proof.
  intros Hm Hps. apply (proj1 (List.Forall_map radius (fun r' => r' = r) qs)).
  rewrite Hm. apply (proj2 (List.Forall_map radius (fun r' => r' = r) ps)), Hps.
Qed.

Lemma handleEvent_inv cfg s ev :
  0 <= baseSpeedFactor cfg -> canvasInv cfg s -> canvasInv cfg (handleEvent cfg s ev).
Proof.
  intros Hk (Hlen & Hrad & Hspd). destruct ev as [rnd|T|]; cbn [handleEvent].
  - destruct (decide (length (particlesRef s) = 0)%nat) as [E|E];
      [|repeat split; assumption].
    simpl particlesRef. split; [right; apply initParticles_length|]. split.
    + unfold initParticles. apply List.Forall_map, List.Forall_forall. reflexivity.
    + destruct (numParticles cfg) as [|n] eqn:En.
      * right. unfold initParticles. rewrite En. constructor.
      * left. exists (tempRef s). apply initParticles_mean_speed; [exact Hk | lia].
  - repeat split; assumption.
  - simpl particlesRef. split; [|split].
    + destruct Hlen as [E|E]; [left; rewrite E; reflexivity|].
      right. change (length (updateParticles cfg (tempRef s) (particlesRef s)) = numParticles cfg). rewrite updateParticles_length. exact E.
    + eapply radius_Forall_map; [apply updateParticles_radii | exact Hrad].
    + destruct (updateParticles_mean_speed cfg (tempRef s) (particlesRef s) Hk) as [E|E];
        [left; exists (tempRef s); exact E | right; exact E].
Qed.

(** The component's invariant holds in every reachable state, by rule
    induction on [reachable]. *)
Lemma reachable_canvasInv cfg T0 s :
  0 <= baseSpeedFactor cfg -> reachable cfg T0 s -> canvasInv cfg s.
Proof.
  intros Hk Hr. induction Hr as [|s ev _ IH].
  - split; [left; reflexivity | split; [constructor | right; constructor]].
  - apply handleEvent_inv; assumption.
Qed.

(** The mount guard [particlesRef.current.length === 0] (line 23): a second
    mount does not recreate the ensemble. *)
Lemma handleEvent_mount_again cfg s rnd :
  particlesRef s <> [] -> handleEvent cfg s (Mount rnd) = s.
Proof.
  intros Hne. cbn [handleEvent]. rewrite decide_False; [reflexivity|].
  intros E. apply Hne. apply length_zero_iff_nil, E.
Qed.

Lemma run_at_rest cfg s evs :
  particlesRef s <> [] -> Forall atRest (particlesRef s) ->
  Forall atRest (particlesRef (run cfg s evs)) /\ particlesRef (run cfg s evs) <> [].
Proof.
  unfold run. revert s. induction evs as [|ev evs IH]; intros s Hne Hr; [split; assumption|].
  cbn [fold_left]. apply IH.
  - destruct ev as [rnd|T|]; [rewrite handleEvent_mount_again; assumption | exact Hne|].
    cbn. intros E. apply Hne. apply length_zero_iff_nil.
    rewrite <- (updateParticles_length cfg (tempRef s)), E. reflexivity.
  - destruct ev as [rnd|T|]; [rewrite handleEvent_mount_again; assumption | exact Hr|].
    apply updateParticles_rest, Hr.
Qed.

(** C28: a frozen ensemble stays frozen.  Once every particle of a non-empty
    ensemble is at rest, no sequence of mounts, temperature changes and
    frames sets any particle in motion again. *)
Theorem run_frozen cfg s evs :
  particlesRef s <> [] -> Forall atRest (particlesRef s) ->
  Forall atRest (particlesRef (run cfg s evs)) /\ particlesRef (run cfg s evs) <> [].
Proof. apply run_at_rest. Qed.

(** A resting particle, then a heating to [500] and a frame. *)
Lemma run_frozen_witness :
  let s := mkCanvas 300 [mkParticle 100 100 0 0 5] in
  let evs := [SetTemperature 500; Frame] in
  (particlesRef s <> [] /\ Forall atRest (particlesRef s)) /\
  Forall atRest (particlesRef (run canvasConfig s evs)) /\
  particlesRef (run canvasConfig s evs) <> [].
Proof.
  cbv zeta.
  assert (Hne : particlesRef (mkCanvas 300 [mkParticle 100 100 0 0 5]) <> [])
    by discriminate.
  assert (Hr : Forall atRest (particlesRef (mkCanvas 300 [mkParticle 100 100 0 0 5])))
    by (constructor; [split; reflexivity | constructor]).
  split; [split; assumption|]. apply run_frozen; assumption.
Defined.

(** C29: one frame at temperature [0] freezes a mounted ensemble for ever,
    whatever temperatures follow. *)
Corollary zero_temperature_freezes cfg s evs :
  particlesRef s <> [] ->
  Forall atRest (particlesRef (run cfg (handleEvent cfg (mkCanvas 0 (particlesRef s)) Frame) evs)).
Proof.
  intros Hne. apply run_at_rest; simpl handleEvent; simpl particlesRef; simpl tempRef.
  - intros E. apply Hne, length_zero_iff_nil.
    rewrite <- (updateParticles_length cfg 0), E. reflexivity.
  - apply updateParticles_stops_at_zero.
Qed.

(** A moving pair, one frame at [T = 0], then [T = 300] again and a frame. *)
Lemma zero_temperature_freezes_witness :
  let s := mkCanvas 300 [headOn1; headOn2] in
  particlesRef s <> [] /\
  Forall atRest (particlesRef (run canvasConfig
    (handleEvent canvasConfig (mkCanvas 0 (particlesRef s)) Frame)
    [SetTemperature 300; Frame])).
Proof.
  cbv zeta. split; [discriminate|]. apply zero_temperature_freezes. discriminate.
Defined.
