(* ===== verification/Distribution.v ===== *)
(** * The modified Maxwell-Boltzmann density

    [MBDistributionChart.js]: [effectiveTemperature] (line 86), the constants
    [totalParticles] (line 83) and [sharpness] (line 89), the density
    [mbDistribution] (lines 94-102), the energy grid [0, 1, ..., 600]
    (lines 77-80) and the curve [energies.map(E => ({x: E, y: f(E, T)}))]
    that the effects and [handleRecordData] rebuild (lines 133-136, 166-169,
    238-241).  Stated over the reals: [Math.pow(b, 1.5)] with [b > 0] is
    [Rpower b 1.5], [Math.exp] is [exp], [Math.PI] is [PI].

    Theorems: the density is non-negative, zero at [E = 0] and on the
    guarded branch, positive for [E > 0] at a valid temperature; it equals
    [2^1.5] times the formula of the comment on line 92; and two values
    compare as [E * exp (-2E / T_eff)] does, which decides where the curve
    rises and falls. *)

From Stdlib Require Import Reals Lra.
From stdpp Require Import base decidable list.
From S2P Require Import Prelude.

Local Open Scope R_scope.

Definition totalParticles : R := 50.
Definition sharpness : R := 2.

(** Line 86. *)
Definition effectiveTemperature (T : R) : R := 0.5 * T + 50.

(** Lines 94-100. *)
Definition mbDistribution (E T : R) : R :=
  let T_eff := effectiveTemperature T in
  if decide (T_eff <= 0) then 0 else
  let norm := (2 / sqrt PI) * Rpower (sharpness / T_eff) 1.5 in
  0.72 * norm * sqrt E * exp (- E / T_eff) * totalParticles.

(** [N = 600] and [Array.from({ length: N + 1 }, (_, i) => i)] (lines 77-80). *)
Definition energyMax : nat := 600.
Definition energies : list R := map INR (seq 0 (S energyMax)).

(** A chart point [{ x, y }]. *)
Definition point : Type := R * R.

(** [energies.map((E) => ({ x: E, y: mbDistribution(E, temperature) }))]. *)
Definition dynamicData (T : R) : list point :=
  map (fun E => (E, mbDistribution E T)) energies.

(** The formula the comment of line 92 gives:
    [(2/sqrt pi) * (1/T_eff)^(3/2) * sqrt E * exp(-E/T_eff) * totalParticles],
    with the multiplier [0.72] of line 93. *)
Definition commentDistribution (E T : R) : R :=
  let T_eff := effectiveTemperature T in
  0.72 * ((2 / sqrt PI) * Rpower (1 / T_eff) 1.5) * sqrt E * exp (- E / T_eff) * totalParticles.

(** ** The density's shape *)

(** The constant factor in front of [sqrt E * exp (-E / T_eff)]. *)
Definition densityScale (T : R) : R :=
  0.72 * ((2 / sqrt PI) * Rpower (sharpness / effectiveTemperature T) 1.5) * totalParticles.

Lemma mbDistribution_valid E T :
  -100 < T ->
  mbDistribution E T = densityScale T * (sqrt E * exp (- E / effectiveTemperature T)).
Proof.
  intros HT. unfold mbDistribution, densityScale, effectiveTemperature.
  rewrite decide_False by lra. ring.
Qed.

Lemma mbDistribution_guard E T : T <= -100 -> mbDistribution E T = 0.
Proof.
  intros HT. unfold mbDistribution, effectiveTemperature. rewrite decide_True by lra. reflexivity.
Qed.

Lemma densityScale_pos T : -100 < T -> 0 < densityScale T.
Proof.
  intros HT. unfold densityScale, totalParticles, Rpower.
  pose proof PI_RGT_0. pose proof (sqrt_lt_R0 PI ltac:(lra)).
  pose proof (exp_pos (1.5 * ln (sharpness / effectiveTemperature T))).
  apply Rmult_lt_0_compat; [|lra]. apply Rmult_lt_0_compat; [lra|].
  apply Rmult_lt_0_compat; [|assumption]. unfold Rdiv. apply Rmult_lt_0_compat; [lra|].
  apply Rinv_0_lt_compat. assumption.
Qed.

Lemma shape_nonneg E T : 0 <= sqrt E * exp (- E / effectiveTemperature T).
Proof. apply Rmult_le_pos; [|apply Rlt_le]; auto with mbsim. Qed.

Lemma density_nonneg E T : 0 <= mbDistribution E T.
Proof.
  destruct (Rle_lt_dec T (-100)) as [HT|HT].
  - rewrite mbDistribution_guard by exact HT. lra.
  - rewrite mbDistribution_valid by exact HT.
    apply Rmult_le_pos; [apply Rlt_le, densityScale_pos, HT | apply shape_nonneg].
Qed.

Lemma density_pos E T : 0 < E -> -100 < T -> 0 < mbDistribution E T.
Proof.
  intros HE HT. rewrite mbDistribution_valid by exact HT.
  apply Rmult_lt_0_compat; [apply densityScale_pos, HT|].
  apply Rmult_lt_0_compat; [apply sqrt_lt_R0, HE | apply exp_pos].
Qed.

(** C32: at a valid temperature ([T_eff > 0], i.e. [T > -100]) the density
    is positive at every positive energy. *)
Theorem mbDistribution_pos E T : 0 < E -> -100 < T -> 0 < mbDistribution E T.
Proof. apply density_pos. Qed.

Lemma mbDistribution_pos_witness : (0 < 100 /\ -100 < 300) /\ 0 < mbDistribution 100 300.
Proof. split; [split; lra|]. apply mbDistribution_pos; lra.
Defined.

(** No molecule has zero energy: [f(0, T) = 0] ([sqrt 0 = 0]). *)
Lemma mbDistribution_zero_energy T : mbDistribution 0 T = 0.
Proof.
  unfold mbDistribution. destruct (decide _); [reflexivity|]. rewrite sqrt_0. ring.
Qed.

(** C33: the code and its comment disagree by a constant factor: the code
    raises [sharpness / T_eff = 2 / T_eff] to the power [1.5] where the
    comment of line 92 has [1 / T_eff], so the density is [2^1.5] times
    the commented formula at every valid temperature. *)
Theorem mbDistribution_comment_factor E T :
  -100 < T -> mbDistribution E T = Rpower 2 1.5 * commentDistribution E T.
Proof.
  intros HT. unfold mbDistribution, commentDistribution, effectiveTemperature, sharpness.
  rewrite decide_False by lra.
  replace (2 / (0.5 * T + 50)) with (2 * (1 / (0.5 * T + 50))) by (field; lra).
  rewrite <- Rpower_mult_distr; [ring | lra |].
  apply Rdiv_lt_0_compat; lra.
Qed.

Lemma mbDistribution_comment_factor_witness :
  -100 < 300 /\ mbDistribution 100 300 = Rpower 2 1.5 * commentDistribution 100 300.
Proof. split; [lra|]. apply mbDistribution_comment_factor. lra.
Defined.

(** ** Comparing two values of the density *)

Lemma sq_lt_iff (u v : R) : 0 <= u -> 0 <= v -> (u < v <-> u * u < v * v).
Proof. intros Hu Hv. split; intros H; [nra|]. destruct (Rlt_le_dec u v); [assumption|nra]. Qed.

Lemma shape_sq E Te :
  0 <= E ->
  (sqrt E * exp (- E / Te)) * (sqrt E * exp (- E / Te)) = E * exp (-2 * E / Te).
Proof.
  intros HE.
  replace (sqrt E * exp (- E / Te) * (sqrt E * exp (- E / Te)))
    with ((sqrt E * sqrt E) * (exp (- E / Te) * exp (- E / Te))) by ring.
  rewrite sqrt_sqrt by exact HE. rewrite <- exp_plus. f_equal. f_equal. unfold Rdiv. ring.
Qed.

(** Two values of the density compare as [E * exp (-2E / T_eff)] does. *)
Lemma mbDistribution_lt_iff a b T :
  -100 < T -> 0 <= a -> 0 <= b ->
  (mbDistribution a T < mbDistribution b T <->
   a * exp (-2 * a / effectiveTemperature T) < b * exp (-2 * b / effectiveTemperature T)).
Proof.
  intros HT Ha Hb. rewrite !mbDistribution_valid by exact HT.
  pose proof (densityScale_pos T HT) as Hc.
  rewrite <- (shape_sq a) by exact Ha. rewrite <- (shape_sq b) by exact Hb.
  rewrite <- sq_lt_iff by apply shape_nonneg.
  split; intros H; [apply (Rmult_lt_reg_l (densityScale T)) | apply Rmult_lt_compat_l]; assumption.
Qed.

Section Step.
Variables (E T : R).
Hypotheses (HT : -100 < T) (HE : 0 <= E).
Let Te := effectiveTemperature T.

Lemma step_exp_identities :
  0 < exp (2 * (E + 1) / Te) /\
  exp (-2 * E / Te) * exp (2 * (E + 1) / Te) = exp (2 / Te) /\
  exp (-2 * (E + 1) / Te) * exp (2 * (E + 1) / Te) = 1.
Proof.
  assert (Hte : 0 < Te) by (unfold Te, effectiveTemperature; lra).
  split; [apply exp_pos|]. split.
  - rewrite <- exp_plus; f_equal; field; lra.
  - rewrite <- exp_plus, <- exp_0; f_equal; field; lra.
Qed.

(** One step along the energy grid: the density rises from [E] to
    [E + 1] exactly when [E * exp (2 / T_eff) < E + 1]. *)
Lemma mbDistribution_rises_iff :
  mbDistribution E T < mbDistribution (E + 1) T <-> E * exp (2 / Te) < E + 1.
Proof.
  destruct step_exp_identities as (Hk & H1 & H2).
  rewrite mbDistribution_lt_iff by (assumption || lra). fold Te. split; intros H.
  - apply (Rmult_lt_compat_r (exp (2 * (E + 1) / Te))) in H; [|exact Hk].
    rewrite !Rmult_assoc, H1, H2 in H. lra.
  - apply (Rmult_lt_reg_r (exp (2 * (E + 1) / Te))); [exact Hk|].
    rewrite !Rmult_assoc, H1, H2. lra.
Qed.

(** ... and falls when the inequality is reversed. *)
Lemma mbDistribution_falls_iff :
  mbDistribution (E + 1) T < mbDistribution E T <-> E + 1 < E * exp (2 / Te).
Proof.
  destruct step_exp_identities as (Hk & H1 & H2).
  rewrite mbDistribution_lt_iff by (assumption || lra). fold Te. split; intros H.
  - apply (Rmult_lt_compat_r (exp (2 * (E + 1) / Te))) in H; [|exact Hk].
    rewrite !Rmult_assoc, H1, H2 in H. lra.
  - apply (Rmult_lt_reg_r (exp (2 * (E + 1) / Te))); [exact Hk|].
    rewrite !Rmult_assoc, H1, H2. lra.
Qed.
End Step.

(** The bounds [1.01 < exp 0.01 < 100/99] that locate the mode at
    [T = 300]. *)
Lemma exp_hundredth_bounds : 1 + / 100 < exp (/ 100) < 100 / 99.
Proof.
  split; [apply exp_ineq1; lra|].
  pose proof (exp_ineq1 (- / 100) ltac:(lra)) as Hn.
  pose proof (exp_pos (/ 100)) as Hp.
  assert (Hprod : exp (/ 100) * exp (- / 100) = 1)
    by (rewrite <- exp_plus, <- exp_0; f_equal; ring).
  nra.
Qed.
