(* ===== verification/Summary.v ===== *)
(** * The summaries of the distribution

    [MBDistributionChart.js] scans the curve for the most probable energy
    (Effect 3, lines 170-177, and [handleRecordData], lines 242-249),
    computes the density-weighted mean energy (lines 193-199) and the
    percentage of the density mass at or above the activation threshold
    (lines 250-255), with the threshold 400, or 300 under the catalyst
    (line 251), and appends a record row (lines 257-263).

    [maxY] starts at [-Infinity]: it is an [option R] here, [None] being
    below every real, so the first point always replaces it, as in JS for
    any non-[NaN] density.  [toFixed(2)] is a formatting builtin; it is a
    parameter of [handleRecordData].

    Theorems: the scan returns the first point of maximal density; at
    [T = 300] it is the point [E = 100]; the mean lies in [[0, 600]]; the
    percentage lies in [[0, 100]] and does not decrease when the threshold
    is lowered (the catalyst). *)

From Stdlib Require Import Reals Lra.
From stdpp Require Import base decidable list.
From S2P Require Import Prelude Distribution.

Local Open Scope R_scope.

(** ** The code *)

(** [pt.y > maxY] with [maxY] possibly [-Infinity]. *)
Definition aboveMax (yv : R) (maxY : option R) : bool :=
  match maxY with
  | None => true
  | Some m => bool_decide (m < yv)
  end.

(** One iteration of the [forEach] of lines 172-177; the accumulator is
    [(maxY, E_mode)]. *)
Definition modeStep (acc : option R * R) (pt : point) : option R * R :=
  if aboveMax (snd pt) (fst acc) then (Some (snd pt), fst pt) else acc.

(** Lines 170-177: [maxY = -Infinity], [E_mode = energies[0]]. *)
Definition modeScan (E0 : R) (data : list point) : option R * R :=
  fold_left modeStep data (None, E0).

(** Lines 193-199: one pass accumulating [sumE] and [sumF], then
    [sumF ? sumE / sumF : 0]. *)
Definition meanEnergy (data : list point) : R :=
  let sums := fold_left (fun acc pt => (fst acc + fst pt * snd pt, snd acc + snd pt))
                data (0, 0) in
  if decide (snd sums = 0) then 0 else fst sums / snd sums.

(** [reduce((sum, pt) => sum + pt.y, 0)] (lines 250 and 254). *)
Definition areaOf (data : list point) : R :=
  fold_left (fun sum pt => sum + snd pt) data 0.

(** Lines 250-255. *)
Definition percentageAbove (threshold : R) (data : list point) : R :=
  let totalArea := areaOf data in
  let regionArea := areaOf (filter (fun pt => threshold <= fst pt) data) in
  if decide (totalArea = 0) then 0 else regionArea / totalArea * 100.

(** [showCatalyst ? 300 : 400] (line 251). *)
Definition activationThreshold (showCatalyst : bool) : R :=
  if showCatalyst then 300 else 400.

(** A row of [recordedData] (lines 257-262). *)
Record recordRow (S : Type) := mkRow {
  rowTemperature : R;
  mostProbableEnergy : R;
  rowPercentageAbove : S;
  rateOfReaction : S
}.
Arguments mkRow {S} _ _ _ _.
Arguments rowTemperature {S} _.
Arguments mostProbableEnergy {S} _.
Arguments rowPercentageAbove {S} _.
Arguments rateOfReaction {S} _.

Section Record.
(** [Number.prototype.toFixed(2)]. *)
Context {S : Type} (toFixed2 : R -> S).

(** [handleRecordData] (lines 237-264): [setRecordedData(prev => [...prev,
    newRecord])]. *)
Definition handleRecordData (temperature : R) (showCatalyst : bool)
    (recordedData : list (recordRow S)) : list (recordRow S) :=
  let data := dynamicData temperature in
  let E_mode := snd (modeScan (hd 0 energies) data) in
  let pct := percentageAbove (activationThreshold showCatalyst) data in
  recordedData ++ [mkRow temperature E_mode (toFixed2 pct) (toFixed2 pct)].
End Record.

(** ** The mode scan *)

(** [pt] is at index [k], has the largest density of [data], and every
    earlier point has a strictly smaller one. *)
Definition firstMax (data : list point) (k : nat) (pt : point) : Prop :=
  data !! k = Some pt /\
  (forall j q, data !! j = Some q -> snd q <= snd pt) /\
  (forall j q, (j < k)%nat -> data !! j = Some q -> snd q < snd pt).

Lemma modeScan_snoc E0 l pt : modeScan E0 (l ++ [pt]) = modeStep (modeScan E0 l) pt.
Proof. unfold modeScan. apply fold_left_app. Qed.

Lemma lookup_snoc_cases {T} (l : list T) (q q' : T) (j : nat) :
  (l ++ [q]) !! j = Some q' ->
  ((j < length l)%nat /\ l !! j = Some q') \/ (j = length l /\ q' = q).
Proof.
  intros H. destruct (decide (j < length l)%nat) as [Hj|Hj].
  - left. rewrite lookup_app_l in H by exact Hj. split; assumption.
  - right. rewrite lookup_app_r in H by lia.
    destruct (j - length l)%nat as [|n] eqn:E; simpl in H; [|discriminate].
    injection H as <-. split; [lia | reflexivity].
Qed.

Lemma lookup_snoc_last {T} (l : list T) (q : T) : (l ++ [q]) !! length l = Some q.
Proof. rewrite lookup_app_r by lia. rewrite Nat.sub_diag. reflexivity. Qed.

Lemma modeScan_spec_aux E0 data :
  data <> [] -> exists k pt, firstMax data k pt /\ modeScan E0 data = (Some (snd pt), fst pt).
Proof.
  induction data as [|q l IH] using rev_ind; [congruence|]. intros _.
  rewrite modeScan_snoc. destruct (decide (l = [])) as [->|Hne].
  - exists 0%nat, q. split; [|reflexivity]. split; [reflexivity|]. split.
    + intros [|j] q' H; simpl in H; [injection H as <-; lra | discriminate].
    + intros j q' Hj. lia.
  - destruct (IH Hne) as (k & p & (Hk & Hle & Hlt) & ->).
    pose proof (lookup_lt_Some _ _ _ Hk) as Hkl.
    unfold modeStep; cbn [fst aboveMax]. case_bool_decide as Hpq.
    + exists (length l), q. split; [|reflexivity]. split; [apply lookup_snoc_last|]. split.
      * intros j q' [[_ H]|[_ ->]]%lookup_snoc_cases; [|lra]. specialize (Hle j q' H). lra.
      * intros j q' Hj [[_ H]|[-> _]]%lookup_snoc_cases; [|exfalso; exact (Nat.lt_irrefl _ Hj)]. specialize (Hle j q' H). lra.
    + exists k, p. split; [|reflexivity]. split; [rewrite lookup_app_l; assumption|]. split.
      * intros j q' [[_ H]|[_ ->]]%lookup_snoc_cases; [apply (Hle j q' H) | apply Rnot_lt_le, Hpq].
      * intros j q' Hj [[_ H]|[-> _]]%lookup_snoc_cases; [apply (Hlt j q' Hj H) | exfalso; exact (Nat.lt_irrefl _ (Nat.lt_trans _ _ _ Hj Hkl))].
Qed.

(** C34: the scan of lines 170-177 returns the first point of maximal
    density of a non-empty curve: [maxY] is its density and [E_mode] its
    energy. *)
Theorem modeScan_spec E0 data :
  data <> [] -> exists k pt, firstMax data k pt /\ modeScan E0 data = (Some (snd pt), fst pt).
Proof. apply modeScan_spec_aux. Qed.

(** The chart's curve at [T = 2000]. *)
Lemma modeScan_spec_witness :
  dynamicData 2000 <> [] /\
  exists k pt, firstMax (dynamicData 2000) k pt /\
    modeScan 0 (dynamicData 2000) = (Some (snd pt), fst pt).
Proof.
  assert (Hne : dynamicData 2000 <> []) by (unfold dynamicData, energies; simpl; discriminate).
  split; [exact Hne|]. apply modeScan_spec, Hne.
Defined.

(** ** The mode at [T = 300] *)

Lemma INR_const (n : nat) (z : Z) : Z.of_nat n = z -> INR n = IZR z.
Proof. intros <-. apply INR_IZR_INZ. Qed.

Lemma dynamicData_lookup T (k : nat) :
  (k <= energyMax)%nat -> dynamicData T !! k = Some (INR k, mbDistribution (INR k) T).
Proof.
  intros Hk. unfold dynamicData, energies. rewrite !lookup_map, lookup_seq_lt by (unfold energyMax in *; lia).
  reflexivity.
Qed.

Lemma dynamicData_lookup_inv T (k : nat) pt :
  dynamicData T !! k = Some pt -> (k <= energyMax)%nat /\ pt = (INR k, mbDistribution (INR k) T).
Proof.
  intros H. assert (Hk : (k <= energyMax)%nat).
  { apply lookup_lt_Some in H. unfold dynamicData, energies in H.
    rewrite !length_map, length_seq in H. lia. }
  split; [exact Hk|]. rewrite dynamicData_lookup in H by exact Hk. congruence.
Qed.

Lemma effectiveTemperature_300 : 2 / effectiveTemperature 300 = / 100.
Proof. unfold effectiveTemperature. lra. Qed.

(** Below [E = 100] the curve at [T = 300] rises ... *)
Lemma rises_300 (k : nat) :
  (k <= 99)%nat -> mbDistribution (INR k) 300 < mbDistribution (INR (S k)) 300.
Proof.
  intros Hk. rewrite S_INR. apply mbDistribution_rises_iff; [lra | apply pos_INR|].
  rewrite effectiveTemperature_300. destruct exp_hundredth_bounds as [_ Hu].
  apply le_INR in Hk. rewrite (INR_const 99 99) in Hk by reflexivity.
  destruct k as [|k']; [simpl; lra|].
  assert (Hp : 0 < INR (S k')) by (apply lt_0_INR; lia).
  assert (INR (S k') * exp (/ 100) < INR (S k') * (100 / 99)) by (apply Rmult_lt_compat_l; lra).
  lra.
Qed.

(** ... and from [E = 100] on it falls. *)
Lemma falls_300 (k : nat) :
  (100 <= k)%nat -> mbDistribution (INR (S k)) 300 < mbDistribution (INR k) 300.
Proof.
  intros Hk. rewrite S_INR. apply mbDistribution_falls_iff; [lra | apply pos_INR|].
  rewrite effectiveTemperature_300. destruct exp_hundredth_bounds as [Hl _].
  apply le_INR in Hk. rewrite (INR_const 100 100) in Hk by reflexivity.
  assert (INR k * (1 + / 100) < INR k * exp (/ 100)) by (apply Rmult_lt_compat_l; lra).
  lra.
Qed.

Lemma dynamicData_nonempty T : dynamicData T <> [].
Proof. unfold dynamicData, energies. simpl. discriminate. Qed.

Lemma mode_index_300 k pt : firstMax (dynamicData 300) k pt -> k = 100%nat.
Proof.
  intros (Hk & Hle & Hlt). apply dynamicData_lookup_inv in Hk as [Hkm ->].
  unfold energyMax in Hkm.
  destruct (Nat.lt_trichotomy k 100) as [Hlo|[Heq|Hhi]]; [exfalso| exact Heq | exfalso].
  - pose proof (Hle (S k) _ (dynamicData_lookup 300 (S k) ltac:(unfold energyMax; lia))) as H.
    pose proof (rises_300 k ltac:(lia)). cbn [snd] in H. lra.
  - destruct k as [|k']; [lia|].
    pose proof (Hlt k' _ ltac:(lia) (dynamicData_lookup 300 k' ltac:(unfold energyMax; lia))) as H.
    pose proof (falls_300 k' ltac:(lia)). cbn [snd] in H. lra.
Qed.

(** At [T = 300] ([T_eff = 200]) the scan stops at [E = 100]. *)
Lemma mode_at_300 :
  modeScan (hd 0 energies) (dynamicData 300) = (Some (mbDistribution 100 300), 100).
Proof.
  destruct (modeScan_spec_aux (hd 0 energies) (dynamicData 300) (dynamicData_nonempty 300))
    as (k & pt & Hf & ->).
  pose proof (mode_index_300 k pt Hf) as ->.
  destruct Hf as (Hk & _). rewrite dynamicData_lookup in Hk by (unfold energyMax; lia).
  rewrite (INR_const 100 100) in Hk by reflexivity. injection Hk as <-. reflexivity.
Qed.

(** ** Percentage and mean *)

Definition nonnegDensity (data : list point) : Prop := forall pt, In pt data -> 0 <= snd pt.

Lemma areaOf_sumR data : areaOf data = sumR (map snd data).
Proof. unfold areaOf. rewrite fold_left_Rplus_map. lra. Qed.

Lemma mean_sums data a b :
  fold_left (fun acc pt => (fst acc + fst pt * snd pt, snd acc + snd pt)) data (a, b) =
  (a + sumR (map (fun pt => fst pt * snd pt) data), b + sumR (map snd data)).
Proof.
  revert a b. induction data as [|pt data IH]; intros a b; simpl; [f_equal; lra|].
  rewrite IH. unfold sumR. simpl. f_equal; lra.
Qed.

Lemma dynamicData_In T pt :
  In pt (dynamicData T) -> 0 <= fst pt <= 600 /\ 0 <= snd pt.
Proof.
  intros Hin. apply list_elem_of_In, list_elem_of_lookup_1 in Hin as [k Hk].
  apply dynamicData_lookup_inv in Hk as [Hk ->]. cbn [fst snd].
  split; [|apply density_nonneg].
  split; [apply pos_INR|]. apply le_INR in Hk. unfold energyMax in Hk.
  rewrite (INR_const 600 600) in Hk by reflexivity. exact Hk.
Qed.

Lemma dynamicData_nonneg T : nonnegDensity (dynamicData T).
Proof. intros pt Hin. apply (dynamicData_In T pt Hin). Qed.

Lemma region_le_total t data :
  nonnegDensity data ->
  0 <= sumR (map snd (filter (fun pt => t <= fst pt) data)) <= sumR (map snd data).
Proof.
  intros Hn. split; [|apply sumR_map_filter_le, Hn].
  apply sumR_map_nonneg. intros pt Hpt. apply Hn.
  apply list_elem_of_In, list_elem_of_filter in Hpt. apply list_elem_of_In, Hpt.
Qed.

Lemma percentageAbove_sumR t data :
  percentageAbove t data =
  let total := sumR (map snd data) in
  if decide (total = 0) then 0
  else sumR (map snd (filter (fun pt => t <= fst pt) data)) / total * 100.
Proof. unfold percentageAbove. rewrite !areaOf_sumR. reflexivity. Qed.

Lemma percentageAbove_bounds_aux t data :
  nonnegDensity data -> 0 <= percentageAbove t data <= 100.
Proof.
  intros Hn. rewrite percentageAbove_sumR. cbv zeta.
  destruct (decide _) as [|Hz]; [lra|].
  destruct (region_le_total t data Hn) as [H0 H1].
  set (s := sumR (map snd data)) in *.
  set (r := sumR (map snd (filter _ data))) in *.
  assert (Hs : 0 < s) by (destruct (Rle_lt_or_eq_dec 0 s); [lra | assumption | congruence]).
  pose proof (Rinv_0_lt_compat s Hs). pose proof (Rinv_r s Hz).
  unfold Rdiv. split; nra.
Qed.

(** C35: the recorded percentage lies in [[0, 100]] for any curve of
    non-negative densities (and is [0] when the total is [0]). *)
Theorem percentageAbove_bounds t data :
  nonnegDensity data -> 0 <= percentageAbove t data <= 100.
Proof. apply percentageAbove_bounds_aux. Qed.

Lemma percentageAbove_bounds_witness :
  nonnegDensity [(100, 1); (500, 3)] /\ 0 <= percentageAbove 400 [(100, 1); (500, 3)] <= 100.
Proof.
  assert (Hn : nonnegDensity [(100, 1); (500, 3)])
    by (intros pt [<-|[<-|[]]]; simpl; lra).
  split; [exact Hn|]. apply percentageAbove_bounds, Hn.
Defined.

Lemma percentageAbove_antitone t1 t2 data :
  nonnegDensity data -> t1 <= t2 -> percentageAbove t2 data <= percentageAbove t1 data.
Proof.
  intros Hn Ht. rewrite !percentageAbove_sumR. cbv zeta.
  destruct (decide _) as [|Hz]; [lra|].
  pose proof (region_le_total t1 data Hn). pose proof (region_le_total t2 data Hn).
  assert (Hm : sumR (map snd (filter (fun pt => t2 <= fst pt) data)) <=
               sumR (map snd (filter (fun pt => t1 <= fst pt) data))).
  { apply sumR_map_filter_mono; [intros; apply Hn; assumption | intros; lra]. }
  set (s := sumR (map snd data)) in *.
  assert (Hs : 0 < s) by (destruct (Rle_lt_or_eq_dec 0 s); [lra | assumption | congruence]).
  apply Rmult_le_compat_r; [lra|]. apply Rmult_le_compat_r; [|exact Hm].
  apply Rlt_le, Rinv_0_lt_compat, Hs.
Qed.

(** C36: the catalyst never lowers the recorded rate: at every temperature
    the percentage above the threshold 300 is at least the one above 400. *)
Theorem catalyst_raises_percentage T :
  percentageAbove (activationThreshold false) (dynamicData T) <=
  percentageAbove (activationThreshold true) (dynamicData T).
Proof.
  apply percentageAbove_antitone; [apply dynamicData_nonneg | unfold activationThreshold; lra].
Qed.

Lemma meanEnergy_between lo hi data :
  nonnegDensity data -> (forall pt, In pt data -> lo <= fst pt <= hi) -> lo <= 0 <= hi ->
  lo <= meanEnergy data <= hi.
Proof.
  intros Hn Hx Hlh. unfold meanEnergy. rewrite mean_sums. cbn [fst snd].
  rewrite !Rplus_0_l. destruct (decide _) as [|Hz]; [lra|].
  assert (Hs : 0 <= sumR (map snd data)) by (apply sumR_map_nonneg, Hn).
  assert (Hlo : sumR (map (fun pt => lo * snd pt) data) <= sumR (map (fun pt => fst pt * snd pt) data)).
  { apply sumR_map_le. intros pt Hpt. specialize (Hn pt Hpt). specialize (Hx pt Hpt). nra. }
  assert (Hhi : sumR (map (fun pt => fst pt * snd pt) data) <= sumR (map (fun pt => hi * snd pt) data)).
  { apply sumR_map_le. intros pt Hpt. specialize (Hn pt Hpt). specialize (Hx pt Hpt). nra. }
  rewrite !sumR_scale in Hlo, Hhi.
  set (e := sumR (map (fun pt => fst pt * snd pt) data)) in *. set (s := sumR (map snd data)) in *.
  assert (0 < s) by (destruct (Rle_lt_or_eq_dec 0 s); [lra | assumption | congruence]). split.
  - apply (Rmult_le_reg_r s); [lra|]. unfold Rdiv. rewrite Rmult_assoc, Rinv_l by lra. lra.
  - apply (Rmult_le_reg_r s); [lra|]. unfold Rdiv. rewrite Rmult_assoc, Rinv_l by lra. lra.
Qed.

(** C37: the density-weighted mean energy of the chart's curve lies in the
    energy range [[0, 600]] at every temperature. *)
Theorem meanEnergy_range T : 0 <= meanEnergy (dynamicData T) <= 600.
Proof.
  apply meanEnergy_between; [apply dynamicData_nonneg | | lra].
  intros pt Hin. apply (dynamicData_In T pt Hin).
Qed.

(** ** The record at [T = 300] *)

Lemma dynamicData_In_at T (k : nat) :
  (k <= energyMax)%nat -> In (INR k, mbDistribution (INR k) T) (dynamicData T).
Proof. intros Hk. apply list_elem_of_In, list_elem_of_lookup_2 with k, dynamicData_lookup, Hk. Qed.

Lemma filter_In_point (P : point -> Prop) `{!forall pt, Decision (P pt)} data pt :
  In pt data -> P pt -> In pt (filter P data).
Proof. intros Hin HP. apply list_elem_of_In, list_elem_of_filter. split; [exact HP|]. apply list_elem_of_In, Hin. Qed.

Lemma filter_nonneg (P : point -> Prop) `{!forall pt, Decision (P pt)} data :
  nonnegDensity data -> nonnegDensity (filter P data).
Proof.
  intros Hn pt Hpt. apply Hn. apply list_elem_of_In, list_elem_of_filter in Hpt.
  apply list_elem_of_In, Hpt.
Qed.

Lemma percentage_split t data :
  sumR (map snd (filter (fun pt => t <= fst pt) data)) +
  sumR (map snd (filter (fun pt => ~ t <= fst pt) data)) = sumR (map snd data).
Proof. apply sumR_map_filter_split. Qed.

(** At [T = 300] some density lies at or above [400] and some below. *)
Lemma percentage_strict_300 : 0 < percentageAbove 400 (dynamicData 300) < 100.
Proof.
  pose proof (dynamicData_nonneg 300) as Hn.
  rewrite percentageAbove_sumR. cbv zeta.
  pose proof (percentage_split 400 (dynamicData 300)) as Hsplit.
  match type of Hsplit with ?Rg + _ = _ => assert (Hr : 0 < Rg) end.
  { eapply Rlt_le_trans; [|apply (sumR_map_elem_le snd _ (INR 400, mbDistribution (INR 400) 300))].
    - apply density_pos; [apply lt_0_INR; lia | lra].
    - apply filter_nonneg, Hn.
    - apply filter_In_point; [apply dynamicData_In_at; unfold energyMax; lia|].
      cbn [fst]. rewrite (INR_const 400 400) by reflexivity. lra. }
  match type of Hsplit with _ + ?D = _ => assert (Hd : 0 < D) end.
  { eapply Rlt_le_trans; [|apply (sumR_map_elem_le snd _ (INR 1, mbDistribution (INR 1) 300))].
    - apply density_pos; [apply lt_0_INR; lia | lra].
    - apply filter_nonneg, Hn.
    - apply filter_In_point; [apply dynamicData_In_at; unfold energyMax; lia|].
      cbn [fst]. simpl INR. lra. }
  match type of Hsplit with ?Rg + ?D = _ => set (r := Rg) in *; set (d := D) in * end.
  rewrite <- Hsplit. rewrite decide_False by lra.
  match goal with |- 0 < ?N / _ * _ < _ => replace N with r by reflexivity end.
  assert (H0 : 0 < r / (r + d)) by (apply Rdiv_lt_0_compat; lra).
  assert (H1 : 0 < d / (r + d)) by (apply Rdiv_lt_0_compat; lra).
  assert (E : r / (r + d) = 1 - d / (r + d)) by (field; lra).
  lra.
Qed.

(** The record [handleRecordData] appends at [T = 300] without the
    catalyst: the rows before are kept, the most probable energy is [100],
    and the percentage above [400] (also shown as the rate of reaction) is
    strictly between [0] and [100]. *)
Lemma handleRecordData_300 {S : Type} (toFixed2 : R -> S) (recorded : list (recordRow S)) :
  exists pct, 0 < pct < 100 /\
    handleRecordData toFixed2 300 false recorded =
    recorded ++ [mkRow 300 100 (toFixed2 pct) (toFixed2 pct)].
Proof.
  exists (percentageAbove 400 (dynamicData 300)). split; [apply percentage_strict_300|].
  unfold handleRecordData. rewrite mode_at_300. reflexivity.
Qed.
