(* ===== verification/Format.v ===== *)
(** * Number formatting: [Math.round] and [toFixed(2)]

    [MBDistributionChart.js] formats the recorded percentage with
    [percentageAbove.toFixed(2)] (lines 260-261) and rounds colour
    channels with [Math.round] (lines 107-108).  Both are JS builtins,
    modelled here from ECMA-262 over the reals:
    - [jsRound v] is [floor(v + 1/2)] (ties go up, as [Math.round] does);
    - [toFixed2 x] follows Number.prototype.toFixed with [f = 2]: a ["-"]
      for [x < 0], then for [|x| < 10^21] the integer [n] nearest to
      [100 |x|] (the larger one on a tie), printed as its decimal digits
      with a point before the last two, ["0"] standing for a zero integer
      part.  For [|x| >= 10^21] the builtin prints [Number::toString],
      which is a section variable here.

    [parseFixed2] reads such a string back into hundredths; the round trip
    [toFixed2_roundtrip] says that the printed value is within [0.005] of
    [x], and [recordRow_percentage] that a recorded row holds its
    percentage to the nearest hundredth. *)

From Stdlib Require Import Reals Lra Lia ZArith NArith Ascii String.
From Stdlib Require Import DecimalString DecimalN List.
Import ListNotations.
From stdpp Require Import base decidable.
From S2P Require Import Prelude Distribution Summary.

Local Open Scope R_scope.

(** [Math.round]. *)
Definition jsRound (v : R) : Z := Int_part (v + / 2).

(** The decimal digits of [n], ["0"] for [0]. *)
Definition digitsOf (n : N) : string := NilZero.string_of_uint (N.to_uint n).

(** The character of a digit [k < 10]. *)
Definition digitChar (k : N) : ascii := ascii_of_N (48 + k).

(** Steps 10-11 of toFixed with [f = 2]: the hundredths [n] printed with a
    point before the last two digits. *)
Definition fixed2Digits (n : N) : string :=
  (digitsOf (n / 100) ++
   String "." (String (digitChar ((n mod 100) / 10)) (String (digitChar (n mod 10)) EmptyString)))%string.

Section ToFixed.
(** [Number::toString], used by [toFixed] only for [|x| >= 10^21]. *)
Variable numberToString : R -> string.

(** For [0 <= x < 10^21]: the nearest hundredths, the larger on a tie. *)
Definition toFixed2Abs (x : R) : string := fixed2Digits (Z.to_N (jsRound (x * 100))).

Definition toFixed2 (x : R) : string :=
  let s := if decide (x < 0) then "-"%string else EmptyString in
  let x' := Rabs x in
  if decide (10 ^ 21 <= x') then (s ++ numberToString x')%string
  else (s ++ toFixed2Abs x')%string.
End ToFixed.

(** ** Reading a [toFixed(2)] string back *)

Fixpoint splitDot (s : string) : option (string * string) :=
  match s with
  | EmptyString => None
  | String c s' =>
      if Ascii.eqb c "." then Some (EmptyString, s')
      else option_map (fun ab => (String c (fst ab), snd ab)) (splitDot s')
  end.

Definition digitOf (c : ascii) : option N :=
  let k := N_of_ascii c in
  if (48 <=? k)%N && (k <? 58)%N then Some (k - 48)%N else None.

(** The hundredths of ["ddd.dd"]. *)
Definition parseFixed2Abs (s : string) : option N :=
  match splitDot s with
  | Some (a, String d1 (String d2 EmptyString)) =>
      match NilZero.uint_of_string a, digitOf d1, digitOf d2 with
      | Some u, Some k1, Some k2 => Some (N.of_uint u * 100 + k1 * 10 + k2)%N
      | _, _, _ => None
      end
  | _ => None
  end.

(** The hundredths of ["-ddd.dd"] or ["ddd.dd"]. *)
Definition parseFixed2 (s : string) : option Z :=
  match s with
  | String c s' =>
      if Ascii.eqb c "-" then option_map (fun n => Z.opp (Z.of_N n)) (parseFixed2Abs s')
      else option_map Z.of_N (parseFixed2Abs s)
  | EmptyString => None
  end.

(** ** Round trips *)

(** [Math.round] of a value in [[lo, hi]] lies in [[lo, hi]]. *)
Lemma jsRound_bounds (v : R) (lo hi : Z) :
  IZR lo <= v <= IZR hi -> (lo <= jsRound v <= hi)%Z.
Proof.
  intros [H1 H2]. unfold jsRound. destruct (base_Int_part (v + / 2)) as [Ha Hb].
  set (k := Int_part (v + / 2)) in *. split.
  - assert (H : IZR (lo - 1) < IZR k) by (rewrite minus_IZR; lra). apply lt_IZR in H. lia.
  - assert (H : IZR k < IZR (hi + 1)) by (rewrite plus_IZR; lra). apply lt_IZR in H. lia.
Qed.


Lemma splitDot_uint d b :
  splitDot (NilEmpty.string_of_uint d ++ String "." b) = Some (NilEmpty.string_of_uint d, b).
Proof.
  induction d as [|d IH|d IH|d IH|d IH|d IH|d IH|d IH|d IH|d IH|d IH];
    [reflexivity|..]; cbn; rewrite IH; reflexivity.
Qed.

Lemma splitDot_digits m b :
  splitDot (digitsOf m ++ String "." b) = Some (digitsOf m, b).
Proof. unfold digitsOf. destruct (N.to_uint m); [reflexivity|..]; apply splitDot_uint. Qed.

Lemma parse_digits m :
  exists u, NilZero.uint_of_string (digitsOf m) = Some u /\ N.of_uint u = m.
Proof.
  unfold digitsOf. pose proof (DecimalN.Unsigned.of_to m) as Hm.
  destruct (N.to_uint m) as [|d|d|d|d|d|d|d|d|d|d] eqn:E;
    [exists Decimal.zero; split; [reflexivity | exact Hm]|..];
    (eexists; split; [apply NilZero.usu; discriminate | exact Hm]).
Qed.

Lemma digitOf_digitChar k : (k < 10)%N -> digitOf (digitChar k) = Some k.
Proof.
  intros Hk. unfold digitOf, digitChar. rewrite N_ascii_embedding by lia.
  replace ((48 <=? 48 + k)%N) with true by (symmetry; apply N.leb_le; lia).
  replace ((48 + k <? 58)%N) with true by (symmetry; apply N.ltb_lt; lia).
  cbn. f_equal. lia.
Qed.

Lemma fixed2_roundtrip n : parseFixed2Abs (fixed2Digits n) = Some n.
Proof.
  unfold parseFixed2Abs, fixed2Digits. rewrite splitDot_digits.
  destruct (parse_digits (n / 100)) as (u & -> & Hu).
  pose proof (N.div_mod n 100 ltac:(lia)) as H1. pose proof (N.mod_lt n 100 ltac:(lia)) as H2.
  pose proof (N.div_mod (n mod 100) 10 ltac:(lia)) as H3.
  pose proof (N.mod_lt (n mod 100) 10 ltac:(lia)) as H5. pose proof (N.mod_lt n 10 ltac:(lia)) as H6.
  assert (H4 : (n mod 10 = (n mod 100) mod 10)%N).
  { rewrite H1 at 1. replace (100 * (n / 100) + n mod 100)%N with (n mod 100 + (10 * (n / 100)) * 10)%N by lia.
    apply N.Div0.mod_add. }
  assert (H7 : ((n mod 100) / 10 < 10)%N) by (apply N.Div0.div_lt_upper_bound; lia).
  rewrite !digitOf_digitChar by assumption. f_equal. rewrite Hu. lia.
Qed.

Lemma fixed2Digits_head n : exists c s, fixed2Digits n = String c s /\ Ascii.eqb c "-" = false.
Proof.
  unfold fixed2Digits, digitsOf.
  destruct (N.to_uint (n / 100)) as [|d|d|d|d|d|d|d|d|d|d]; cbn; eexists _, _; split; reflexivity.
Qed.

Lemma parseFixed2_digits n : parseFixed2 (fixed2Digits n) = Some (Z.of_N n).
Proof.
  destruct (fixed2Digits_head n) as (c & s & Hs & Hc).
  rewrite Hs. cbn [parseFixed2]. rewrite Hc, <- Hs, fixed2_roundtrip. reflexivity.
Qed.

Lemma parseFixed2_neg_digits n : parseFixed2 (String "-" (fixed2Digits n)) = Some (Z.opp (Z.of_N n)).
Proof. cbn [parseFixed2]. rewrite fixed2_roundtrip. reflexivity. Qed.

Lemma jsRound_spec v : IZR (jsRound v) <= v + / 2 < IZR (jsRound v) + 1.
Proof. unfold jsRound. destruct (base_Int_part (v + / 2)). lra. Qed.

Lemma jsRound_nonneg v : 0 <= v -> (0 <= jsRound v)%Z.
Proof.
  intros Hv. destruct (jsRound_spec v) as [_ H]. apply le_IZR.
  assert (H' : IZR (-1) < IZR (jsRound v)) by lra. apply lt_IZR in H'. apply IZR_le. lia.
Qed.

(** Printing and parsing back: within half a hundredth. *)
Lemma toFixed2_roundtrip (numberToString : R -> string) x :
  Rabs x < 10 ^ 21 ->
  exists n, parseFixed2 (toFixed2 numberToString x) = Some n /\ Rabs (IZR n / 100 - x) <= / 200.
Proof.
  intros Hx. unfold toFixed2. rewrite decide_False by lra. unfold toFixed2Abs.
  set (k := jsRound (Rabs x * 100)).
  assert (Hk : (0 <= k)%Z) by (apply jsRound_nonneg; pose proof (Rabs_pos x); lra).
  destruct (jsRound_spec (Rabs x * 100)) as [H1 H2]. fold k in H1, H2.
  destruct (decide (x < 0)) as [Hn|Hp].
  - exists (Z.opp k). split.
    + cbn [String.append]. rewrite parseFixed2_neg_digits, Z2N.id by exact Hk. reflexivity.
    + rewrite Rabs_left in H1, H2 by exact Hn. rewrite opp_IZR.
      apply Rabs_le. split; lra.
  - exists k. split.
    + cbn [String.append]. rewrite parseFixed2_digits, Z2N.id by exact Hk. reflexivity.
    + rewrite Rabs_right in H1, H2 by lra. apply Rabs_le. split; lra.
Qed.

(** A non-negative value below [10^21] is printed without a sign, from the
    nearest hundredths. *)
Lemma toFixed2_nonneg (numberToString : R -> string) x :
  0 <= x < 10 ^ 21 -> toFixed2 numberToString x = toFixed2Abs x.
Proof.
  intros Hx. unfold toFixed2. rewrite Rabs_right by lra.
  rewrite decide_False by lra. rewrite decide_False by lra. reflexivity.
Qed.

Lemma jsRound_le v m : v <= IZR m -> (jsRound v <= m)%Z.
Proof.
  intros Hv. destruct (jsRound_spec v) as [H1 _].
  assert (H : IZR (jsRound v) < IZR (m + 1)) by (rewrite plus_IZR; lra).
  apply lt_IZR in H. lia.
Qed.

(** The row [handleRecordData] appends holds [percentageAbove.toFixed(2)]
    twice (as [percentageAbove] and [rateOfReaction]); that string has no
    sign and reads back as a whole number [n] of hundredths in
    [[0, 10000]] with [n / 100] within [0.005] of the percentage. *)
Lemma recordRow_percentage (numberToString : R -> string) T cat rows :
  exists row n,
    handleRecordData (toFixed2 numberToString) T cat rows = rows ++ [row] /\
    rowTemperature row = T /\
    rowPercentageAbove row = toFixed2Abs (percentageAbove (activationThreshold cat) (dynamicData T)) /\
    rateOfReaction row = rowPercentageAbove row /\
    parseFixed2 (rowPercentageAbove row) = Some n /\ (0 <= n <= 10000)%Z /\
    Rabs (IZR n / 100 - percentageAbove (activationThreshold cat) (dynamicData T)) <= / 200.
Proof.
  unfold handleRecordData. cbv zeta.
  set (pct := percentageAbove (activationThreshold cat) (dynamicData T)).
  assert (Hp : 0 <= pct <= 100) by apply percentageAbove_bounds_aux, dynamicData_nonneg.
  assert (Hb : 0 <= pct < 10 ^ 21) by (split; [lra|]; apply (Rle_lt_trans _ 100); [lra|];
                                       replace (10 ^ 21) with (10 * 10 ^ 20) by reflexivity;
                                       pose proof (pow_R1_Rle 10 20 ltac:(lra)); lra).
  rewrite toFixed2_nonneg by exact Hb.
  destruct (jsRound_spec (pct * 100)) as [H1 H2].
  assert (Hk : (0 <= jsRound (pct * 100))%Z) by (apply jsRound_nonneg; lra).
  assert (Hm : (jsRound (pct * 100) <= 10000)%Z) by (apply jsRound_le; lra).
  eexists _, (jsRound (pct * 100)). do 4 (split; [reflexivity|]).
  split; [cbn [rowPercentageAbove]; unfold toFixed2Abs; rewrite parseFixed2_digits, Z2N.id by exact Hk; reflexivity|].
  split; [lia|]. apply Rabs_le. split; lra.
Qed.
