(* ===== verification/Table.v ===== *)
(** * The table of recorded rows

    Lines 392-411 of [MBDistributionChart.js] render [recordedData] as a
    table: a header of four cells, then one [<tr key={index}>] per
    recorded row, with the temperature, the most probable energy, the
    percentage followed by ["%"] and the rate of reaction.  React renders
    a number child as [String(n)], [Number::toString], a section variable
    here as in [Format.toFixed2]; a string child is its text.

    Theorem: after Record Data, the table keeps every earlier row with its
    key and gains one row, keyed by its index, whose percentage cell is a
    [toFixed(2)] string and ["%"], reading back to within [0.005] of the
    percentage of the curve ([recorded_row_displayed]). *)

From Stdlib Require Import Reals Lra ZArith String.
From stdpp Require Import base decidable list.
From S2P Require Import Prelude Distribution Summary Format.

Local Open Scope R_scope.

Section Table.
(** [String(n)] of a number child. *)
Variable numberToString : R -> string.

(** The header row (lines 394-399). *)
Definition tableHeader : list string :=
  ["Temperature (K)"; "Most Probable Energy"; "Percentage Above Activation"; "Rate of Reaction"]%string.

(** One row (lines 403-408): its key and its four cells. *)
Definition tableRow (index : nat) (row : recordRow string) : nat * list string :=
  (index, [numberToString (rowTemperature row); numberToString (mostProbableEnergy row);
           (rowPercentageAbove row ++ "%")%string; rateOfReaction row]).

(** [recordedData.map((row, index) => ...)] (lines 402-409). *)
Definition tableBody (recorded : list (recordRow string)) : list (nat * list string) :=
  imap tableRow recorded.

Lemma tableBody_snoc rows row :
  tableBody (rows ++ [row]) = tableBody rows ++ [tableRow (length rows) row].
Proof. unfold tableBody. rewrite imap_app. cbn. rewrite Nat.add_0_r. reflexivity. Qed.

(** C19: a recorded row is displayed to the nearest hundredth.  After
    Record Data at temperature [T], the table keeps every earlier row and
    its key, and gains one row keyed by its index, showing [T], the most
    probable energy, [s ++ "%"] and [s], where [s] is a [toFixed(2)]
    string reading back as [n] hundredths, [0 <= n <= 10000], with [n / 100]
    within [0.005] of the percentage of the curve above the threshold. *)
Theorem recorded_row_displayed T cat rows :
  let pct := percentageAbove (activationThreshold cat) (dynamicData T) in
  exists row s n,
    handleRecordData (toFixed2 numberToString) T cat rows = rows ++ [row] /\
    tableBody (handleRecordData (toFixed2 numberToString) T cat rows) =
      tableBody rows ++
      [(length rows, [numberToString T; numberToString (mostProbableEnergy row);
                      (s ++ "%")%string; s])] /\
    parseFixed2 s = Some n /\ (0 <= n <= 10000)%Z /\ Rabs (IZR n / 100 - pct) <= / 200.
Proof.
  cbv zeta. destruct (recordRow_percentage numberToString T cat rows)
    as (row & n & Hrow & HT & _ & Hrate & Hparse & Hn & Hclose).
  exists row, (rowPercentageAbove row), n. rewrite Hrow, tableBody_snoc.
  split; [reflexivity|]. split; [|exact (conj Hparse (conj Hn Hclose))].
  unfold tableRow. rewrite Hrate, HT. reflexivity.
Qed.
End Table.
