(* ===== verification/Chart.v ===== *)
(** * The chart component: datasets, effects and the activation plugin

    [MBDistributionChart.js] keeps a Chart.js chart whose dataset array and
    plugin options its four effects mutate in place:
    - Effect 1 (lines 130-141) rewrites the data and label of
      [datasets[0]], the curve at the current temperature;
    - Effect 2 (lines 143-161) rebuilds the array as
      [[datasets[0], ...snapshots, ...markers]];
    - Effect 3 (lines 163-216) rebuilds it as
      [[...nonMarkers, ...newMarkers]];
    - Effect 4 (lines 218-234) replaces the activation plugin's options.
    A marker dataset is recognised by [order === 5].

    The component's state ([mbState]) holds the props (temperature,
    snapshots), the four toggles, the recorded rows and the chart
    ([None] until the chart is mounted).  An event ([mbEvent]) is one
    render: it changes the state, then runs the effects whose dependency
    lists changed, in declaration order ([runEffects]).  An effect returns
    [None] when the JS would read a property of an undefined dataset.

    The activation plugin (lines 23-59) is modelled as the list of canvas
    commands it issues ([drawOp]), over the scales' [getPixelForValue]
    functions, which are parameters.  Dataset styling fields that no code
    reads (fill, tension, border width, point radius, dash) are left out;
    a label [`T = ${T} K`] is kept as the temperature it shows.  The
    [Line] wrapper of react-chartjs-2 re-applies the [options] prop at each
    render; its plugin options are the ones Effect 4 sets, so that effect
    of the library is not modelled separately. *)

From Stdlib Require Import Reals Lra ZArith.
From stdpp Require Import base decidable list.
From S2P Require Import Prelude JSNumber Distribution Summary Format.

Local Open Scope R_scope.

(** ** Data *)

Inductive color :=
  | Black | Blue | Red | Orange
  | Rgb (r g b : Z)             (* [`rgb(${red},0,${blue})`] *)
  | Rgba (r g b : Z) (a : R).   (* ['rgba(255,165,0,0.3)'] *)

Inductive label :=
  | TempLabel (T : R)           (* [`T = ${T} K`] *)
  | MostProbableLabel
  | AverageLabel.

Record dataset := mkDataset {
  dsLabel : label;
  dsData : list point;
  dsColor : color;
  dsOrder : nat
}.

(** Lines 105-110. *)
Definition getColorForTemperature (T : R) : color :=
  let ratio := (T - 100) / (500 - 100) in
  let red := jsRound (ratio * 255) in
  let blue := jsRound ((1 - ratio) * 255) in
  Rgb red 0 blue.

(** The dynamic dataset (lines 113-123). *)
Definition dynamicDataset (T : R) : dataset :=
  mkDataset (TempLabel T) (dynamicData T) Black 2.

(** One snapshot dataset (lines 146-155). *)
Definition snapshotDataset (snapT : R) : dataset :=
  mkDataset (TempLabel snapT) (dynamicData snapT) (getColorForTemperature snapT) 4.

(** [ds.order === 5] (lines 157 and 212). *)
Definition isMarker (ds : dataset) : bool := Nat.eqb (dsOrder ds) 5.

(** The markers of Effect 3 (lines 166-211).  [maxY] stays [-Infinity]
    (here [None]) only on an empty curve, which [energies] never gives
    ([Summary.dynamicData_nonempty] and [Summary.modeScan_spec_aux]); the
    model builds no marker then, where the JS would plot [-Infinity]. *)
Definition markerDatasets (showMostProbable showAverage : bool) (T : R) : list dataset :=
  let data := dynamicData T in
  let mode := modeScan (hd 0 energies) data in
  let mostProbable :=
    if showMostProbable then
      match fst mode with
      | Some maxY => [mkDataset MostProbableLabel [(snd mode, maxY)] Blue 5]
      | None => []
      end
    else [] in
  let average :=
    if showAverage then
      let E_mean := meanEnergy data in
      [mkDataset AverageLabel [(E_mean, mbDistribution E_mean T)] Red 5]
    else [] in
  mostProbable ++ average.

(** The options of the activation plugin; the fields read with [|| default]
    are options ([None] is [undefined]). *)
Record pluginOptions := mkPluginOptions {
  showActivationOpt : bool;
  activationLineColor : option color;
  activationLineDash : option (list R);
  activationLineWidth : R;
  activationBackgroundColor : option color;
  yMaxOpt : R;
  activationX : R;
  xMaxOpt : R
}.

(** The options object of Effect 4 (lines 221-231), the same as the one of
    the [options] prop (lines 290-299). *)
Definition pluginOptionsOf (showActivation showCatalyst : bool) : pluginOptions :=
  mkPluginOptions showActivation (Some Orange) (Some [4; 4]) 2
    (Some (Rgba 255 165 0 0.3)) 0.5 (if showCatalyst then 300 else 400) 600.

Record chart := mkChart {
  chartDatasets : list dataset;
  chartPlugin : pluginOptions
}.

(** The chart built at mount from [chartData] (lines 126-128) and the
    [options] prop. *)
Definition initialChart (T : R) (showActivation showCatalyst : bool) : chart :=
  mkChart [dynamicDataset T] (pluginOptionsOf showActivation showCatalyst).

(** ** The component *)

Section Component.
(** [Number.prototype.toFixed(2)], as in [Summary.handleRecordData]. *)
Context {S : Type} (toFixed2 : R -> S).

Record mbState := mkMB {
  temperature : R;
  snapshots : list R;
  showMostProbable : bool;
  showAverage : bool;
  showActivation : bool;
  showCatalyst : bool;
  recordedData : list (recordRow S);
  chartRef : option chart
}.

Definition setChart (st : mbState) (c : chart) : mbState :=
  mkMB (temperature st) (snapshots st) (showMostProbable st) (showAverage st)
    (showActivation st) (showCatalyst st) (recordedData st) (Some c).

(** Effect 1 (lines 131-141): [datasets[0].data = dynamicData],
    [datasets[0].label = `T = ${temperature} K`]. *)
Definition effect1 (st : mbState) : option mbState :=
  match chartRef st with
  | None => Some st
  | Some c =>
      match chartDatasets c with
      | [] => None
      | ds0 :: rest =>
          let ds0' := mkDataset (TempLabel (temperature st)) (dynamicData (temperature st))
                        (dsColor ds0) (dsOrder ds0) in
          Some (setChart st (mkChart (ds0' :: rest) (chartPlugin c)))
      end
  end.

(** Effect 2 (lines 144-161).  With no [datasets[0]] the new array would
    start with [undefined], which the next effect reads: the model stops
    there. *)
Definition effect2 (st : mbState) : option mbState :=
  match chartRef st with
  | None => Some st
  | Some c =>
      match chartDatasets c with
      | [] => None
      | dynamic :: _ =>
          let snapshotDatasets := map snapshotDataset (snapshots st) in
          let markers := List.filter isMarker (chartDatasets c) in
          Some (setChart st (mkChart (dynamic :: snapshotDatasets ++ markers) (chartPlugin c)))
      end
  end.

(** Effect 3 (lines 164-216). *)
Definition effect3 (st : mbState) : option mbState :=
  match chartRef st with
  | None => Some st
  | Some c =>
      let markers := markerDatasets (showMostProbable st) (showAverage st) (temperature st) in
      let nonMarker := List.filter (fun ds => negb (isMarker ds)) (chartDatasets c) in
      Some (setChart st (mkChart (nonMarker ++ markers) (chartPlugin c)))
  end.

(** Effect 4 (lines 219-234). *)
Definition effect4 (st : mbState) : option mbState :=
  match chartRef st with
  | None => Some st
  | Some c =>
      Some (setChart st (mkChart (chartDatasets c)
                          (pluginOptionsOf (showActivation st) (showCatalyst st))))
  end.

(** The effects of one commit, in declaration order; a throwing effect
    ([None]) stops the rest. *)
Fixpoint runEffects (effs : list (mbState -> option mbState)) (st : mbState) : option mbState :=
  match effs with
  | [] => Some st
  | eff :: effs' => eff st ≫= runEffects effs'
  end.

(** [useState(false)] for the toggles and [useState([])] for the rows
    (lines 67-73), before the chart exists. *)
Definition mbInit (T0 : R) (ss : list R) : mbState :=
  mkMB T0 ss false false false false [] None.

(** The first commit: the chart is created from [chartData] and the
    [options] prop, then every effect runs once. *)
Definition mbMount (st : mbState) : option mbState :=
  runEffects [effect1; effect2; effect3; effect4]
    (setChart st (initialChart (temperature st) (showActivation st) (showCatalyst st))).

Inductive mbEvent :=
  | NewTemperature (T : R)      (* the temperature prop changes *)
  | NewSnapshots (ss : list R)  (* the parent passes a new snapshots array *)
  | ToggleMostProbable          (* the buttons of lines 318-373 *)
  | ToggleAverage
  | ToggleActivation
  | ToggleCatalyst
  | RecordData.                 (* the button of lines 374-387 *)

(** One render and the effects whose dependencies changed: temperature is
    a dependency of Effects 1, 3 and 4 (compared by value), snapshots of
    Effect 2 (a new array each time), the toggles of Effects 3 and 4.
    Recording changes only [recordedData], which no effect reads. *)
Definition mbStep (st : mbState) (ev : mbEvent) : option mbState :=
  let '(mkMB T ss mp av act cat rows c) := st in
  match ev with
  | NewTemperature T' =>
      if decide (T' = T) then Some st
      else runEffects [effect1; effect3; effect4] (mkMB T' ss mp av act cat rows c)
  | NewSnapshots ss' => runEffects [effect2] (mkMB T ss' mp av act cat rows c)
  | ToggleMostProbable => runEffects [effect3] (mkMB T ss (negb mp) av act cat rows c)
  | ToggleAverage => runEffects [effect3] (mkMB T ss mp (negb av) act cat rows c)
  | ToggleActivation => runEffects [effect4] (mkMB T ss mp av (negb act) cat rows c)
  | ToggleCatalyst => runEffects [effect4] (mkMB T ss mp av act (negb cat) rows c)
  | RecordData =>
      Some (mkMB T ss mp av act cat (handleRecordData toFixed2 T cat rows) c)
  end.

(** A run of events from a state, stopping at the first throw. *)
Definition mbRun (st : mbState) (evs : list mbEvent) : option mbState :=
  fold_left (fun acc ev => acc ≫= fun s => mbStep s ev) evs (Some st).
End Component.

Arguments mbState : clear implicits.

(** ** The activation plugin *)

(** The canvas calls of [afterDatasetsDraw]. *)
Inductive drawOp :=
  | Save | Restore | BeginPath | ClosePath | Fill | Stroke
  | MoveTo (px py : R)
  | LineTo (px py : R)
  | SetFillStyle (c : color)
  | SetLineDash (d : list R)
  | SetStrokeStyle (c : color)
  | SetLineWidth (w : R).

(** [o || d] on a field that is a string or an array: [d] when the field
    is [undefined]. *)
Definition orDefault {T : Type} (o : option T) (d : T) : T :=
  match o with Some v => v | None => d end.

Section Plugin.
(** [x.getPixelForValue] and [y.getPixelForValue] of the chart's scales. *)
Variables (xPixel yPixel : R -> R).

(** The closed polygon of lines 34-48 through the points of a non-empty
    region. *)
Definition shadePolygon (opts : pluginOptions) (regionPoints : list point) : list drawOp :=
  let xActivation := xPixel (activationX opts) in
  let yZero := yPixel 0 in
  [BeginPath; MoveTo xActivation yZero] ++
  map (fun pt => LineTo (xPixel (fst pt)) (yPixel (snd pt))) regionPoints ++
  [LineTo (xPixel (xMaxOpt opts)) yZero; LineTo xActivation yZero; ClosePath;
   SetFillStyle (orDefault (activationBackgroundColor opts) (Rgba 255 165 0 0.3)); Fill].

(** The dashed vertical line of lines 49-56. *)
Definition activationLine (opts : pluginOptions) : list drawOp :=
  let xActivation := xPixel (activationX opts) in
  [BeginPath; SetLineDash (orDefault (activationLineDash opts) [4; 4]);
   MoveTo xActivation (yPixel 0);
   LineTo xActivation (yPixel (js_or (yMaxOpt opts) 0.5));
   SetStrokeStyle (orDefault (activationLineColor opts) Orange);
   SetLineWidth (js_or (activationLineWidth opts) 2); Stroke].

(** [afterDatasetsDraw] (lines 25-58), with its three early returns. *)
Definition activationPlugin (opts : pluginOptions) (datasets : list dataset) : list drawOp :=
  if negb (showActivationOpt opts) then [] else
  match datasets with
  | [] => []
  | dynamicDataset :: _ =>
      let regionPoints :=
        List.filter (fun pt => bool_decide (activationX opts <= fst pt)) (dsData dynamicDataset) in
      match regionPoints with
      | [] => []
      | _ :: _ => [Save] ++ shadePolygon opts regionPoints ++ activationLine opts ++ [Restore]
      end
  end.
End Plugin.

(** ** The chart shows the state *)

(** What the chart should show in a state: the curve at the temperature,
    one curve per snapshot, the markers the toggles ask for, and the
    plugin options of the activation toggles. *)
Definition chartView {S : Type} (st : mbState S) : chart :=
  mkChart (dynamicDataset (temperature st) :: map snapshotDataset (snapshots st) ++
           markerDatasets (showMostProbable st) (showAverage st) (temperature st))
          (pluginOptionsOf (showActivation st) (showCatalyst st)).

Definition inSync {S : Type} (st : mbState S) : Prop := chartRef st = Some (chartView st).

(** A state whose chart is the view of its other fields. *)
Definition withView {S : Type} (st : mbState S) : mbState S := setChart st (chartView st).

(** The component as its contract describes it, without the chart: what
    each event does to the props, the toggles and the recorded rows. *)
Definition mbModelStep {S : Type} (toFixed2 : R -> S) (st : mbState S) (ev : mbEvent)
    : mbState S :=
  let '(mkMB T ss mp av act cat rows c) := st in
  match ev with
  | NewTemperature T' => mkMB T' ss mp av act cat rows c
  | NewSnapshots ss' => mkMB T ss' mp av act cat rows c
  | ToggleMostProbable => mkMB T ss (negb mp) av act cat rows c
  | ToggleAverage => mkMB T ss mp (negb av) act cat rows c
  | ToggleActivation => mkMB T ss mp av (negb act) cat rows c
  | ToggleCatalyst => mkMB T ss mp av act (negb cat) rows c
  | RecordData => mkMB T ss mp av act cat (handleRecordData toFixed2 T cat rows) c
  end.

Lemma filter_all_false (f : dataset -> bool) (l : list dataset) :
  Forall (fun ds => f ds = false) l -> List.filter f l = [].
Proof. induction 1 as [|d l Hd _ IH]; [reflexivity|]. simpl. rewrite Hd. exact IH. Qed.

Lemma filter_all_true (f : dataset -> bool) (l : list dataset) :
  Forall (fun ds => f ds = true) l -> List.filter f l = l.
Proof. induction 1 as [|d l Hd _ IH]; [reflexivity|]. simpl. rewrite Hd, IH. reflexivity. Qed.

Lemma filter_app_ds (f : dataset -> bool) (l1 l2 : list dataset) :
  List.filter f (l1 ++ l2) = List.filter f l1 ++ List.filter f l2.
Proof. induction l1 as [|d l1 IH]; [reflexivity|]. simpl. rewrite IH. destruct (f d); reflexivity. Qed.

Lemma markerDatasets_markers mp av T :
  Forall (fun ds => isMarker ds = true) (markerDatasets mp av T).
Proof.
  unfold markerDatasets. apply Forall_app.
  split; [destruct mp; [destruct (fst _)|]|destruct av]; repeat constructor.
Qed.

Lemma snapshots_not_markers ss :
  Forall (fun ds => isMarker ds = false) (map snapshotDataset ss).
Proof. apply List.Forall_forall. intros ds (? & <- & _)%in_map_iff. reflexivity. Qed.

Lemma view_markers T ss markers :
  Forall (fun ds => isMarker ds = true) markers ->
  List.filter isMarker (dynamicDataset T :: map snapshotDataset ss ++ markers) = markers.
Proof.
  intros Hm. change (List.filter isMarker (map snapshotDataset ss ++ markers) = markers).
  rewrite filter_app_ds, filter_all_false, filter_all_true; [reflexivity|exact Hm|].
  apply snapshots_not_markers.
Qed.

Lemma view_nonMarkers T ss markers :
  Forall (fun ds => isMarker ds = true) markers ->
  List.filter (fun ds => negb (isMarker ds)) (dynamicDataset T :: map snapshotDataset ss ++ markers) =
  dynamicDataset T :: map snapshotDataset ss.
Proof.
  intros Hm. change (dynamicDataset T :: List.filter (fun ds => negb (isMarker ds))
                       (map snapshotDataset ss ++ markers) = dynamicDataset T :: map snapshotDataset ss).
  rewrite filter_app_ds, (filter_all_false _ markers), filter_all_true, app_nil_r; [reflexivity| |].
  - eapply Forall_impl; [apply snapshots_not_markers|]. intros ds ->. reflexivity.
  - eapply Forall_impl; [exact Hm|]. intros ds ->. reflexivity.
Qed.

Section SyncR.
Context {S : Type} (toFixed2 : R -> S).
Implicit Types (T : R) (ss : list R) (mp av act cat : bool) (rows : list (recordRow S)).

Lemma effect1_view T T0 ss mp av act cat rows rest p :
  effect1 (mkMB T ss mp av act cat rows (Some (mkChart (dynamicDataset T0 :: rest) p))) =
  Some (mkMB T ss mp av act cat rows (Some (mkChart (dynamicDataset T :: rest) p))).
Proof. reflexivity. Qed.

Lemma effect2_view T ss ss' mp av act cat rows markers p :
  Forall (fun ds => isMarker ds = true) markers ->
  effect2 (mkMB T ss' mp av act cat rows
             (Some (mkChart (dynamicDataset T :: map snapshotDataset ss ++ markers) p))) =
  Some (mkMB T ss' mp av act cat rows
          (Some (mkChart (dynamicDataset T :: map snapshotDataset ss' ++ markers) p))).
Proof.
  intros Hm. unfold effect2. cbn [chartRef chartDatasets].
  rewrite (view_markers T ss markers Hm). reflexivity.
Qed.

Lemma effect3_view T ss mp av act cat rows markers p :
  Forall (fun ds => isMarker ds = true) markers ->
  effect3 (mkMB T ss mp av act cat rows
             (Some (mkChart (dynamicDataset T :: map snapshotDataset ss ++ markers) p))) =
  Some (mkMB T ss mp av act cat rows
          (Some (mkChart (dynamicDataset T :: map snapshotDataset ss ++
                          markerDatasets mp av T) p))).
Proof.
  intros Hm. unfold effect3. cbn [chartRef chartDatasets].
  rewrite (view_nonMarkers T ss markers Hm). reflexivity.
Qed.

Lemma effect4_view T ss mp av act cat rows d p :
  effect4 (mkMB T ss mp av act cat rows (Some (mkChart d p))) =
  Some (mkMB T ss mp av act cat rows (Some (mkChart d (pluginOptionsOf act cat)))).
Proof. reflexivity. Qed.

Lemma mbStep_refines (st : mbState S) ev :
  inSync st -> mbStep toFixed2 st ev = Some (withView (mbModelStep toFixed2 st ev)).
Proof.
  destruct st as [T ss mp av act cat rows c]. unfold inSync, chartView.
  cbn [chartRef temperature snapshots showMostProbable showAverage showActivation showCatalyst].
  intros ->. pose proof (markerDatasets_markers mp av T) as Hm.
  destruct ev as [T'|ss'| | | | |]; cbn [mbStep mbModelStep runEffects].
  - destruct (decide (T' = T)) as [->|HT]; [reflexivity|].
    rewrite effect1_view. cbn [mbind option_bind runEffects].
    rewrite effect3_view by exact Hm. cbn [mbind option_bind runEffects].
    rewrite effect4_view. reflexivity.
  - rewrite effect2_view by exact Hm. reflexivity.
  - rewrite effect3_view by exact Hm. reflexivity.
  - rewrite effect3_view by exact Hm. reflexivity.
  - rewrite effect4_view. reflexivity.
  - rewrite effect4_view. reflexivity.
  - reflexivity.
Qed.

Lemma withView_inSync (st : mbState S) : inSync (withView st).
Proof. reflexivity. Qed.

(** The model step ignores the chart, and the view reads no chart. *)
Lemma withView_modelRun (st : mbState S) evs :
  withView (fold_left (mbModelStep toFixed2) evs (withView st)) =
  withView (fold_left (mbModelStep toFixed2) evs st).
Proof.
  revert st. induction evs as [|ev evs IH]; intros st; [reflexivity|]. cbn [fold_left].
  rewrite <- (IH (mbModelStep toFixed2 st ev)), <- (IH (mbModelStep toFixed2 (withView st) ev)).
  destruct st, ev; reflexivity.
Qed.

Lemma mbMount_view T0 ss :
  mbMount (mbInit (S:=S) T0 ss) = Some (withView (mbInit T0 ss)).
Proof.
  unfold mbMount, mbInit, initialChart, setChart. cbn [runEffects chartRef temperature snapshots
    showMostProbable showAverage showActivation showCatalyst recordedData].
  rewrite effect1_view. cbn [mbind option_bind runEffects].
  change [dynamicDataset T0] with (dynamicDataset T0 :: map snapshotDataset [] ++ []).
  rewrite effect2_view by constructor. cbn [mbind option_bind runEffects].
  rewrite effect3_view by constructor. cbn [mbind option_bind runEffects].
  rewrite effect4_view. reflexivity.
Qed.

Lemma mbRun_cons (st : mbState S) ev evs :
  mbRun toFixed2 st (ev :: evs) =
  match mbStep toFixed2 st ev with Some st' => mbRun toFixed2 st' evs | None => None end.
Proof.
  unfold mbRun. cbn [fold_left mbind option_bind].
  destruct (mbStep toFixed2 st ev) as [st'|]; [reflexivity|].
  induction evs as [|ev' evs IH]; [reflexivity|]. exact IH.
Qed.

Lemma mbRun_refines (st : mbState S) evs :
  inSync st -> mbRun toFixed2 st evs = Some (withView (fold_left (mbModelStep toFixed2) evs st)).
Proof.
  revert st. induction evs as [|ev evs IH]; intros st Hs.
  - unfold inSync in Hs. destruct st. cbn in Hs |- *. rewrite Hs. reflexivity.
  - rewrite mbRun_cons, (mbStep_refines st ev Hs), IH by apply withView_inSync.
    cbn [fold_left]. rewrite withView_modelRun. reflexivity.
Qed.

Lemma mount_run_model T0 ss evs :
  (mbMount (mbInit T0 ss) ≫= fun s => mbRun toFixed2 s evs) =
  Some (withView (fold_left (mbModelStep toFixed2) evs (mbInit T0 ss))).
Proof.
  rewrite mbMount_view. cbn [mbind option_bind].
  rewrite mbRun_refines by apply withView_inSync. rewrite withView_modelRun. reflexivity.
Qed.

Lemma mount_run_view T0 ss evs st :
  (mbMount (mbInit T0 ss) ≫= fun s => mbRun toFixed2 s evs) = Some st -> inSync st.
Proof. rewrite mount_run_model. intros [= <-]. apply withView_inSync. Qed.

(** C11: the chart component refines its contract.  From the mount,
    whatever props, toggles and recordings follow, no effect throws, the
    props, toggles and rows are those of the model step [mbModelStep], and
    the chart shows exactly their view: the curve at the current
    temperature, one curve per snapshot, the markers the toggles ask for
    and the plugin options of the toggles.  The effects recompute what
    their dependencies change, and nothing stale survives. *)
Theorem chart_refines_model T0 ss evs :
  (mbMount (mbInit T0 ss) ≫= fun s => mbRun toFixed2 s evs) =
  Some (withView (fold_left (mbModelStep toFixed2) evs (mbInit T0 ss))).
Proof. apply mount_run_model. Qed.

(** The plugin's region test with [bool_decide] is stdpp's [filter], the
    one [percentageAbove] uses. *)
Lemma list_filter_bool_decide (P : point -> Prop) `{!forall pt, Decision (P pt)} (l : list point) :
  List.filter (fun pt => bool_decide (P pt)) l = filter P l.
Proof.
  induction l as [|a l IH]; [reflexivity|]. rewrite filter_cons. cbn [List.filter].
  rewrite IH. case_bool_decide; case_decide; first [reflexivity | contradiction].
Qed.

Lemma activationX_threshold act cat :
  activationX (pluginOptionsOf act cat) = activationThreshold cat.
Proof. destruct cat; reflexivity. Qed.

(** The energies [400..600] are above either threshold. *)
Lemma region_nonempty T cat :
  filter (fun pt => activationThreshold cat <= fst pt) (dynamicData T) <> [].
Proof.
  intros E. assert (Hin : In (INR 600, mbDistribution (INR 600) T)
                      (filter (fun pt => activationThreshold cat <= fst pt) (dynamicData T))).
  { apply filter_In_point; [apply dynamicData_In_at; unfold energyMax; lia|].
    cbn [fst]. rewrite (INR_const 600 600) by reflexivity. destruct cat; simpl; lra. }
  rewrite E in Hin. exact Hin.
Qed.

Lemma plugin_view (xPixel yPixel : R -> R) (st : mbState S) :
  activationPlugin xPixel yPixel (chartPlugin (chartView st)) (chartDatasets (chartView st)) =
  if showActivation st then
    [Save] ++ shadePolygon xPixel yPixel (chartPlugin (chartView st))
                (filter (fun pt => activationThreshold (showCatalyst st) <= fst pt)
                   (dynamicData (temperature st))) ++
    activationLine xPixel yPixel (chartPlugin (chartView st)) ++ [Restore]
  else [].
Proof.
  unfold activationPlugin, chartView. cbn [chartPlugin chartDatasets showActivationOpt dsData].
  unfold pluginOptionsOf at 1. cbn [showActivationOpt negb].
  destruct (showActivation st); [|reflexivity]. cbn [negb dynamicDataset dsData].
  rewrite activationX_threshold, list_filter_bool_decide.
  destruct (filter _ _) as [|pt l] eqn:E; [exfalso; exact (region_nonempty _ _ E)|reflexivity].
Qed.

(** C38: the activation shading is drawn exactly when it is toggled on, and
    it fills the polygon through exactly the points of the current curve
    at or above the threshold of the catalyst toggle (300 with it, 400
    without): the region whose area [handleRecordData] reports, and it is
    never empty. *)
Theorem activation_shades_recorded_region (xPixel yPixel : R -> R) T0 ss evs st c :
  (mbMount (mbInit T0 ss) ≫= fun s => mbRun toFixed2 s evs) = Some st ->
  chartRef st = Some c ->
  let region := filter (fun pt => activationThreshold (showCatalyst st) <= fst pt)
                  (dynamicData (temperature st)) in
  region <> [] /\
  activationPlugin xPixel yPixel (chartPlugin c) (chartDatasets c) =
    if showActivation st then
      [Save] ++ shadePolygon xPixel yPixel (chartPlugin c) region ++
      activationLine xPixel yPixel (chartPlugin c) ++ [Restore]
    else [].
Proof.
  intros Hrun Hc. pose proof (mount_run_view T0 ss evs st Hrun) as Hs.
  unfold inSync in Hs. rewrite Hs in Hc. injection Hc as <-.
  split; [apply region_nonempty | apply plugin_view].
Qed.

Lemma mostProbable_marker_mode av T :
  exists k pt rest, firstMax (dynamicData T) k pt /\
    markerDatasets true av T = mkDataset MostProbableLabel [pt] Blue 5 :: rest.
Proof.
  destruct (modeScan_spec_aux (hd 0 energies) (dynamicData T) (dynamicData_nonempty T))
    as (k & [E f] & Hf & Hm).
  unfold markerDatasets. cbv zeta. rewrite Hm. cbn [fst snd].
  eexists k, (E, f), _. split; [exact Hf | reflexivity].
Qed.

(** C39: the "Most Probable Energy" marker sits at the mode: when shown, the
    first marker dataset is the single point of the current curve where
    the density is maximal (the first such point). *)
Theorem mostProbable_marker_at_mode av T :
  exists k pt rest, firstMax (dynamicData T) k pt /\
    markerDatasets true av T = mkDataset MostProbableLabel [pt] Blue 5 :: rest.
Proof. apply mostProbable_marker_mode. Qed.
End SyncR.

(** Mounting at [T = 300] and switching the shading on. *)
Lemma activation_shades_recorded_region_witness :
  let st := mkMB 300 [] false false true false []
              (Some (chartView (mkMB (S:=R) 300 [] false false true false [] None))) in
  let c := chartView st in
  ((mbMount (mbInit 300 []) ≫= fun s => mbRun id s [ToggleActivation]) = Some st /\
   chartRef st = Some c) /\
  let region := filter (fun pt => activationThreshold (showCatalyst st) <= fst pt)
                  (dynamicData (temperature st)) in
  region <> [] /\
  activationPlugin (fun v => v) (fun v => v) (chartPlugin c) (chartDatasets c) =
    if showActivation st then
      [Save] ++ shadePolygon (fun v => v) (fun v => v) (chartPlugin c) region ++
      activationLine (fun v => v) (fun v => v) (chartPlugin c) ++ [Restore]
    else [].
Proof.
  cbv zeta.
  assert (Hrun : (mbMount (mbInit 300 []) ≫= fun s => mbRun id s [ToggleActivation]) =
                 Some (mkMB 300 [] false false true false []
                   (Some (chartView (mkMB (S:=R) 300 [] false false true false [] None)))))
    by (rewrite mbMount_view; reflexivity).
  split; [split; [exact Hrun | reflexivity]|].
  exact (activation_shades_recorded_region id (fun v => v) (fun v => v) 300 [] [ToggleActivation]
           _ _ Hrun eq_refl).
Defined.

(** ** The colour of a snapshot *)

Section Colour.

(** On the slider's range [100 <= T <= 500] a snapshot's colour is a
    valid [rgb(red,0,blue)]: both channels lie in [[0, 255]]. *)
Lemma color_channels_valid T :
  100 <= T <= 500 ->
  exists red blue, getColorForTemperature T = Rgb red 0 blue /\
    (0 <= red <= 255)%Z /\ (0 <= blue <= 255)%Z.
Proof.
  intros HT. unfold getColorForTemperature. cbv zeta.
  replace ((T - 100) / (500 - 100)) with ((T - 100) / 400) by (f_equal; lra).
  eexists _, _. split; [reflexivity|]. split; apply jsRound_bounds; simpl; lra.
Qed.
End Colour.
