(* ===== verification/ChartOptions.v ===== *)
(** * The chart's [options] prop

    Lines 267-301 of [MBDistributionChart.js] build the [options] object
    passed to [<Line>] at every render: responsiveness, the animation, the
    two linear axes, the legend, and the activation plugin's options.
    [chartOptions] is that object; the fields only Chart.js's own drawing
    reads are kept as the values the code writes.

    Lemmas: the plugin options of the prop are the ones Effect 4 writes
    ([Chart.pluginOptionsOf]), so that re-applying the prop at a render
    never disagrees with the effect; the plugin's [xMax] and [yMax] are
    the axes' maxima, and the energy grid ends at the [x] axis' maximum,
    so the shaded polygon closes on the right edge of the plot. *)

From Stdlib Require Import Reals Lra String.
From stdpp Require Import base decidable list.
From S2P Require Import Prelude Distribution Summary Chart.

Local Open Scope R_scope.

Record axis := mkAxis {
  axisMin : R;
  axisMax : R;
  axisTitle : string
}.

Record chartOptions := mkOptions {
  responsive : bool;
  maintainAspectRatio : bool;
  animationDuration : R;
  animationEasing : string;
  xAxis : axis;
  yAxis : axis;
  legendDisplay : bool;
  legendPadding : R;
  activationPluginOptions : pluginOptions
}.

(** Lines 267-301. *)
Definition options (showActivation showCatalyst : bool) : chartOptions :=
  mkOptions true false 500 "easeOutQuart"
    (mkAxis 0 600 "Energy") (mkAxis 0 0.5 "Number of molecules")
    true 10
    (mkPluginOptions showActivation (Some Orange) (Some [4; 4]) 2 (Some (Rgba 255 165 0 0.3))
       0.5 (if showCatalyst then 300 else 400) 600).

Lemma options_plugin act cat : activationPluginOptions (options act cat) = pluginOptionsOf act cat.
Proof. reflexivity. Qed.

Lemma options_plugin_axes act cat :
  let o := options act cat in
  xMaxOpt (activationPluginOptions o) = axisMax (xAxis o) /\
  yMaxOpt (activationPluginOptions o) = axisMax (yAxis o) /\
  INR energyMax = axisMax (xAxis o) /\
  axisMin (xAxis o) <= activationX (activationPluginOptions o) <= axisMax (xAxis o).
Proof.
  cbv zeta. unfold options.
  cbn [xMaxOpt yMaxOpt activationPluginOptions xAxis yAxis axisMax axisMin activationX].
  split; [reflexivity|]. split; [reflexivity|].
  split; [unfold energyMax; rewrite INR_IZR_INZ; reflexivity|].
  destruct cat; lra.
Qed.
