(* ===== verification/ChartLaws.v ===== *)
(** * Laws of the chart component

    Consequences of the refinement theorem [Chart.chart_refines_model] for
    a user of the chart:
    - round trips: a toggle pressed twice, or a temperature change and its
      undo, leaves the component exactly as it was, chart included;
    - the shape of the dataset array in every reachable state, the
      well-formedness the Chart.js chart and the effects' [order] filters
      rely on: the curve at the temperature (order 2), one curve per
      snapshot (order 4), then at most two single-point markers
      (order 5). *)

From Stdlib Require Import Reals Lra Lia.
From stdpp Require Import base decidable list.
From S2P Require Import Prelude JSNumber Distribution Summary Chart.

Local Open Scope R_scope.

(** The four toggle buttons. *)
Definition isToggle (ev : mbEvent) : bool :=
  match ev with
  | ToggleMostProbable | ToggleAverage | ToggleActivation | ToggleCatalyst => true
  | _ => false
  end.

(** A curve dataset of the given order: a temperature label and the 601
    points of the energy grid. *)
Definition curveShape (order : nat) (ds : dataset) : Prop :=
  dsOrder ds = order /\ length (dsData ds) = 601%nat /\ exists T, dsLabel ds = TempLabel T.

(** A marker dataset: order 5, one point, a marker label. *)
Definition markerShape (ds : dataset) : Prop :=
  dsOrder ds = 5%nat /\ length (dsData ds) = 1%nat /\
  (dsLabel ds = MostProbableLabel \/ dsLabel ds = AverageLabel).

Definition wfDatasets (dss : list dataset) : Prop :=
  exists dyn snaps markers,
    dss = dyn :: snaps ++ markers /\ curveShape 2 dyn /\
    Forall (curveShape 4) snaps /\ Forall markerShape markers /\ (length markers <= 2)%nat.

Section Laws.
Context {S : Type} (toFixed2 : R -> S).

Lemma withView_id (st : mbState S) : inSync st -> withView st = st.
Proof. destruct st. unfold inSync. cbn. intros ->. reflexivity. Qed.

Lemma mbModelStep_toggle_twice (st : mbState S) ev :
  isToggle ev = true -> mbModelStep toFixed2 (mbModelStep toFixed2 st ev) ev = st.
Proof. destruct st, ev; cbn; intros; rewrite ?negb_involutive; easy. Qed.

Lemma mbRun_undo (st : mbState S) evs :
  inSync st -> fold_left (mbModelStep toFixed2) evs st = st -> mbRun toFixed2 st evs = Some st.
Proof.
  intros Hs Hm. rewrite (mbRun_refines toFixed2 st evs Hs), Hm, withView_id by exact Hs.
  reflexivity.
Qed.

Lemma dynamicData_length T : length (dynamicData T) = 601%nat.
Proof. unfold dynamicData, energies. rewrite !length_map, length_seq. reflexivity. Qed.

Lemma markerDatasets_shape mp av T :
  Forall markerShape (markerDatasets mp av T) /\ (length (markerDatasets mp av T) <= 2)%nat.
Proof.
  unfold markerDatasets. cbv zeta.
  destruct mp; [destruct (fst (modeScan _ _))|]; destruct av; cbn [app length];
    (split; [|lia]); repeat (apply List.Forall_cons || apply List.Forall_nil); unfold markerShape;
    cbn [dsOrder dsData dsLabel length]; auto.
Qed.

Lemma view_wellformed (st : mbState S) : wfDatasets (chartDatasets (chartView st)).
Proof.
  destruct (markerDatasets_shape (showMostProbable st) (showAverage st) (temperature st)) as [Hm Hl].
  eexists _, _, _. split; [reflexivity|]. split; [|split; [|split; [exact Hm | exact Hl]]].
  - split; [reflexivity|]. split; [apply dynamicData_length | eexists; reflexivity].
  - apply List.Forall_forall. intros ds (T & <- & _)%in_map_iff.
    split; [reflexivity|]. split; [apply dynamicData_length | eexists; reflexivity].
Qed.
End Laws.

Section Claims.
Context {S : Type} (toFixed2 : R -> S).

(** C20: undoing an action restores the component.  From any state in
    which the chart shows the state, pressing a toggle twice, or moving
    the temperature away and back, gives back the same state, chart
    included: the effects leave no trace of the intermediate state. *)
Theorem chart_undo (st : mbState S) ev T' :
  inSync st -> isToggle ev = true ->
  mbRun toFixed2 st [ev; ev] = Some st /\
  mbRun toFixed2 st [NewTemperature T'; NewTemperature (temperature st)] = Some st.
Proof.
  intros Hs Ht. split; apply mbRun_undo; try exact Hs.
  - apply mbModelStep_toggle_twice, Ht.
  - destruct st; reflexivity.
Qed.

(** C21: the dataset array is well formed in every state reached from the
    mount: the curve at the temperature (order 2, 601 points), the
    snapshot curves (order 4), then at most two single-point markers
    (order 5), which is what the [order === 5] filters of Effects 2 and 3
    assume. *)
Theorem chart_datasets_wellformed T0 ss evs (st : mbState S) :
  (mbMount (mbInit T0 ss) ≫= fun s => mbRun toFixed2 s evs) = Some st ->
  exists c, chartRef st = Some c /\ wfDatasets (chartDatasets c).
Proof.
  intros Hrun. exists (chartView st). split; [apply (mount_run_view toFixed2 T0 ss evs st Hrun)|].
  apply view_wellformed.
Qed.
End Claims.

(** The mounted component at [T = 300]: the catalyst toggled twice, and
    the temperature moved to 400 and back. *)
Lemma chart_undo_witness :
  let st := withView (mbInit (S:=R) 300 []) in
  (inSync st /\ isToggle ToggleCatalyst = true) /\
  (mbRun id st [ToggleCatalyst; ToggleCatalyst] = Some st /\
   mbRun id st [NewTemperature 400; NewTemperature (temperature st)] = Some st).
Proof.
  cbv zeta. split; [split; reflexivity|]. apply chart_undo; reflexivity.
Defined.

(** A snapshot at 400 and the mode marker switched on. *)
Lemma chart_datasets_wellformed_witness :
  let evs := [NewSnapshots [400]; ToggleMostProbable] in
  let st := withView (fold_left (mbModelStep id) evs (mbInit (S:=R) 300 [])) in
  (mbMount (mbInit 300 []) ≫= fun s => mbRun id s evs) = Some st /\
  exists c, chartRef st = Some c /\ wfDatasets (chartDatasets c).
Proof.
  cbv zeta. pose proof (mount_run_model id 300 [] [NewSnapshots [400]; ToggleMostProbable]) as Hrun.
  split; [exact Hrun|]. exact (chart_datasets_wellformed id 300 [] _ _ Hrun).
Defined.
