(* ===== verification/VDom.v ===== *)
(** * Rendered elements

    What a React component's JSX returns: a tree of host elements (a tag,
    a [className], an inline [style] object, attributes, event handlers
    and children), text, and elements of other components with their
    props.  [vnode E] is that tree, with the handlers producing the
    component's events of type [E]:
    - a style value is a string or a number ([{ top: 50 }]);
    - an attribute value is a string or a number ([value={temperature}]);
    - [onClick] carries the event a click dispatches, [onChange] the
      event a new input value [v] dispatches;
    - a prop of a component element is a number, a list of numbers, or a
      JS value the model keeps elsewhere, named ([data={chartData}]).

    Queries read the tree back: the text it shows, the elements of a tag
    in document order, a style or attribute value of an element. *)

From Stdlib Require Import Reals String.
From stdpp Require Import base decidable list.
From S2P Require Import Prelude.

#[local] Set Warnings "-register-all".

Inductive cssValue :=
  | CStr (s : string)
  | CNum (n : Z).

Inductive attrValue :=
  | AStr (s : string)
  | ANum (r : R).

Inductive handler (E : Type) :=
  | OnClick (e : E)
  | OnChange (f : R -> E).
Arguments OnClick {E} _.
Arguments OnChange {E} _.

Inductive propValue :=
  | PNum (r : R)
  | PNums (l : list R)
  | PValue (name : string).

Inductive vnode (E : Type) :=
  | Text (s : string)
  | Elem (tag : string) (className : option string) (style : list (string * cssValue))
      (attrs : list (string * attrValue)) (handlers : list (handler E)) (children : list (vnode E))
  | Comp (name : string) (props : list (string * propValue)).
Arguments Text {E} _.
Arguments Elem {E} _ _ _ _ _ _.
Arguments Comp {E} _ _.

Section Queries.
Context {E : Type}.

(** An element without [className], attributes or handlers. *)
Definition el (tag : string) (style : list (string * cssValue)) (children : list (vnode E)) : vnode E :=
  Elem tag None style [] [] children.

(** The text shown, in document order. *)
Fixpoint textContent (v : vnode E) : string :=
  match v with
  | Text s => s
  | Elem _ _ _ _ _ ch => String.concat "" (map textContent ch)
  | Comp _ _ => EmptyString
  end.

(** The elements of tag [t], in document order. *)
Fixpoint elemsWithTag (t : string) (v : vnode E) : list (vnode E) :=
  match v with
  | Elem tag _ _ _ _ ch => (if String.eqb tag t then [v] else []) ++ flat_map (elemsWithTag t) ch
  | _ => []
  end.

(** The component elements, in document order. *)
Fixpoint componentsOf (v : vnode E) : list (string * list (string * propValue)) :=
  match v with
  | Elem _ _ _ _ _ ch => flat_map componentsOf ch
  | Comp n ps => [(n, ps)]
  | Text _ => []
  end.

Definition styleOf (v : vnode E) : list (string * cssValue) :=
  match v with Elem _ _ st _ _ _ => st | _ => [] end.

Definition attrsOf (v : vnode E) : list (string * attrValue) :=
  match v with Elem _ _ _ a _ _ => a | _ => [] end.

Definition handlersOf (v : vnode E) : list (handler E) :=
  match v with Elem _ _ _ _ hs _ => hs | _ => [] end.

(** A key's first value in a list of pairs ([style.key], [attrs.key]). *)
Fixpoint lookupKey {V : Type} (k : string) (l : list (string * V)) : option V :=
  match l with
  | [] => None
  | (k', v) :: l' => if String.eqb k' k then Some v else lookupKey k l'
  end.

Lemma elemsWithTag_el t tag st ch :
  elemsWithTag t (el tag st ch) = (if String.eqb tag t then [el tag st ch] else []) ++
                                 flat_map (elemsWithTag t) ch.
Proof. reflexivity. Qed.

Lemma flat_map_nil {A B : Type} (f : A -> list B) (l : list A) :
  Forall (fun a => f a = []) l -> flat_map f l = [].
Proof. induction 1 as [|a l Ha _ IH]; [reflexivity|]. cbn. rewrite Ha, IH. reflexivity. Qed.
End Queries.
