(* ===== verification/ChartView.v ===== *)
(** * What the chart component renders

    Lines 303-414 of [MBDistributionChart.js]: the [<Line>] element of
    react-chartjs-2, a column of five buttons, and the table of recorded
    rows.  Each toggle button has the same inline style up to its accent
    colour: filled with the accent and white text when its toggle is on,
    white with accent text when it is off ([toggleButtonStyle]); the
    Record Data button's style does not change.  The table is
    [Table.tableHeader] and [Table.tableBody] as [<th>] and [<td>] cells.

    Theorem: from the mount, after any sequence of events, the buttons are
    in order Most Probable Energy, Average Energy, Activation Energy,
    Catalyst and Record Data, each dispatching its event on click, and a
    toggle button is filled with its accent exactly when it has been
    pressed an odd number of times ([chart_buttons_show_presses]). *)

From Stdlib Require Import Reals Lra Lia String.
From stdpp Require Import base decidable list.
From S2P Require Import Prelude Distribution Summary Format Table Chart ChartLaws VDom.

Local Open Scope R_scope.
Local Open Scope string_scope.

#[export] Instance mbEvent_eq_dec : EqDecision mbEvent.
Proof. solve_decision. Defined.

Section View.
(** [String(n)] of a number child. *)
Variable numberToString : R -> string.

(** The style of a toggle button with accent colour [accent] (lines
    320-328, 334-342, 348-356, 362-370). *)
Definition toggleButtonStyle (accent : string) (on : bool) : list (string * cssValue) :=
  [("padding", CStr "5px 10px"); ("fontSize", CStr "12px"); ("borderRadius", CStr "4px");
   ("border", CStr ("1px solid " ++ accent)); ("backgroundColor", CStr (if on then accent else "#fff"));
   ("color", CStr (if on then "#fff" else accent)); ("cursor", CStr "pointer")]%string.

(** The style of the Record Data button (lines 376-384). *)
Definition recordButtonStyle : list (string * cssValue) :=
  [("padding", CStr "5px 10px"); ("fontSize", CStr "12px"); ("borderRadius", CStr "4px");
   ("border", CStr "1px solid #6c757d"); ("backgroundColor", CStr "#fff");
   ("color", CStr "#6c757d"); ("cursor", CStr "pointer")]%string.

Definition button (style : list (string * cssValue)) (ev : mbEvent) (label : string) : vnode mbEvent :=
  Elem "button" None style [] [OnClick ev] [Text label].

(** The button column (lines 318-387). *)
Definition chartButtons (st : mbState string) : list (vnode mbEvent) :=
  [button (toggleButtonStyle "#007BFF" (showMostProbable st)) ToggleMostProbable "Most Probable Energy";
   button (toggleButtonStyle "#DC3545" (showAverage st)) ToggleAverage "Average Energy";
   button (toggleButtonStyle "#28a745" (showActivation st)) ToggleActivation "Activation Energy";
   button (toggleButtonStyle "#8A2BE2" (showCatalyst st)) ToggleCatalyst "Catalyst";
   button recordButtonStyle RecordData "Record Data"]%string.

(** [{ border: '1px solid #ddd', padding: '8px' }] of every cell. *)
Definition cellStyle : list (string * cssValue) :=
  [("border", CStr "1px solid #ddd"); ("padding", CStr "8px")]%string.

(** One [<tr key={index}>] with its four [<td>] cells (lines 403-408). *)
Definition rowView (kr : nat * list string) : vnode mbEvent :=
  Elem "tr" None [] [("key", ANum (INR (fst kr)))] [] (map (fun s => el "td" cellStyle [Text s]) (snd kr)).

(** The table (lines 392-411). *)
Definition tableView (rows : list (recordRow string)) : vnode mbEvent :=
  el "table" [("width", CStr "100%"); ("borderCollapse", CStr "collapse")]%string
    [el "thead" [] [el "tr" [] (map (fun h => el "th" cellStyle [Text h]) tableHeader)];
     el "tbody" [] (map rowView (tableBody numberToString rows))].

(** The JSX of lines 303-414. *)
Definition renderChart (st : mbState string) : vnode mbEvent :=
  el "div" [("position", CStr "relative"); ("width", CStr "100%")]%string
    [el "div" [("position", CStr "relative"); ("width", CStr "100%"); ("height", CStr "450px")]%string
       [Comp "Line" [("ref", PValue "chartRef"); ("data", PValue "chartData");
                     ("options", PValue "options")]%string;
        el "div" [("position", CStr "absolute"); ("top", CNum 50); ("right", CNum 10);
                  ("display", CStr "flex"); ("flexDirection", CStr "column"); ("gap", CStr "5px")]%string
          (chartButtons st)];
     el "div" [("marginTop", CStr "20px"); ("width", CStr "100%")]%string [tableView (recordedData st)]].
End View.

(** A rendered button: its label, style and handlers. *)
Definition buttonsOf {E : Type} (v : vnode E) : list (string * list (string * cssValue) * list (handler E)) :=
  map (fun b => (textContent b, styleOf b, handlersOf b)) (elemsWithTag "button" v).

(** The four toggles: label, accent colour and event. *)
Definition toggles : list (string * string * mbEvent) :=
  [("Most Probable Energy", "#007BFF", ToggleMostProbable); ("Average Energy", "#DC3545", ToggleAverage);
   ("Activation Energy", "#28a745", ToggleActivation); ("Catalyst", "#8A2BE2", ToggleCatalyst)]%string.

(** How many times [ev] occurs in [evs]. *)
Definition presses (ev : mbEvent) (evs : list mbEvent) : nat :=
  length (filter (fun e => e = ev) evs).

(** The flag a toggle event flips. *)
Definition toggleFlag {S : Type} (t : mbEvent) (st : mbState S) : bool :=
  match t with
  | ToggleMostProbable => showMostProbable st
  | ToggleAverage => showAverage st
  | ToggleActivation => showActivation st
  | ToggleCatalyst => showCatalyst st
  | _ => false
  end.

(** ** Lemmas *)

Section Flags.
Context {S : Type} (toFixed2 : R -> S).

Lemma toggleFlag_step t (st : mbState S) e :
  isToggle t = true ->
  toggleFlag t (mbModelStep toFixed2 st e) = xorb (toggleFlag t st) (bool_decide (e = t)).
Proof.
  intros Ht. destruct (decide (e = t)) as [->|Hne].
  - rewrite bool_decide_true, xorb_true_r by reflexivity. destruct st, t; try discriminate; reflexivity.
  - rewrite bool_decide_false, xorb_false_r by exact Hne.
    destruct st, t, e; try discriminate; try reflexivity; congruence.
Qed.

Lemma presses_cons t e evs :
  presses t (e :: evs) = if bool_decide (e = t) then Nat.succ (presses t evs) else presses t evs.
Proof. unfold presses. rewrite filter_cons. case_bool_decide; [rewrite decide_True | rewrite decide_False]; auto. Qed.

Lemma toggleFlag_run t (st : mbState S) evs :
  isToggle t = true ->
  toggleFlag t (fold_left (mbModelStep toFixed2) evs st) = xorb (toggleFlag t st) (Nat.odd (presses t evs)).
Proof.
  intros Ht. revert st. induction evs as [|e evs IH]; intros st; cbn [fold_left].
  - rewrite xorb_false_r. reflexivity.
  - rewrite IH, toggleFlag_step, presses_cons by exact Ht.
    destruct (bool_decide (e = t)); [|rewrite xorb_false_r; reflexivity].
    rewrite Nat.odd_succ, <- Nat.negb_odd, xorb_assoc. destruct (Nat.odd _); reflexivity.
Qed.

Lemma toggleFlag_withView t (st : mbState S) : toggleFlag t (withView st) = toggleFlag t st.
Proof. destruct st, t; reflexivity. Qed.
End Flags.

Lemma rowView_nobutton kr : elemsWithTag "button" (rowView kr) = [].
Proof.
  destruct kr as [k cells]. cbn. apply flat_map_nil, List.Forall_map, List.Forall_forall.
  intros; reflexivity.
Qed.

Lemma tableView_nobutton nts rows : elemsWithTag "button" (tableView nts rows) = [].
Proof.
  cbn -[tableBody]. rewrite (flat_map_nil _ (map rowView _)); [reflexivity|].
  apply List.Forall_map, List.Forall_forall. intros; apply rowView_nobutton.
Qed.

Lemma renderChart_buttons nts st :
  buttonsOf (renderChart nts st) =
  app (map (fun '(label, accent, ev) => (label, toggleButtonStyle accent (toggleFlag ev st), [OnClick ev]))
    toggles) [("Record Data", recordButtonStyle, [OnClick RecordData])].
Proof.
  unfold buttonsOf, renderChart. cbn -[tableView toggleButtonStyle recordButtonStyle].
  rewrite tableView_nobutton. reflexivity.
Qed.

(** ** The claim *)

(** C23: the buttons show how often they were pressed.  From the mount,
    after any sequence of events, the rendered chart has exactly five
    buttons, in the order Most Probable Energy, Average Energy,
    Activation Energy, Catalyst and Record Data, each dispatching its own
    event on click; a toggle button is filled with its accent colour (and
    white text) exactly when it has been pressed an odd number of times,
    and Record Data keeps its style. *)
Theorem chart_buttons_show_presses nts T0 ss evs st :
  (mbMount (mbInit T0 ss) ≫= fun s => mbRun (toFixed2 nts) s evs) = Some st ->
  buttonsOf (renderChart nts st) =
  app (map (fun '(label, accent, ev) => (label, toggleButtonStyle accent (Nat.odd (presses ev evs)), [OnClick ev]))
    toggles) [("Record Data", recordButtonStyle, [OnClick RecordData])].
Proof.
  rewrite mount_run_model. intros [= <-]. rewrite renderChart_buttons.
  cbn [map toggles]. rewrite !toggleFlag_withView, !toggleFlag_run by reflexivity. reflexivity.
Qed.

(** Three presses from the mount: the catalyst twice, the mode marker
    once. *)
Lemma chart_buttons_show_presses_witness :
  let nts := fun _ : R => "0" in
  let evs := [ToggleCatalyst; ToggleMostProbable; ToggleCatalyst] in
  let st := withView (fold_left (mbModelStep (toFixed2 nts)) evs (mbInit 300 [])) in
  (mbMount (mbInit 300 []) ≫= fun s => mbRun (toFixed2 nts) s evs) = Some st /\
  buttonsOf (renderChart nts st) =
  app (map (fun '(label, accent, ev) => (label, toggleButtonStyle accent (Nat.odd (presses ev evs)), [OnClick ev]))
    toggles) [("Record Data", recordButtonStyle, [OnClick RecordData])].
Proof.
  cbv zeta.
  pose proof (mount_run_model (toFixed2 (fun _ : R => "0")) 300 []
                [ToggleCatalyst; ToggleMostProbable; ToggleCatalyst]) as Hrun.
  split; [exact Hrun|]. exact (chart_buttons_show_presses _ 300 [] _ _ Hrun).
Defined.
