(* ===== verification/Canvas2D.v ===== *)
(** * The 2D canvas context

    Both components draw through a [CanvasRenderingContext2D]: the
    simulation's frame (lines 63-68 and 132-153 of [SimulationCanvas.js])
    and the chart's activation plugin (lines 33-57 of
    [MBDistributionChart.js]).  The context is a browser builtin; it is
    modelled here from the HTML canvas specification, with what the two
    components use of it:
    - the drawing state ([drawingState]): fill and stroke styles, line
      width and dash, shadow colour and blur; [save()] pushes it on a
      stack and [restore()] pops it (an empty stack is left alone);
    - the current path, as its list of segments;
    - what has been painted, as a list of marks ([mark]): a cleared
      rectangle, or a filled or stroked shape with the paint, the line
      style and the shadow in force when it was painted;
    - the setters that ignore values: [lineWidth] ignores values that are
      not positive, [shadowBlur] negative ones, [setLineDash] a list with a
      negative entry, and an odd-length dash list is repeated;
    - the errors: [arc] with a negative radius, [createRadialGradient] with
      a negative radius and [addColorStop] with an offset outside [[0, 1]]
      throw an [IndexSizeError]; [createRadialGradient] with a [NaN]
      argument throws a [TypeError] in the argument conversion
      ([toDouble]), while [arc] with a [NaN] argument does nothing
      ([arcCall]).
    A shadow is drawn when [shadowBlur] is not [0] (the offsets are never
    set, and the colour's alpha is the paint's business); a mark records
    [shadowOf] of the state.

    Code that draws runs in [drawM], a state monad over the context with
    exceptions: a throw keeps what was painted before it, as the browser
    does.

    Theorem: the chart's activation plugin gives back the drawing state
    and the save stack it found ([activationPlugin_restores]), whatever
    its options and data, so that the chart drawn after it keeps its
    styles. *)

From Stdlib Require Import Reals Lra String.
From stdpp Require Import base decidable list.
From S2P Require Import Prelude Distribution Summary Chart.

Local Open Scope R_scope.

(** ** Paint *)

(** A [CanvasGradient] from [createRadialGradient], with its colour stops
    in the order they were added. *)
Record radialGradient := mkRadialGradient {
  gx0 : R; gy0 : R; gr0 : R;
  gx1 : R; gy1 : R; gr1 : R;
  colorStops : list (R * color)
}.

(** A value of [fillStyle], [strokeStyle] or [shadowColor]: a CSS colour
    of the chart's palette, a hex literal, or a gradient. *)
Inductive paint :=
  | Css (c : color)
  | Hex (s : string)
  | Gradient (g : radialGradient).

(** WebIDL's conversion of a JS number to [double], the type of
    [createRadialGradient]'s six arguments: a [TypeError] ([None]) on a
    number that is not finite.  A JS number is [Some] of a finite real or
    [None] for [NaN] (as in [JSNumber.NaN_JSNum]), so the conversion is
    the identity on [option R], and its [None] is the throw. *)
Definition toDouble (v : option R) : option R := v.

(** [ctx.createRadialGradient(x0, y0, r0, x1, y1, r1)], on the converted
    arguments. *)
Definition createRadialGradient (x0 y0 r0 x1 y1 r1 : R) : option radialGradient :=
  if decide (r0 < 0 \/ r1 < 0) then None else Some (mkRadialGradient x0 y0 r0 x1 y1 r1 []).

(** [gradient.addColorStop(offset, c)]. *)
Definition addColorStop (offset : R) (c : color) (g : radialGradient) : option radialGradient :=
  if decide (0 <= offset <= 1) then
    Some (mkRadialGradient (gx0 g) (gy0 g) (gr0 g) (gx1 g) (gy1 g) (gr1 g)
            (colorStops g ++ [(offset, c)]))
  else None.

(** ** The context *)

Record drawingState := mkDrawing {
  fillStyle : paint;
  strokeStyle : paint;
  lineWidth : R;
  lineDash : list R;
  shadowColor : paint;
  shadowBlur : R
}.

(** A fresh context: black styles, width 1, solid lines, transparent black
    shadow without blur. *)
Definition defaultDrawing : drawingState :=
  mkDrawing (Hex "#000000") (Hex "#000000") 1 [] (Css (Rgba 0 0 0 0)) 0.

Inductive pathSeg :=
  | SegMove (px py : R)
  | SegLine (px py : R)
  | SegArc (cx cy r a0 a1 : R)
  | SegClose.

Inductive shape :=
  | RectShape (rx ry w h : R)
  | PathShape (segs : list pathSeg).

Inductive mark :=
  | Cleared (rx ry w h : R)
  | Filled (sh : shape) (p : paint) (shadow : option (R * paint))
  | Stroked (sh : shape) (p : paint) (w : R) (dash : list R) (shadow : option (R * paint)).

Record context := mkContext {
  drawing : drawingState;
  stack : list drawingState;
  currentPath : list pathSeg;
  marks : list mark
}.

Definition freshContext : context := mkContext defaultDrawing [] [] [].

(** The shadow a shape painted in state [d] gets. *)
Definition shadowOf (d : drawingState) : option (R * paint) :=
  if decide (shadowBlur d = 0) then None else Some (shadowBlur d, shadowColor d).

(** The calls of the context that the components make. *)
Inductive ctxCall :=
  | CtxSave | CtxRestore | CtxBeginPath | CtxClosePath | CtxFill | CtxStroke
  | CtxMoveTo (px py : R)
  | CtxLineTo (px py : R)
  | CtxArc (cx cy r a0 a1 : R)
  | CtxClearRect (rx ry w h : R)
  | CtxFillRect (rx ry w h : R)
  | CtxStrokeRect (rx ry w h : R)
  | CtxSetFillStyle (p : paint)
  | CtxSetStrokeStyle (p : paint)
  | CtxSetLineWidth (w : R)
  | CtxSetLineDash (d : list R)
  | CtxSetShadowColor (p : paint)
  | CtxSetShadowBlur (b : R).

(** [ctx.arc(cx, cy, r, a0, a1)] with JS numbers for the centre and the
    radius: its arguments are [unrestricted double]s, so a [NaN] does not
    throw, and the method returns without doing anything when one of them
    is not finite. *)
Definition arcCall (cx cy r : option R) (a0 a1 : R) : list ctxCall :=
  match cx, cy, r with
  | Some u, Some v, Some w => [CtxArc u v w a0 a1]
  | _, _, _ => []
  end.

Definition withDrawing (c : context) (d : drawingState) : context :=
  mkContext d (stack c) (currentPath c) (marks c).
Definition withPath (c : context) (segs : list pathSeg) : context :=
  mkContext (drawing c) (stack c) segs (marks c).
Definition addMark (c : context) (m : mark) : context :=
  mkContext (drawing c) (stack c) (currentPath c) (marks c ++ [m]).

Definition setFillStyle (d : drawingState) (p : paint) : drawingState :=
  mkDrawing p (strokeStyle d) (lineWidth d) (lineDash d) (shadowColor d) (shadowBlur d).
Definition setStrokeStyle (d : drawingState) (p : paint) : drawingState :=
  mkDrawing (fillStyle d) p (lineWidth d) (lineDash d) (shadowColor d) (shadowBlur d).
Definition setLineWidth (d : drawingState) (w : R) : drawingState :=
  if decide (0 < w) then mkDrawing (fillStyle d) (strokeStyle d) w (lineDash d) (shadowColor d) (shadowBlur d)
  else d.
Definition setLineDash (d : drawingState) (l : list R) : drawingState :=
  if existsb (fun v => bool_decide (v < 0)) l then d
  else mkDrawing (fillStyle d) (strokeStyle d) (lineWidth d)
         (if Nat.odd (length l) then l ++ l else l) (shadowColor d) (shadowBlur d).
Definition setShadowColor (d : drawingState) (p : paint) : drawingState :=
  mkDrawing (fillStyle d) (strokeStyle d) (lineWidth d) (lineDash d) p (shadowBlur d).
Definition setShadowBlur (d : drawingState) (b : R) : drawingState :=
  if decide (0 <= b) then mkDrawing (fillStyle d) (strokeStyle d) (lineWidth d) (lineDash d) (shadowColor d) b
  else d.

(** One call; [None] when it throws. *)
Definition ctxStep (op : ctxCall) (c : context) : option context :=
  let d := drawing c in
  match op with
  | CtxSave => Some (mkContext d (d :: stack c) (currentPath c) (marks c))
  | CtxRestore =>
      Some (match stack c with
            | [] => c
            | d' :: st => mkContext d' st (currentPath c) (marks c)
            end)
  | CtxBeginPath => Some (withPath c [])
  | CtxClosePath => Some (withPath c (currentPath c ++ [SegClose]))
  | CtxMoveTo px py => Some (withPath c (currentPath c ++ [SegMove px py]))
  | CtxLineTo px py => Some (withPath c (currentPath c ++ [SegLine px py]))
  | CtxArc cx cy r a0 a1 =>
      if decide (r < 0) then None else Some (withPath c (currentPath c ++ [SegArc cx cy r a0 a1]))
  | CtxFill => Some (addMark c (Filled (PathShape (currentPath c)) (fillStyle d) (shadowOf d)))
  | CtxStroke =>
      Some (addMark c (Stroked (PathShape (currentPath c)) (strokeStyle d) (lineWidth d) (lineDash d)
                         (shadowOf d)))
  | CtxClearRect rx ry w h => Some (addMark c (Cleared rx ry w h))
  | CtxFillRect rx ry w h => Some (addMark c (Filled (RectShape rx ry w h) (fillStyle d) (shadowOf d)))
  | CtxStrokeRect rx ry w h =>
      Some (addMark c (Stroked (RectShape rx ry w h) (strokeStyle d) (lineWidth d) (lineDash d)
                         (shadowOf d)))
  | CtxSetFillStyle p => Some (withDrawing c (setFillStyle d p))
  | CtxSetStrokeStyle p => Some (withDrawing c (setStrokeStyle d p))
  | CtxSetLineWidth w => Some (withDrawing c (setLineWidth d w))
  | CtxSetLineDash l => Some (withDrawing c (setLineDash d l))
  | CtxSetShadowColor p => Some (withDrawing c (setShadowColor d p))
  | CtxSetShadowBlur b => Some (withDrawing c (setShadowBlur d b))
  end.

(** ** Drawing code: state and exceptions *)

(** A computation on the context that may throw ([None]); the context it
    leaves is kept either way. *)
Definition drawM (T : Type) : Type := context -> option T * context.

#[export] Instance drawM_ret : MRet drawM := fun T v c => (Some v, c).

#[export] Instance drawM_bind : MBind drawM := fun T U k m c =>
  match m c with
  | (Some v, c') => k v c'
  | (None, c') => (None, c')
  end.

(** A value that may have thrown. *)
Definition dlift {T} (o : option T) : drawM T := fun c => (o, c).

Definition call (op : ctxCall) : drawM unit :=
  fun c => match ctxStep op c with
           | Some c' => (Some tt, c')
           | None => (None, c)
           end.

(** Statements in order. *)
Fixpoint calls (ops : list ctxCall) : drawM unit :=
  match ops with
  | [] => mret tt
  | op :: ops' => call op ;; calls ops'
  end.

(** ** The activation plugin on the context *)

(** The context call each command of [Chart.activationPlugin] is. *)
Definition ofDrawOp (op : drawOp) : ctxCall :=
  match op with
  | Save => CtxSave
  | Restore => CtxRestore
  | BeginPath => CtxBeginPath
  | ClosePath => CtxClosePath
  | Fill => CtxFill
  | Stroke => CtxStroke
  | MoveTo px py => CtxMoveTo px py
  | LineTo px py => CtxLineTo px py
  | SetFillStyle c => CtxSetFillStyle (Css c)
  | SetLineDash d => CtxSetLineDash d
  | SetStrokeStyle c => CtxSetStrokeStyle (Css c)
  | SetLineWidth w => CtxSetLineWidth w
  end.

(** [afterDatasetsDraw] run on a context. *)
Definition runPlugin (xPixel yPixel : R -> R) (opts : pluginOptions) (dss : list dataset) : drawM unit :=
  calls (map ofDrawOp (activationPlugin xPixel yPixel opts dss)).

(** ** Running calls *)

Lemma drawM_bind_eq {T U} (m : drawM T) (k : T -> drawM U) c :
  (m ≫= k) c = match m c with (Some v, c') => k v c' | (None, c') => (None, c') end.
Proof. reflexivity. Qed.

Lemma drawM_ret_eq {T} (v : T) c : mret (M:=drawM) v c = (Some v, c).
Proof. reflexivity. Qed.

Lemma shadowOf_none d : shadowBlur d = 0 -> shadowOf d = None.
Proof. unfold shadowOf. intros E. rewrite decide_True by exact E. reflexivity. Qed.

Lemma setShadowBlur_nonneg d b : 0 <= b -> shadowBlur (setShadowBlur d b) = b.
Proof. intros Hb. unfold setShadowBlur. rewrite decide_True by exact Hb. reflexivity. Qed.

(** A call that cannot throw and leaves the save stack alone. *)
Definition isPlain (op : ctxCall) : bool :=
  match op with
  | CtxSave | CtxRestore | CtxArc _ _ _ _ _ => false
  | _ => true
  end.

(** [c'] extends the painting of [c]. *)
Definition paintsOver (c c' : context) : Prop := exists ms, marks c' = marks c ++ ms.

Lemma paintsOver_refl c : paintsOver c c.
Proof. exists []. rewrite app_nil_r. reflexivity. Qed.

Lemma paintsOver_trans c1 c2 c3 : paintsOver c1 c2 -> paintsOver c2 c3 -> paintsOver c1 c3.
Proof. intros [m1 H1] [m2 H2]. exists (m1 ++ m2). rewrite H2, H1, app_assoc. reflexivity. Qed.

Lemma paintsOver_addMark c m : paintsOver c (addMark c m).
Proof. exists [m]. reflexivity. Qed.

#[export] Hint Resolve paintsOver_refl paintsOver_addMark : mbsim.

Lemma calls_nil c : calls [] c = (Some tt, c).
Proof. reflexivity. Qed.

Lemma calls_cons op ops c :
  calls (op :: ops) c =
  match ctxStep op c with Some c' => calls ops c' | None => (None, c) end.
Proof. cbn. unfold mbind, drawM_bind, call. destruct (ctxStep op c); reflexivity. Qed.

(** Steps through a list of calls, one [calls_cons] at a time, discharging
    the tests of [arc] with [solver]. *)
Ltac run_calls solver :=
  repeat (rewrite calls_cons; cbn [ctxStep]; rewrite ?decide_False by solver);
  rewrite ?calls_nil.

Lemma calls_app l1 l2 c c1 :
  calls l1 c = (Some tt, c1) -> calls (l1 ++ l2) c = calls l2 c1.
Proof.
  revert c. induction l1 as [|op l1 IH]; intros c H; cbn [app];
    [rewrite calls_nil in H; congruence|].
  rewrite calls_cons in H |- *. destruct (ctxStep op c); [apply IH, H | discriminate].
Qed.

Lemma ctxStep_plain op c :
  isPlain op = true ->
  exists c', ctxStep op c = Some c' /\ stack c' = stack c /\ paintsOver c c'.
Proof.
  destruct op; cbn; intros; try discriminate; (eexists; split; [reflexivity|]); split;
    try reflexivity; first [apply paintsOver_addMark | exists []; rewrite app_nil_r; reflexivity].
Qed.

Lemma calls_plain ops c :
  Forall (fun op => isPlain op = true) ops ->
  exists c', calls ops c = (Some tt, c') /\ stack c' = stack c /\ paintsOver c c'.
Proof.
  revert c. induction ops as [|op ops IH]; intros c Hops; [eexists; eauto with mbsim|].
  apply List.Forall_cons_iff in Hops as [Hop Hops].
  destruct (ctxStep_plain op c Hop) as (c1 & E1 & S1 & P1).
  destruct (IH c1 Hops) as (c2 & E2 & S2 & P2).
  exists c2. rewrite calls_cons, E1, E2.
  split; [reflexivity|]. split; [congruence | eapply paintsOver_trans; eassumption].
Qed.

(** [save()], plain calls, [restore()]: the drawing state and the stack
    come back. *)
Lemma calls_save_restore ops c :
  Forall (fun op => isPlain op = true) ops ->
  exists c', calls ([CtxSave] ++ ops ++ [CtxRestore]) c = (Some tt, c') /\
    drawing c' = drawing c /\ stack c' = stack c /\ paintsOver c c'.
Proof.
  intros Hops.
  destruct (calls_plain ops (mkContext (drawing c) (drawing c :: stack c) (currentPath c) (marks c)) Hops)
    as (c2 & E2 & S2 & P2).
  exists (mkContext (drawing c) (stack c) (currentPath c2) (marks c2)).
  cbn [app]. rewrite calls_cons. cbn [ctxStep].
  rewrite (calls_app ops [CtxRestore] _ c2 E2), calls_cons. cbn [ctxStep]. rewrite S2, calls_nil.
  repeat split; [exact P2].
Qed.

Lemma ofDrawOp_plain op : op <> Save -> op <> Restore -> isPlain (ofDrawOp op) = true.
Proof. destruct op; cbn; congruence. Qed.

Section PluginCalls.
Variables (xPixel yPixel : R -> R) (opts : pluginOptions).

Lemma pluginBody_plain pts :
  Forall (fun op => isPlain op = true)
    (map ofDrawOp (shadePolygon xPixel yPixel opts pts ++ activationLine xPixel yPixel opts)).
Proof.
  apply List.Forall_map, List.Forall_forall. intros op Hin. apply ofDrawOp_plain;
    intros ->; unfold shadePolygon, activationLine in Hin; cbn in Hin;
    repeat (destruct Hin as [Hin|Hin]; [discriminate|]);
    repeat (apply in_app_or in Hin as [Hin|Hin]);
    try (apply in_map_iff in Hin as (? & ? & _); discriminate);
    cbn in Hin; repeat (destruct Hin as [Hin|Hin]; [discriminate|]); contradiction.
Qed.
End PluginCalls.

(** ** The plugin restores the context *)

(** C18: the activation plugin restores the context.  On any context,
    whatever its options and the datasets, [afterDatasetsDraw] (lines
    25-58 of [MBDistributionChart.js]) does not throw, adds marks after the
    ones already painted, and leaves the drawing state (fill and stroke
    styles, line width, dash, shadow) and the save stack as it found them:
    its orange fill, dash and line width do not leak into what Chart.js
    draws next. *)
Theorem activationPlugin_restores xPixel yPixel opts dss c :
  exists c', runPlugin xPixel yPixel opts dss c = (Some tt, c') /\
    drawing c' = drawing c /\ stack c' = stack c /\ paintsOver c c'.
Proof.
  unfold runPlugin, activationPlugin.
  destruct (negb (showActivationOpt opts)); [exists c; cbn; eauto with mbsim|].
  destruct dss as [|ds dss]; [exists c; cbn; eauto with mbsim|].
  destruct (List.filter _ _) as [|pt pts]; [exists c; cbn; eauto with mbsim|].
  rewrite !map_app, (app_assoc (map ofDrawOp (shadePolygon _ _ _ _))), <- map_app.
  apply calls_save_restore, pluginBody_plain.
Qed.
