(* ===== verification/CanvasDraw.v ===== *)
(** * What the simulation draws, over JS numbers

    Each call of [updateParticles] (lines 62-156 of [SimulationCanvas.js])
    paints a frame on the context obtained once at mount (line 60):
    - lines 63-68: clear the canvas, fill it with ['#f5f5f5'] and stroke
      its border in ['#ccc'] ([drawBackground]);
    - lines 70-130: the physics of [Kinetics.updateParticles], which does
      not touch the context;
    - lines 133-153: for each particle, a radial gradient with three
      colour stops, a circle of the particle's radius filled with it under
      a shadow of blur 4, and the blur reset to 0 ([drawParticle]);
    - line 155: the next frame is requested.  A throw in the drawing skips
      that line: the animation stops, with the particles already moved.

    The component is modelled here over JS numbers with [NaN]
    ([JSNumber.NaN_JSNum]): [world] holds its two refs ([tempRef],
    [particlesRef] as particles of [option R]), the context, and whether a
    frame is requested (line 158 at mount, line 155 at the end of each
    frame).  [worldStep] runs the events of [Simulation.event]: the mount
    effect creates the particles ([initParticleN], over JS numbers, so a
    negative temperature gives [NaN] velocities), a temperature change
    writes [tempRef], and a frame runs [Kinetics.updateParticles] on the
    constants as JS numbers ([jsConfig]) and then draws.  A particle's [x],
    [y] and [radius * 0.2] are converted to [double] for
    [createRadialGradient], and a [NaN] there throws a [TypeError]
    ([Canvas2D.toDouble]); [arc] does nothing on [NaN]
    ([Canvas2D.arcCall]).  [worldReachable] is the reachability relation
    from the first render.

    Theorems:
    - a frame paints the clear, the background, the border, then one
      shadowed disc per moved particle up to the first one with a [NaN]
      coordinate, leaves the blur at 0, and requests the next frame
      exactly when every moved particle is drawable ([frame_paints]);
    - in every reachable world a frame is requested if and only if every
      particle's [x], [y] and radius are finite
      ([animation_runs_iff_finite]);
    - in every reachable world, no background or border was ever painted
      with a shadow, though the particles' shadow colour stays set from one
      frame to the next ([background_never_shadowed]);
    - when the first two particles leave through the top-left corner in
      the same frame, that frame makes a position [NaN], throws, and the
      animation never runs again ([corner_stops_animation]); the witness
      reaches such a frame from the first render, by a mount whose
      [Math.random] values put the two particles near the corner. *)

From Stdlib Require Import Reals Lra String.
From stdpp Require Import base decidable list.
From S2P Require Import Prelude JSNumber Particle Collision Kinetics Simulation Chart Canvas2D.

Local Open Scope R_scope.

(** ** The drawing code *)

(** Lines 63-68. *)
Definition drawBackground (cfg : config R) : drawM unit :=
  calls [CtxClearRect 0 0 (width cfg) (height cfg);
         CtxSetFillStyle (Hex "#f5f5f5");
         CtxFillRect 0 0 (width cfg) (height cfg);
         CtxSetStrokeStyle (Hex "#ccc");
         CtxStrokeRect 0 0 (width cfg) (height cfg)].

(** Lines 134-144: the six arguments are converted to [double] before the
    gradient is created. *)
Definition particleGradient (p : particle RN) : option radialGradient :=
  x0 ← toDouble (x p);
  y0 ← toDouble (y p);
  r0 ← toDouble (js_mul (radius p) (Some 0.2));
  x1 ← toDouble (x p);
  y1 ← toDouble (y p);
  r1 ← toDouble (radius p);
  g ← createRadialGradient x0 y0 r0 x1 y1 r1;
  g ← addColorStop 0 (Rgba 255 255 255 1) g;
  g ← addColorStop 0.5 (Rgba 100 150 250 0.8) g;
  addColorStop 1 (Rgba 50 100 200 0.5) g.

(** Lines 134-152: the body of the drawing loop. *)
Definition drawParticle (p : particle RN) : drawM unit :=
  gradient ← dlift (particleGradient p);
  calls (CtxBeginPath ::
         arcCall (x p) (y p) (radius p) 0 (2 * PI) ++
         [CtxSetFillStyle (Gradient gradient);
          CtxSetShadowColor (Css (Rgba 0 0 0 0.2));
          CtxSetShadowBlur 4;
          CtxFill;
          CtxSetShadowBlur 0]).

(** Lines 133-153: [for (let p of particles)]. *)
Fixpoint drawParticles (ps : list (particle RN)) : drawM unit :=
  match ps with
  | [] => mret tt
  | p :: ps' => drawParticle p ;; drawParticles ps'
  end.

(** What a frame draws: the background, then the moved particles [ps]. *)
Definition drawFrame (cfg : config R) (ps : list (particle RN)) : drawM unit :=
  drawBackground cfg ;; drawParticles ps.

(** ** The component over JS numbers *)

(** The constants of lines 13-17 and 32 as JS numbers. *)
Definition jsConfig (cfg : config R) : config RN :=
  mkConfig (Some (width cfg)) (Some (height cfg)) (numParticles cfg) (Some (baseSpeedFactor cfg))
    (Some (restitution cfg)) (Some (initRadius cfg)).

(** One iteration of the creation loop (lines 26-33) over JS numbers:
    [Math.random()] and [Math.cos] and [Math.sin] of a finite angle are
    finite, [Math.sqrt(tempRef.current)] is [NaN] for a negative
    temperature. *)
Definition initParticleN (cfg : config R) (T rx ry ra : R) : particle RN :=
  let x0 := Some (rx * width cfg) in
  let y0 := Some (ry * height cfg) in
  let angle := ra * 2 * PI in
  let speed0 := js_mul (Some (baseSpeedFactor cfg)) (js_sqrt (Some T)) in
  mkParticle x0 y0 (js_mul speed0 (Some (cos angle))) (js_mul speed0 (Some (sin angle)))
    (Some (initRadius cfg)).

(** The loop of lines 25-34, as [Simulation.initParticles]. *)
Definition initParticlesN (cfg : config R) (T : R) (rnd : nat -> R) : list (particle RN) :=
  map (fun i => initParticleN cfg T (rnd (3 * i)%nat) (rnd (3 * i + 1)%nat) (rnd (3 * i + 2)%nat))
    (seq 0 (numParticles cfg)).

(** The component's two refs ([tempRef], [particlesRef]), the context
    obtained at mount (line 60) and whether a frame is requested. *)
Record world := mkWorld {
  tempW : R;
  particlesW : list (particle RN);
  ctx2d : context;
  scheduled : bool
}.

(** The first render: the refs, a fresh context, and the frame requested
    by the animation effect (line 158). *)
Definition worldInit (T0 : R) : world := mkWorld T0 [] freshContext true.

(** The events of [Simulation.event].  A frame runs only when one is
    requested; it moves the particles (lines 70-130), draws (lines 63-68,
    133-153), and requests the next frame (line 155) only when the drawing
    did not throw. *)
Definition worldStep (cfg : config R) (w : world) (ev : event) : world :=
  match ev with
  | Mount rnd =>
      if decide (length (particlesW w) = 0)%nat
      then mkWorld (tempW w) (initParticlesN cfg (tempW w) rnd) (ctx2d w) (scheduled w)
      else w
  | SetTemperature T => mkWorld T (particlesW w) (ctx2d w) (scheduled w)
  | Frame =>
      if scheduled w then
        let ps' := updateParticles (jsConfig cfg) (Some (tempW w)) (particlesW w) in
        let r := drawFrame cfg ps' (ctx2d w) in
        mkWorld (tempW w) ps' (snd r) (bool_decide (fst r = Some tt))
      else w
  end.

Inductive worldReachable (cfg : config R) (T0 : R) : world -> Prop :=
  | wreach_init : worldReachable cfg T0 (worldInit T0)
  | wreach_step w ev : worldReachable cfg T0 w -> worldReachable cfg T0 (worldStep cfg w ev).

(** ** What a frame paints *)

(** The centre and radius of a particle, when all three are finite. *)
Definition coords (p : particle RN) : option (R * R * R) :=
  match x p, y p, radius p with
  | Some a, Some b, Some r => Some (a, b, r)
  | _, _, _ => None
  end.

Definition drawable (p : particle RN) : bool :=
  match coords p with Some _ => true | None => false end.

(** The coordinates of the particles before the first one that is not
    drawable. *)
Fixpoint finitePrefix (ps : list (particle RN)) : list (R * R * R) :=
  match ps with
  | [] => []
  | p :: ps' => match coords p with Some c => c :: finitePrefix ps' | None => [] end
  end.

(** The gradient of lines 134-144 when no call throws. *)
Definition gradientOf (c : R * R * R) : radialGradient :=
  let '(a, b, r) := c in
  mkRadialGradient a b (r * 0.2) a b r
    [(0, Rgba 255 255 255 1); (0.5, Rgba 100 150 250 0.8); (1, Rgba 50 100 200 0.5)].

(** The disc of a particle, under the shadow of lines 149-150. *)
Definition discMark (c : R * R * R) : mark :=
  let '(a, b, r) := c in
  Filled (PathShape [SegArc a b r 0 (2 * PI)]) (Gradient (gradientOf c))
    (Some (4, Css (Rgba 0 0 0 0.2))).

(** The clear, the background and the border, stroked with the line style
    [d] had. *)
Definition backgroundMarks (cfg : config R) (d : drawingState) : list mark :=
  [Cleared 0 0 (width cfg) (height cfg);
   Filled (RectShape 0 0 (width cfg) (height cfg)) (Hex "#f5f5f5") None;
   Stroked (RectShape 0 0 (width cfg) (height cfg)) (Hex "#ccc") (lineWidth d) (lineDash d) None].

(** A mark of the background or the border carries no shadow. *)
Definition rectUnshadowed (m : mark) : Prop :=
  match m with
  | Filled (RectShape _ _ _ _) _ sh | Stroked (RectShape _ _ _ _) _ _ _ sh => sh = None
  | _ => True
  end.

(** A radius that is finite is not negative. *)
Definition radiusOk (p : particle RN) : Prop :=
  match radius p with Some r => 0 <= r | None => True end.

(** ** Lemmas *)

Lemma coords_some p a b r :
  coords p = Some (a, b, r) -> x p = Some a /\ y p = Some b /\ radius p = Some r.
Proof.
  unfold coords. destruct (x p), (y p), (radius p); intros E; try discriminate.
  injection E as <- <- <-. auto.
Qed.

Lemma coords_nan_x p : x p = None -> coords p = None.
Proof. unfold coords. intros ->. reflexivity. Qed.

Lemma particleGradient_ok p a b r :
  coords p = Some (a, b, r) -> 0 <= r -> particleGradient p = Some (gradientOf (a, b, r)).
Proof.
  intros Hc Hr. destruct (coords_some p a b r Hc) as (Hx & Hy & Hrad).
  unfold particleGradient, toDouble. rewrite Hx, Hy, Hrad, nan_mul. cbn.
  unfold createRadialGradient. rewrite decide_False by lra. unfold addColorStop.
  repeat (cbn; rewrite decide_True by lra). reflexivity.
Qed.

(** The [TypeError] of the argument conversion: nothing is drawn. *)
Lemma particleGradient_nan p : coords p = None -> particleGradient p = None.
Proof.
  destruct p as [[a|] [b|] u v [r|]]; cbn; intros H; try discriminate; reflexivity.
Qed.

Lemma arcCall_coords p a b r a0 a1 :
  coords p = Some (a, b, r) -> arcCall (x p) (y p) (radius p) a0 a1 = [CtxArc a b r a0 a1].
Proof. intros Hc. destruct (coords_some p a b r Hc) as (-> & -> & ->). reflexivity. Qed.

Lemma drawParticle_ok p a b r c :
  coords p = Some (a, b, r) -> 0 <= r ->
  exists c', drawParticle p c = (Some tt, c') /\ marks c' = marks c ++ [discMark (a, b, r)] /\
    shadowBlur (drawing c') = 0.
Proof.
  intros Hc Hr. unfold drawParticle. rewrite drawM_bind_eq. unfold dlift.
  rewrite (particleGradient_ok p a b r Hc Hr), (arcCall_coords p a b r _ _ Hc). cbn [app].
  run_calls lra.
  eexists; split; [reflexivity|]. cbn [marks addMark withDrawing withPath drawing stack].
  unfold shadowOf. rewrite !setShadowBlur_nonneg by lra. rewrite decide_False by lra.
  unfold setShadowBlur. rewrite decide_True by lra. split; reflexivity.
Qed.

Lemma drawParticle_nan p c : coords p = None -> drawParticle p c = (None, c).
Proof.
  intros H. unfold drawParticle. rewrite drawM_bind_eq. unfold dlift.
  rewrite particleGradient_nan by exact H. reflexivity.
Qed.

(** The drawing loop paints the drawable prefix and throws at the first
    particle that is not drawable. *)
Lemma drawParticles_run ps c :
  Forall radiusOk ps -> shadowBlur (drawing c) = 0 ->
  exists c', drawParticles ps c = (if forallb drawable ps then Some tt else None, c') /\
    marks c' = marks c ++ map discMark (finitePrefix ps) /\ shadowBlur (drawing c') = 0.
Proof.
  revert c. induction ps as [|p ps IH]; intros c Hps Hb.
  - exists c. rewrite app_nil_r. auto.
  - apply List.Forall_cons_iff in Hps as [Hp Hps]. cbn [drawParticles forallb finitePrefix].
    unfold drawable at 1. destruct (coords p) as [[[a b] r]|] eqn:Ec.
    + assert (Hr : 0 <= r).
      { destruct (coords_some p a b r Ec) as (_ & _ & E). unfold radiusOk in Hp. rewrite E in Hp. exact Hp. }
      destruct (drawParticle_ok p a b r c Ec Hr) as (c1 & E1 & M1 & B1).
      destruct (IH c1 Hps B1) as (c2 & E2 & M2 & B2).
      exists c2. rewrite drawM_bind_eq, E1, E2. cbn [andb map].
      split; [reflexivity|]. split; [rewrite M2, M1, <- app_assoc; reflexivity | exact B2].
    + exists c. rewrite drawM_bind_eq, drawParticle_nan by exact Ec. cbn [andb map].
      rewrite app_nil_r. auto.
Qed.

Lemma drawBackground_ok cfg c :
  shadowBlur (drawing c) = 0 ->
  exists c', drawBackground cfg c = (Some tt, c') /\
    marks c' = marks c ++ backgroundMarks cfg (drawing c) /\
    shadowBlur (drawing c') = 0 /\ stack c' = stack c.
Proof.
  intros Hb. unfold drawBackground. run_calls lra.
  eexists; split; [reflexivity|]. cbn [marks addMark withDrawing drawing stack].
  unfold shadowOf. cbn [shadowBlur setFillStyle setStrokeStyle]. rewrite Hb, !decide_True by reflexivity.
  rewrite <- !app_assoc. repeat split; exact Hb.
Qed.

Lemma drawBackground_runs cfg c : exists c', drawBackground cfg c = (Some tt, c').
Proof. unfold drawBackground. run_calls lra. eexists; reflexivity. Qed.

Lemma drawFrame_run cfg ps c :
  Forall radiusOk ps -> shadowBlur (drawing c) = 0 ->
  exists c', drawFrame cfg ps c = (if forallb drawable ps then Some tt else None, c') /\
    marks c' = marks c ++ backgroundMarks cfg (drawing c) ++ map discMark (finitePrefix ps) /\
    shadowBlur (drawing c') = 0.
Proof.
  intros Hps Hb. destruct (drawBackground_ok cfg c Hb) as (c1 & E1 & M1 & B1 & _).
  destruct (drawParticles_run ps c1 Hps B1) as (c2 & E2 & M2 & B2).
  exists c2. unfold drawFrame. rewrite drawM_bind_eq, E1, E2.
  split; [reflexivity|]. split; [rewrite M2, M1, <- app_assoc; reflexivity | exact B2].
Qed.

Lemma radiusOk_map (ps qs : list (particle RN)) :
  map radius qs = map radius ps -> Forall radiusOk ps -> Forall radiusOk qs.
Proof.
  intros Hm Hps. apply List.Forall_forall. intros q Hq.
  assert (Hin : In (radius q) (map radius ps)) by (rewrite <- Hm; apply in_map, Hq).
  apply in_map_iff in Hin as (p & Ep & Hp). unfold radiusOk. rewrite <- Ep.
  rewrite List.Forall_forall in Hps. exact (Hps p Hp).
Qed.

Lemma ran_ok (b : bool) : bool_decide ((if b then Some tt else None) = Some tt) = b.
Proof. destruct b; [apply bool_decide_true | apply bool_decide_false]; congruence. Qed.

(** A frame of a world whose frame is requested, with the blur at 0 and no
    negative radius. *)
Lemma worldStep_frame cfg w :
  scheduled w = true -> shadowBlur (drawing (ctx2d w)) = 0 -> Forall radiusOk (particlesW w) ->
  let ps' := updateParticles (jsConfig cfg) (Some (tempW w)) (particlesW w) in
  exists c', worldStep cfg w Frame = mkWorld (tempW w) ps' c' (forallb drawable ps') /\
    marks c' = marks (ctx2d w) ++ backgroundMarks cfg (drawing (ctx2d w)) ++ map discMark (finitePrefix ps') /\
    shadowBlur (drawing c') = 0.
Proof.
  intros Hs Hb Hr ps'.
  assert (Hr' : Forall radiusOk ps') by (eapply radiusOk_map; [apply updateParticles_radii | exact Hr]).
  destruct (drawFrame_run cfg ps' (ctx2d w) Hr' Hb) as (c' & E & M & B).
  exists c'. unfold worldStep. rewrite Hs. fold ps'. rewrite E. cbn [fst snd]. rewrite ran_ok.
  split; [reflexivity | split; assumption].
Qed.

Lemma initParticlesN_drawable cfg T rnd : forallb drawable (initParticlesN cfg T rnd) = true.
Proof.
  apply forallb_forall. intros p Hp. unfold initParticlesN in Hp.
  apply in_map_iff in Hp as (i & <- & _). reflexivity.
Qed.

Lemma initParticlesN_radius cfg T rnd :
  0 <= initRadius cfg -> Forall radiusOk (initParticlesN cfg T rnd).
Proof.
  intros Hr. unfold initParticlesN. apply List.Forall_map, List.Forall_forall. intros i _. exact Hr.
Qed.

Lemma backgroundMarks_unshadowed cfg d : Forall rectUnshadowed (backgroundMarks cfg d).
Proof. repeat (apply List.Forall_cons || apply List.Forall_nil); cbn; auto. Qed.

Lemma discMarks_unshadowed cs : Forall rectUnshadowed (map discMark cs).
Proof. apply List.Forall_map, List.Forall_forall. intros [[a b] r] _. exact I. Qed.

(** What every reachable world satisfies: no negative radius, a frame is
    requested exactly when every particle is drawable, the blur is 0, and
    no background or border was painted with a shadow. *)
Definition worldInv (cfg : config R) (w : world) : Prop :=
  Forall radiusOk (particlesW w) /\ scheduled w = forallb drawable (particlesW w) /\
  shadowBlur (drawing (ctx2d w)) = 0 /\ Forall rectUnshadowed (marks (ctx2d w)).

Section WorldInvariant.
Variable cfg : config R.
Hypothesis Hr : 0 <= initRadius cfg.

Lemma worldStep_inv w ev : worldInv cfg w -> worldInv cfg (worldStep cfg w ev).
Proof.
  intros (Hrad & Hs & Hb & Hm). destruct ev as [rnd|T|]; cbn [worldStep].
  - destruct (decide (length (particlesW w) = 0)%nat) as [E|E]; [|repeat split; assumption].
    apply length_zero_iff_nil in E. rewrite E in Hs.
    split; [apply initParticlesN_radius, Hr|]. simpl. rewrite Hs, initParticlesN_drawable. auto.
  - repeat split; assumption.
  - destruct (scheduled w) eqn:Hsw; [|rewrite <- Hsw in Hs; exact (conj Hrad (conj Hs (conj Hb Hm)))].
    destruct (worldStep_frame cfg w Hsw Hb Hrad) as (c' & E & M & B).
    cbn [worldStep] in E. rewrite Hsw in E. rewrite E. unfold worldInv. cbn [particlesW scheduled ctx2d].
    split; [eapply radiusOk_map; [apply updateParticles_radii | exact Hrad]|].
    split; [reflexivity | split; [exact B|]]. rewrite M.
    apply Forall_app; split; [exact Hm|]. apply Forall_app.
    split; [apply backgroundMarks_unshadowed | apply discMarks_unshadowed].
Qed.

Lemma worldReachable_inv T0 w : worldReachable cfg T0 w -> worldInv cfg w.
Proof.
  induction 1 as [|w ev _ IH]; [|apply worldStep_inv, IH].
  repeat split; constructor.
Qed.
End WorldInvariant.

(** A stopped animation stays stopped, and its particles never move
    again: a mount does not recreate a non-empty ensemble, a temperature
    change only writes [tempRef], and no frame runs. *)
Lemma worldStep_stopped cfg w ev :
  scheduled w = false -> particlesW w <> [] ->
  scheduled (worldStep cfg w ev) = false /\ particlesW (worldStep cfg w ev) = particlesW w.
Proof.
  intros Hs Hne. destruct ev as [rnd|T|]; cbn [worldStep].
  - rewrite decide_False; [auto|]. intros E. apply Hne, length_zero_iff_nil, E.
  - auto.
  - rewrite Hs. auto.
Qed.

Lemma worldRun_stopped cfg w evs :
  scheduled w = false -> particlesW w <> [] ->
  scheduled (fold_left (worldStep cfg) evs w) = false /\
  particlesW (fold_left (worldStep cfg) evs w) = particlesW w.
Proof.
  revert w. induction evs as [|ev evs IH]; intros w Hs Hne; [auto|].
  cbn [fold_left]. destruct (worldStep_stopped cfg w ev Hs Hne) as [Hs' Hp'].
  destruct (IH _ Hs') as [H1 H2]; [rewrite Hp'; exact Hne|]. rewrite H2, Hp'. auto.
Qed.

(** A frame whose moved ensemble starts with a particle whose [x] is
    [NaN] throws in its first [createRadialGradient] and requests no
    frame. *)
Lemma worldStep_frame_nan cfg w q rest :
  scheduled w = true ->
  updateParticles (jsConfig cfg) (Some (tempW w)) (particlesW w) = q :: rest -> x q = None ->
  scheduled (worldStep cfg w Frame) = false /\
  particlesW (worldStep cfg w Frame) = q :: rest.
Proof.
  intros Hs Hu Hx. unfold worldStep. rewrite Hs, Hu. cbn [particlesW scheduled].
  destruct (drawBackground_runs cfg (ctx2d w)) as (c1 & E1).
  unfold drawFrame. rewrite drawM_bind_eq, E1. cbn [drawParticles].
  rewrite drawM_bind_eq, drawParticle_nan by (apply coords_nan_x, Hx).
  cbn [fst snd]. split; [apply bool_decide_false; discriminate | reflexivity].
Qed.

(** ** The claims *)

(** C15: what a frame paints.  When a frame is requested, the blur is 0
    and no radius is negative, a frame moves the particles over JS
    numbers, then paints, after what was already on the canvas: the
    clear, the ['#f5f5f5'] background and the ['#ccc'] border without
    shadow, then, in array order, for each moved particle up to the first
    one with a [NaN] coordinate, a circle of its radius at its position,
    filled with its three-stop radial gradient under a shadow of blur 4
    and colour [rgba(0,0,0,0.2)].  The blur is back at 0, and the next
    frame is requested exactly when every moved particle has finite
    coordinates: at the first [NaN], [createRadialGradient] throws a
    [TypeError] and line 155 is not reached. *)
Theorem frame_paints cfg w :
  scheduled w = true -> shadowBlur (drawing (ctx2d w)) = 0 -> Forall radiusOk (particlesW w) ->
  let ps' := updateParticles (jsConfig cfg) (Some (tempW w)) (particlesW w) in
  exists c', worldStep cfg w Frame = mkWorld (tempW w) ps' c' (forallb drawable ps') /\
    marks c' = marks (ctx2d w) ++ backgroundMarks cfg (drawing (ctx2d w)) ++ map discMark (finitePrefix ps') /\
    shadowBlur (drawing c') = 0.
Proof. apply worldStep_frame. Qed.

(** C16: the animation runs exactly while the coordinates are finite.
    For a non-negative creation radius, in every world reachable from the
    first render, a frame is requested if and only if every particle's
    [x], [y] and radius are finite.  A frame that produces a [NaN]
    coordinate is the last one, and its [NaN] is never removed, since no
    frame runs after it. *)
Theorem animation_runs_iff_finite cfg T0 w :
  0 <= initRadius cfg -> worldReachable cfg T0 w ->
  scheduled w = forallb drawable (particlesW w).
Proof. intros Hr Hw. apply (worldReachable_inv cfg Hr T0 w Hw). Qed.

(** C17: the background is never shadowed.  The particles leave
    [shadowColor] set from one frame to the next, so the background and
    border of a frame would be shadowed if the blur were left at 4; in
    every reachable world, also after a frame whose drawing threw, no
    background fill or border stroke on the canvas was painted with a
    shadow. *)
Theorem background_never_shadowed cfg T0 w :
  0 <= initRadius cfg -> worldReachable cfg T0 w ->
  Forall rectUnshadowed (marks (ctx2d w)).
Proof. intros Hr Hw. apply (worldReachable_inv cfg Hr T0 w Hw). Qed.

(** C10: two particles in one corner stop the animation for good.  When
    the first two particles of the array both leave through the top-left
    corner in the same frame, the wall pass puts both at [(r, r)]
    exactly, the first pair the collision loop resolves is theirs, at
    distance [0], and the separation makes the first particle's [x]
    [NaN]; the frame's first [createRadialGradient] throws, no frame is
    requested, and after any further events the animation is still
    stopped and the particles are where that frame left them. *)
Theorem corner_stops_animation cfg w a0 b0 u0 v0 a1 b1 u1 v1 r rest evs :
  scheduled w = true -> 0 < r ->
  particlesW w = mkParticle (Some a0) (Some b0) (Some u0) (Some v0) (Some r) ::
                 mkParticle (Some a1) (Some b1) (Some u1) (Some v1) (Some r) :: rest ->
  a0 + u0 < r -> b0 + v0 < r -> a1 + u1 < r -> b1 + v1 < r ->
  let w' := fold_left (worldStep cfg) evs (worldStep cfg w Frame) in
  scheduled w' = false /\
  particlesW w' = updateParticles (jsConfig cfg) (Some (tempW w)) (particlesW w) /\
  exists q, particlesW w' !! 0%nat = Some q /\ x q = None.
Proof.
  intros Hs Hr Hps H0 H0' H1 H1'.
  destruct (updateParticles_corner_nan (jsConfig cfg) (Some (tempW w)) a0 b0 u0 v0 a1 b1 u1 v1 r rest
              Hr H0 H0' H1 H1') as (q & Eq & Hx).
  rewrite <- Hps in Eq.
  destruct (updateParticles (jsConfig cfg) (Some (tempW w)) (particlesW w)) as [|q' rest'] eqn:Eu;
    [discriminate|]. injection Eq as ->.
  destruct (worldStep_frame_nan cfg w q rest' Hs Eu Hx) as [Hs' Hp'].
  destruct (worldRun_stopped cfg _ evs Hs' ltac:(rewrite Hp'; discriminate)) as [H2 H3].
  cbv zeta. rewrite H2, H3, Hp'. split; [reflexivity|]. split; [reflexivity|].
  exists q. split; [reflexivity | exact Hx].
Qed.

(** ** Witnesses *)

(** One particle of radius 5 on a fresh context. *)
Lemma frame_paints_witness :
  let w := mkWorld 300 [mkParticle (Some 100) (Some 100) (Some 1) (Some 0) (Some 5)] freshContext true in
  (scheduled w = true /\ shadowBlur (drawing (ctx2d w)) = 0 /\ Forall radiusOk (particlesW w)) /\
  let ps' := updateParticles (jsConfig canvasConfig) (Some (tempW w)) (particlesW w) in
  exists c', worldStep canvasConfig w Frame = mkWorld (tempW w) ps' c' (forallb drawable ps') /\
    marks c' = marks (ctx2d w) ++ backgroundMarks canvasConfig (drawing (ctx2d w)) ++
      map discMark (finitePrefix ps') /\
    shadowBlur (drawing c') = 0.
Proof.
  cbv zeta.
  assert (Hr : Forall radiusOk [mkParticle (Some 100) (Some 100) (Some 1) (Some 0) (Some 5)])
    by (repeat constructor; cbn; lra).
  split; [split; [reflexivity | split; [reflexivity | exact Hr]]|].
  exact (frame_paints canvasConfig
           (mkWorld 300 [mkParticle (Some 100) (Some 100) (Some 1) (Some 0) (Some 5)] freshContext true)
           eq_refl eq_refl Hr).
Defined.

(** The canvas mounted at [T = 300], then two frames. *)
Lemma animation_runs_iff_finite_witness :
  let w := worldStep canvasConfig (worldStep canvasConfig
             (worldStep canvasConfig (worldInit 300) (Mount (fun _ => 0.5))) Frame) Frame in
  (0 <= initRadius canvasConfig /\ worldReachable canvasConfig 300 w) /\
  scheduled w = forallb drawable (particlesW w).
Proof.
  cbv zeta.
  assert (Hr : 0 <= initRadius canvasConfig) by (cbn; lra).
  assert (Hw : worldReachable canvasConfig 300 (worldStep canvasConfig (worldStep canvasConfig
             (worldStep canvasConfig (worldInit 300) (Mount (fun _ => 0.5))) Frame) Frame))
    by (repeat apply wreach_step; apply wreach_init).
  split; [split; [exact Hr | exact Hw]|].
  exact (animation_runs_iff_finite canvasConfig 300 _ Hr Hw).
Defined.

(** The same world: the backgrounds painted are not shadowed. *)
Lemma background_never_shadowed_witness :
  let w := worldStep canvasConfig (worldStep canvasConfig
             (worldStep canvasConfig (worldInit 300) (Mount (fun _ => 0.5))) Frame) Frame in
  (0 <= initRadius canvasConfig /\ worldReachable canvasConfig 300 w) /\
  Forall rectUnshadowed (marks (ctx2d w)).
Proof.
  cbv zeta.
  assert (Hr : 0 <= initRadius canvasConfig) by (cbn; lra).
  assert (Hw : worldReachable canvasConfig 300 (worldStep canvasConfig (worldStep canvasConfig
             (worldStep canvasConfig (worldInit 300) (Mount (fun _ => 0.5))) Frame) Frame))
    by (repeat apply wreach_step; apply wreach_init).
  split; [split; [exact Hr | exact Hw]|].
  exact (background_never_shadowed canvasConfig 300 _ Hr Hw).
Defined.

(** The canvas mounted at [T = 300] with [Math.random] placing the first
    two particles at [(6, 4)] and [(7, 3)], both moving left (angle [PI])
    at speed [0.5 * sqrt 300]: the first frame puts both at [(5, 5)], and
    the animation is stopped, also after a temperature change and two
    more frames. *)
Lemma corner_stops_animation_witness :
  let rnd := fun i : nat => match i with 0 => 6 / 400 | 1 => 4 / 400 | 3 => 7 / 400 | 4 => 3 / 400 | _ => 1 / 2 end in
  let w := worldStep canvasConfig (worldInit 300) (Mount rnd) in
  let s := 0.5 * sqrt 300 in
  let rest := map (fun i => initParticleN canvasConfig 300 (rnd (3 * i)%nat) (rnd (3 * i + 1)%nat)
                              (rnd (3 * i + 2)%nat)) (seq 2 48) in
  (scheduled w = true /\ 0 < 5 /\
   particlesW w =
     mkParticle (Some (6 / 400 * 400)) (Some (4 / 400 * 400)) (Some (s * cos (1 / 2 * 2 * PI)))
       (Some (s * sin (1 / 2 * 2 * PI))) (Some 5) ::
     mkParticle (Some (7 / 400 * 400)) (Some (3 / 400 * 400)) (Some (s * cos (1 / 2 * 2 * PI)))
       (Some (s * sin (1 / 2 * 2 * PI))) (Some 5) :: rest /\
   6 / 400 * 400 + s * cos (1 / 2 * 2 * PI) < 5 /\ 4 / 400 * 400 + s * sin (1 / 2 * 2 * PI) < 5 /\
   7 / 400 * 400 + s * cos (1 / 2 * 2 * PI) < 5 /\ 3 / 400 * 400 + s * sin (1 / 2 * 2 * PI) < 5) /\
  let w' := fold_left (worldStep canvasConfig) [SetTemperature 400; Frame; Frame]
              (worldStep canvasConfig w Frame) in
  scheduled w' = false /\
  particlesW w' = updateParticles (jsConfig canvasConfig) (Some (tempW w)) (particlesW w) /\
  exists q, particlesW w' !! 0%nat = Some q /\ x q = None.
Proof.
  cbv zeta.
  assert (Hs4 : 4 < sqrt 300)
    by (rewrite <- (sqrt_square 4) by lra; apply sqrt_lt_1_alt; lra).
  assert (Hpi : 1 / 2 * 2 * PI = PI) by field.
  assert (Hps : particlesW (worldStep canvasConfig (worldInit 300)
      (Mount (fun i : nat => match i with 0 => 6 / 400 | 1 => 4 / 400 | 3 => 7 / 400 | 4 => 3 / 400 | _ => 1 / 2 end))) =
     mkParticle (Some (6 / 400 * 400)) (Some (4 / 400 * 400)) (Some (0.5 * sqrt 300 * cos (1 / 2 * 2 * PI)))
       (Some (0.5 * sqrt 300 * sin (1 / 2 * 2 * PI))) (Some 5) ::
     mkParticle (Some (7 / 400 * 400)) (Some (3 / 400 * 400)) (Some (0.5 * sqrt 300 * cos (1 / 2 * 2 * PI)))
       (Some (0.5 * sqrt 300 * sin (1 / 2 * 2 * PI))) (Some 5) ::
     map (fun i => initParticleN canvasConfig 300
            ((fun i : nat => match i with 0 => 6 / 400 | 1 => 4 / 400 | 3 => 7 / 400 | 4 => 3 / 400 | _ => 1 / 2 end) (3 * i)%nat)
            ((fun i : nat => match i with 0 => 6 / 400 | 1 => 4 / 400 | 3 => 7 / 400 | 4 => 3 / 400 | _ => 1 / 2 end) (3 * i + 1)%nat)
            ((fun i : nat => match i with 0 => 6 / 400 | 1 => 4 / 400 | 3 => 7 / 400 | 4 => 3 / 400 | _ => 1 / 2 end) (3 * i + 2)%nat))
       (seq 2 48)).
  { cbn [worldStep worldInit particlesW tempW]. rewrite decide_True by reflexivity. cbn [particlesW].
    unfold initParticlesN. cbn [numParticles canvasConfig].
    change (seq 0 50) with (0 :: 1 :: seq 2 48)%nat. cbn [map].
    f_equal; [|f_equal]; try reflexivity; unfold initParticleN;
      cbn [width height baseSpeedFactor initRadius canvasConfig]; rewrite nan_sqrt by lra; reflexivity. }
  assert (Hin : 6 / 400 * 400 + 0.5 * sqrt 300 * cos (1 / 2 * 2 * PI) < 5 /\
                4 / 400 * 400 + 0.5 * sqrt 300 * sin (1 / 2 * 2 * PI) < 5 /\
                7 / 400 * 400 + 0.5 * sqrt 300 * cos (1 / 2 * 2 * PI) < 5 /\
                3 / 400 * 400 + 0.5 * sqrt 300 * sin (1 / 2 * 2 * PI) < 5)
    by (rewrite Hpi, cos_PI, sin_PI; split; [lra | split; [lra | split; lra]]).
  destruct Hin as (H0 & H0' & H1 & H1').
  assert (Hsch : scheduled (worldStep canvasConfig (worldInit 300)
      (Mount (fun i : nat => match i with 0 => 6 / 400 | 1 => 4 / 400 | 3 => 7 / 400 | 4 => 3 / 400 | _ => 1 / 2 end))) = true)
    by reflexivity.
  assert (Hr : 0 < 5) by lra.
  split; [repeat split; assumption|].
  exact (corner_stops_animation canvasConfig _ _ _ _ _ _ _ _ _ 5 _ [SetTemperature 400; Frame; Frame]
           Hsch Hr Hps H0 H0' H1 H1').
Defined.
