(* ===== verification/Slider.v ===== *)
(** * The temperature slider

    The App's slider (lines 474-482 of [MBDistributionChart.js]) is an
    [<input type="range" min="100" max="500" step="1">].  Its value is
    sanitized by the browser (HTML, the range state of [input]): a value
    below [min] becomes [min], one above [max] becomes [max], and one that
    is not [min] plus a multiple of [step] is rounded to the nearest such
    value, the larger one on a tie.  [e.target.value] is that number
    serialized ([Number::toString], the decimal digits of an integer), and
    [handleTemperatureChange] (lines 426-428) sets the temperature to
    [parseFloat] of it.

    Theorems: the sanitized value is an integer in [[100, 500]], and
    [parseFloat] of its string gives that integer back
    ([handleTemperatureChange_value]); so the App's temperature is always
    such an integer. *)

From Stdlib Require Import Reals Lra Lia ZArith NArith String.
From Stdlib Require Import DecimalString DecimalN.
From stdpp Require Import base decidable.
From S2P Require Import Prelude Format.

Local Open Scope R_scope.

(** The attributes of the range input. *)
Definition sliderMin : Z := 100.
Definition sliderMax : Z := 500.

(** The value of the range input when the user asks for position [v]
    ([step = 1], step base [min]). *)
Definition rangeSanitize (v : R) : Z :=
  if decide (v < IZR sliderMin) then sliderMin
  else if decide (IZR sliderMax < v) then sliderMax
  else (sliderMin + jsRound (v - IZR sliderMin))%Z.

(** [e.target.value]: the decimal digits of the non-negative integer. *)
Definition valueString (k : Z) : string := digitsOf (Z.to_N k).

(** [parseFloat] of a string of decimal digits: the number they denote;
    [None] ([NaN]) for a string that is not one. *)
Definition parseFloatDigits (s : string) : option R :=
  option_map (fun u => IZR (Z.of_N (N.of_uint u))) (NilZero.uint_of_string s).

(** [handleTemperatureChange] (lines 426-428): the new temperature. *)
Definition handleTemperatureChange (value : string) : option R := parseFloatDigits value.

(** The temperature a slider move to [v] gives. *)
Definition sliderTemperature (v : R) : R := IZR (rangeSanitize v).

Lemma rangeSanitize_bounds v : (100 <= rangeSanitize v <= 500)%Z.
Proof.
  unfold rangeSanitize, sliderMin, sliderMax.
  destruct (decide (v < IZR 100)) as [|H1]; [lia|].
  destruct (decide (IZR 500 < v)) as [|H2]; [lia|].
  pose proof (jsRound_bounds (v - IZR 100) 0 400) as Hb.
  assert (IZR 0 <= v - IZR 100 <= IZR 400) as Hv by lra.
  specialize (Hb Hv). lia.
Qed.

(** [parseFloat(String(k))] is [k] for a slider value. *)
Lemma handleTemperatureChange_value v :
  handleTemperatureChange (valueString (rangeSanitize v)) = Some (sliderTemperature v).
Proof.
  unfold handleTemperatureChange, parseFloatDigits, valueString, sliderTemperature.
  destruct (parse_digits (Z.to_N (rangeSanitize v))) as (u & -> & Hu). cbn.
  rewrite Hu, Z2N.id by (pose proof (rangeSanitize_bounds v); lia). reflexivity.
Qed.

Lemma sliderTemperature_range v :
  exists k, sliderTemperature v = IZR k /\ (100 <= k <= 500)%Z.
Proof. exists (rangeSanitize v). split; [reflexivity | apply rangeSanitize_bounds]. Qed.

Lemma jsRound_IZR m : jsRound (IZR m) = m.
Proof.
  apply Z.le_antisymm; [apply jsRound_le; lra|].
  destruct (jsRound_spec (IZR m)) as [_ H]. rewrite <- plus_IZR in H.
  assert (H' : IZR m < IZR (jsRound (IZR m) + 1)) by (rewrite plus_IZR in *; lra).
  apply lt_IZR in H'. lia.
Qed.

(** A slider value is left alone by the sanitization: re-rendering it as
    [value={temperature}] does not move the slider. *)
Lemma rangeSanitize_IZR k : (100 <= k <= 500)%Z -> rangeSanitize (IZR k) = k.
Proof.
  intros Hk. unfold rangeSanitize, sliderMin, sliderMax.
  rewrite decide_False by (apply Rle_not_lt, IZR_le; lia).
  rewrite decide_False by (apply Rle_not_lt, IZR_le; lia).
  rewrite <- minus_IZR, jsRound_IZR. lia.
Qed.
