(* ===== verification/App.v ===== *)
(** * The page: [App] and its two components

    [App] (appended to [MBDistributionChart.js], lines 422-532) holds the
    slider's temperature ([useState(300)]) and the list of snapshot
    temperatures.  It passes the temperature to [SimulationCanvas] and the
    temperature and the snapshots to [MBDistributionChart]; the two
    components share nothing else.

    An [appEvent] is a user action or an animation frame.  The page state
    [appState] holds the App's two state variables, the canvas component's
    state ([Simulation.canvasState]) and the chart component's state
    ([Chart.mbState], [None] once an effect has thrown).  A slider move
    changes the temperature prop of both children, a snapshot the
    snapshots prop of the chart; frames reach only the canvas, the chart's
    buttons only the chart.  A slider move to position [v] sets the
    temperature to [Slider.sliderTemperature v], the sanitized value of
    the range input, which is what [parseFloat] of [e.target.value] gives
    ([Slider.handleTemperatureChange_value]). *)

From Stdlib Require Import Reals Lra.
From stdpp Require Import base decidable list.
From S2P Require Import Prelude Particle Kinetics Simulation Distribution Summary Chart ChartLaws Slider.

Local Open Scope R_scope.

(** The five buttons of the chart (lines 318-387). *)
Inductive chartButton := BMostProbable | BAverage | BActivation | BCatalyst | BRecord.

Definition buttonEvent (b : chartButton) : mbEvent :=
  match b with
  | BMostProbable => ToggleMostProbable
  | BAverage => ToggleAverage
  | BActivation => ToggleActivation
  | BCatalyst => ToggleCatalyst
  | BRecord => RecordData
  end.

Inductive appEvent :=
  | Slide (v : R)               (* the slider dragged to [v]: handleTemperatureChange (lines 426-428) *)
  | TakeSnapshot                (* handleSnapshot (lines 430-432) *)
  | AnimationFrame              (* a requestAnimationFrame callback of the canvas *)
  | ChartButton (b : chartButton).

Section Page.
Context {S : Type} (toFixed2 : R -> S) (cfg : config R).

Record appState := mkApp {
  appTemperature : R;
  appSnapshots : list R;
  canvas : canvasState;
  chartComponent : option (mbState S)
}.

(** The first render and the mount effects of both children. *)
Definition appMount (rnd : nat -> R) : appState :=
  let T0 := 300 in
  mkApp T0 [] (handleEvent cfg (initialState T0) (Mount rnd)) (mbMount (mbInit T0 [])).

Definition appStep (a : appState) (ev : appEvent) : appState :=
  let '(mkApp T ss cv ch) := a in
  match ev with
  | Slide v =>
      let T' := sliderTemperature v in
      mkApp T' ss (handleEvent cfg cv (SetTemperature T'))
        (ch ≫= fun st => mbStep toFixed2 st (NewTemperature T'))
  | TakeSnapshot =>
      let ss' := ss ++ [T] in
      mkApp T ss' cv (ch ≫= fun st => mbStep toFixed2 st (NewSnapshots ss'))
  | AnimationFrame => mkApp T ss (handleEvent cfg cv Frame) ch
  | ChartButton b => mkApp T ss cv (ch ≫= fun st => mbStep toFixed2 st (buttonEvent b))
  end.

Definition appRun (a : appState) (evs : list appEvent) : appState :=
  fold_left appStep evs a.

(** What the page promises: both children see the App's temperature, the
    chart sees its snapshots and shows its own state, and the canvas keeps
    its invariant. *)
Definition appInv (a : appState) : Prop :=
  tempRef (canvas a) = appTemperature a /\ canvasInv cfg (canvas a) /\
  exists st, chartComponent a = Some st /\ inSync st /\
    temperature st = appTemperature a /\ snapshots st = appSnapshots a.
End Page.

(** The temperatures at which the snapshot button was pressed, in order,
    starting at temperature [T]. *)
Fixpoint snapshotTemps (T : R) (evs : list appEvent) : list R :=
  match evs with
  | [] => []
  | Slide v :: evs' => snapshotTemps (sliderTemperature v) evs'
  | TakeSnapshot :: evs' => T :: snapshotTemps T evs'
  | _ :: evs' => snapshotTemps T evs'
  end.

Section PageR.
Context {S : Type} (toFixed2 : R -> S) (cfg : config R).
Hypothesis Hk : 0 <= baseSpeedFactor cfg.

Lemma initialState_inv T0 : canvasInv cfg (initialState T0).
Proof. split; [left; reflexivity | split; [constructor | right; constructor]]. Qed.

Lemma appMount_inv rnd : appInv cfg (appMount (S:=S) cfg rnd).
Proof.
  unfold appInv, appMount. cbn [appTemperature appSnapshots canvas chartComponent].
  split; [reflexivity|]. split; [apply handleEvent_inv, initialState_inv; exact Hk|].
  rewrite mbMount_view. eexists; split; [reflexivity|].
  split; [apply withView_inSync | split; reflexivity].
Qed.

Lemma appStep_inv a ev : appInv cfg a -> appInv cfg (appStep toFixed2 cfg a ev).
Proof.
  destruct a as [T ss cv ch]. unfold appInv. cbn [appTemperature appSnapshots canvas chartComponent].
  intros (Ht & Hc & st & -> & Hs & HT & Hss).
  destruct ev as [v| | |b]; cbn [appStep mbind option_bind appTemperature appSnapshots canvas chartComponent].
  - split; [reflexivity|]. split; [apply handleEvent_inv; assumption|].
    rewrite (mbStep_refines toFixed2 st _ Hs). eexists; split; [reflexivity|].
    split; [apply withView_inSync|]. destruct st; cbn in *. split; [reflexivity | assumption].
  - split; [exact Ht|]. split; [exact Hc|].
    rewrite (mbStep_refines toFixed2 st _ Hs). eexists; split; [reflexivity|].
    split; [apply withView_inSync|]. destruct st; cbn in *. split; [assumption | reflexivity].
  - split; [exact Ht|]. split; [apply handleEvent_inv; assumption|].
    eexists; split; [reflexivity|]. repeat split; assumption.
  - split; [exact Ht|]. split; [exact Hc|].
    rewrite (mbStep_refines toFixed2 st _ Hs). eexists; split; [reflexivity|].
    split; [apply withView_inSync|]. destruct st, b; cbn in *; split; assumption.
Qed.

Lemma appRun_inv rnd evs : appInv cfg (appRun toFixed2 cfg (appMount (S:=S) cfg rnd) evs).
Proof.
  unfold appRun. apply fold_left_invariant; [apply appMount_inv|].
  intros a ev _. apply appStep_inv.
Qed.

(** C12: the two components agree with the page.  After the mount and any
    sequence of slider moves, snapshots, frames and chart buttons, the
    canvas's [tempRef] and the chart's temperature are the App's
    temperature, the chart's snapshots are the App's snapshots, no chart
    effect has thrown and the chart shows its state, and the canvas keeps
    its invariant. *)
Theorem app_children_agree rnd evs :
  let a := appRun toFixed2 cfg (appMount (S:=S) cfg rnd) evs in
  tempRef (canvas a) = appTemperature a /\ canvasInv cfg (canvas a) /\
  exists st, chartComponent a = Some st /\ chartRef st = Some (chartView st) /\
    temperature st = appTemperature a /\ snapshots st = appSnapshots a.
Proof. apply appRun_inv. Qed.
End PageR.

(** The page with the canvas's constants: mount, move the slider to 400,
    take a snapshot, run a frame and switch the catalyst on. *)
Lemma app_children_agree_witness :
  0 <= baseSpeedFactor canvasConfig /\
  let a := appRun id canvasConfig (appMount (S:=R) canvasConfig (fun _ => 0.5))
             [Slide 400; TakeSnapshot; AnimationFrame; ChartButton BCatalyst] in
  tempRef (canvas a) = appTemperature a /\ canvasInv canvasConfig (canvas a) /\
  exists st, chartComponent a = Some st /\ chartRef st = Some (chartView st) /\
    temperature st = appTemperature a /\ snapshots st = appSnapshots a.
Proof.
  split; [simpl; lra|]. apply (app_children_agree id canvasConfig). simpl. lra.
Defined.

Section Snapshots.
Context {S : Type} (toFixed2 : R -> S) (cfg : config R).

Lemma appRun_snapshots a evs :
  appSnapshots (appRun toFixed2 cfg a evs) = appSnapshots a ++ snapshotTemps (appTemperature a) evs.
Proof.
  unfold appRun. revert a. induction evs as [|ev evs IH]; intros [T ss cv ch];
    cbn [fold_left]; [symmetry; apply app_nil_r|].
  rewrite IH. destruct ev; cbn [appStep appSnapshots appTemperature snapshotTemps];
    [reflexivity | rewrite <- app_assoc; reflexivity | reflexivity | reflexivity].
Qed.

(** C40: the snapshot list holds, in order, the slider's temperature at
    each press of the Snapshot button, from the initial [300]. *)
Theorem app_snapshots_taken rnd evs :
  appSnapshots (appRun toFixed2 cfg (appMount (S:=S) cfg rnd) evs) = snapshotTemps 300 evs.
Proof. rewrite appRun_snapshots. reflexivity. Qed.
End Snapshots.

(** ** The slider's range reaches the chart's colours *)

(** A temperature the slider can give: an integer in [[100, 500]]. *)
Definition sliderValue (T : R) : Prop := exists k, T = IZR k /\ (100 <= k <= 500)%Z.

(** The slider's values in the App's state: the temperature and every
    snapshot. *)
Definition sliderInv {S : Type} (a : appState (S:=S)) : Prop :=
  sliderValue (appTemperature a) /\ Forall sliderValue (appSnapshots a).

(** A snapshot dataset's colour is a valid [rgb(red,0,blue)]. *)
Definition colorValid (ds : dataset) : Prop :=
  dsOrder ds = 4%nat ->
  exists red blue, dsColor ds = Rgb red 0 blue /\ (0 <= red <= 255)%Z /\ (0 <= blue <= 255)%Z.

Section SliderRange.
Context {S : Type} (toFixed2 : R -> S) (cfg : config R).

Lemma sliderValue_range T : sliderValue T -> 100 <= T <= 500.
Proof. intros (k & -> & Hk). split; apply IZR_le; lia. Qed.

Lemma appStep_sliderInv a ev : sliderInv a -> sliderInv (appStep toFixed2 cfg a ev).
Proof.
  destruct a as [T ss cv ch]. intros [HT Hss]. unfold sliderInv in *.
  destruct ev; cbn [appStep appTemperature appSnapshots] in *.
  - split; [apply sliderTemperature_range | exact Hss].
  - split; [exact HT|]. apply Forall_app; split; [exact Hss | constructor; [exact HT | constructor]].
  - split; assumption.
  - split; assumption.
Qed.

Lemma appRun_sliderInv rnd evs : sliderInv (appRun toFixed2 cfg (appMount (S:=S) cfg rnd) evs).
Proof.
  unfold appRun. apply fold_left_invariant; [|intros a ev _; apply appStep_sliderInv].
  split; [exists 300%Z; split; [reflexivity | lia] | constructor].
Qed.

Lemma chartView_colors (st : mbState S) :
  Forall sliderValue (snapshots st) -> Forall colorValid (chartDatasets (chartView st)).
Proof.
  intros Hss. cbn [chartView chartDatasets]. constructor; [discriminate|].
  apply Forall_app. split.
  - apply List.Forall_map. eapply List.Forall_impl; [|exact Hss].
    intros T HT _. apply color_channels_valid, sliderValue_range, HT.
  - eapply List.Forall_impl; [|apply markerDatasets_shape].
    intros ds [Ho _] H4. rewrite Ho in H4. discriminate.
Qed.

Hypothesis Hk : 0 <= baseSpeedFactor cfg.

(** C22: the slider keeps the chart's colours valid.  After the mount and
    any sequence of user actions and frames, the App's temperature is an
    integer in [[100, 500]] (the range input's sanitized value, read back
    by [parseFloat]), and every snapshot curve of the chart has a valid
    colour [rgb(red,0,blue)] with both channels in [[0, 255]]: the slider's
    bounds are what [getColorForTemperature] needs. *)
Theorem app_snapshot_colors_valid rnd evs :
  let a := appRun toFixed2 cfg (appMount (S:=S) cfg rnd) evs in
  sliderValue (appTemperature a) /\
  exists st c, chartComponent a = Some st /\ chartRef st = Some c /\
    Forall colorValid (chartDatasets c).
Proof.
  cbv zeta. destruct (appRun_sliderInv rnd evs) as [HT Hss].
  destruct (appRun_inv toFixed2 cfg Hk rnd evs) as (_ & _ & st & Hst & Hsync & _ & Hsn).
  split; [exact HT|]. exists st, (chartView st). split; [exact Hst|]. split; [exact Hsync|].
  apply chartView_colors. rewrite Hsn. exact Hss.
Qed.
End SliderRange.

(** The page with the canvas's constants: the slider dragged past its
    maximum, to 612.7, then a snapshot. *)
Lemma app_snapshot_colors_valid_witness :
  0 <= baseSpeedFactor canvasConfig /\
  let a := appRun id canvasConfig (appMount (S:=R) canvasConfig (fun _ => 0.5))
             [Slide 612.7; TakeSnapshot] in
  sliderValue (appTemperature a) /\
  exists st c, chartComponent a = Some st /\ chartRef st = Some c /\
    Forall colorValid (chartDatasets c).
Proof.
  split; [simpl; lra|]. apply (app_snapshot_colors_valid id canvasConfig). simpl. lra.
Defined.
