(* ===== verification/AppView.v ===== *)
(** * What the page renders

    - [renderCanvas] (lines 162-174 of [SimulationCanvas.js]): the
      [<canvas>] element, whose bitmap is [width] by [height] and whose
      [ref] is the [canvasRef] the animation effect draws through.
    - [renderApp] (lines 434-527 of [MBDistributionChart.js]): the page,
      its title, the label [Temperature: {temperature} K] holding the
      range input, the Snapshot button, and the two children with their
      props.  [numberToString] is [String(n)] of a number child.

    Theorem ([app_slider_roundtrip]): after any sequence of actions from
    the mount, the page renders one range input whose [value] is the
    App's temperature, whose [min] and [max] are the strings of
    [Slider.sliderMin] and [Slider.sliderMax], and whose value the
    browser's sanitization leaves alone and [handleTemperatureChange]
    reads back unchanged; the label shows the same number, and the props
    the page passes are what the two children hold. *)

From Stdlib Require Import Reals Lra Lia ZArith String.
From stdpp Require Import base decidable list.
From S2P Require Import Prelude Particle Simulation Distribution Summary Chart Slider App VDom CanvasDraw Canvas2D.

Local Open Scope R_scope.
Local Open Scope string_scope.

(** Lines 162-174; the [ref] is not an attribute. *)
Definition renderCanvas {E : Type} (cfg : config R) : vnode E :=
  Elem "canvas" None
    [("border", CStr "1px solid #ddd"); ("borderRadius", CStr "8px");
     ("boxShadow", CStr "0 2px 6px rgba(0,0,0,0.1)"); ("backgroundColor", CStr "#fff")]
    [("width", ANum (width cfg)); ("height", ANum (height cfg))] [] [].

Section Page.
Variable numberToString : R -> string.

(** The range input (lines 474-482). *)
Definition sliderInput (T : R) : vnode appEvent :=
  Elem "input" None [("marginLeft", CStr "10px")]
    [("type", AStr "range"); ("min", AStr "100"); ("max", AStr "500"); ("step", AStr "1");
     ("value", ANum T)]
    [OnChange Slide] [].

(** The label and its input (lines 472-483). *)
Definition temperatureLabel (T : R) : vnode appEvent :=
  el "label" [("fontSize", CStr "16px")]
    [Text "Temperature: "; Text (numberToString T); Text " K"; sliderInput T].

(** The Snapshot button (lines 484-497). *)
Definition snapshotButton : vnode appEvent :=
  Elem "button" None
    [("padding", CStr "8px 16px"); ("fontSize", CStr "16px"); ("borderRadius", CStr "4px");
     ("border", CStr "none"); ("backgroundColor", CStr "#007BFF"); ("color", CStr "#fff");
     ("cursor", CStr "pointer")]
    [] [OnClick TakeSnapshot] [Text "Snapshot"].

(** The JSX of lines 434-527. *)
Definition renderApp {S : Type} (a : appState (S:=S)) : vnode appEvent :=
  let T := appTemperature a in
  Elem "div" (Some "App")
    [("padding", CStr "20px"); ("fontFamily", CStr "Arial, sans-serif");
     ("backgroundColor", CStr "#eef2f7"); ("minHeight", CStr "100vh")] [] []
    [el "h2" [("textAlign", CStr "center"); ("marginBottom", CStr "20px")]
       [Text "Maxwell–Boltzmann Distribution Simulation"];
     Elem "div" (Some "control-container")
       [("maxWidth", CStr "1200px"); ("margin", CStr "0 auto"); ("display", CStr "flex");
        ("flexDirection", CStr "column"); ("gap", CStr "20px")] [] []
       [Elem "div" (Some "top-controls")
          [("display", CStr "flex"); ("justifyContent", CStr "center"); ("alignItems", CStr "center");
           ("gap", CStr "20px"); ("padding", CStr "10px"); ("border", CStr "1px solid #ddd");
           ("borderRadius", CStr "8px"); ("boxShadow", CStr "0 2px 6px rgba(0,0,0,0.1)");
           ("backgroundColor", CStr "#fff")] [] []
          [temperatureLabel T; snapshotButton];
        Elem "div" (Some "simulation-and-graph")
          [("display", CStr "flex"); ("flexWrap", CStr "wrap"); ("gap", CStr "20px");
           ("justifyContent", CStr "center")] [] []
          [Elem "div" (Some "simulation-container") [("flex", CStr "1 1 400px"); ("maxWidth", CStr "400px")] [] []
             [Comp "SimulationCanvas" [("temperature", PNum T)]];
           Elem "div" (Some "graph-container") [("flex", CStr "1 1 600px"); ("maxWidth", CStr "600px")] [] []
             [Comp "MBDistributionChart" [("temperature", PNum T); ("snapshots", PNums (appSnapshots a))]]]]].
End Page.

(** ** Lemmas *)

(** The background's clear and fill cover the whole canvas element. *)
Lemma background_covers_canvas cfg d :
  attrsOf (E:=event) (renderCanvas cfg) = [("width", ANum (width cfg)); ("height", ANum (height cfg))] /\
  hd_error (backgroundMarks cfg d) = Some (Cleared 0 0 (width cfg) (height cfg)).
Proof. split; reflexivity. Qed.

Lemma renderApp_inputs {S : Type} nts (a : appState (S:=S)) :
  elemsWithTag "input" (renderApp nts a) = [sliderInput (appTemperature a)].
Proof. reflexivity. Qed.

Lemma renderApp_components {S : Type} nts (a : appState (S:=S)) :
  componentsOf (renderApp nts a) =
  [("SimulationCanvas", [("temperature", PNum (appTemperature a))]);
   ("MBDistributionChart", [("temperature", PNum (appTemperature a)); ("snapshots", PNums (appSnapshots a))])].
Proof. reflexivity. Qed.

Lemma renderApp_label {S : Type} nts (a : appState (S:=S)) :
  map textContent (elemsWithTag "label" (renderApp nts a)) =
  ["Temperature: " ++ nts (appTemperature a) ++ " K"].
Proof. reflexivity. Qed.

(** The min and max attributes are the strings of the slider's bounds. *)
Lemma sliderInput_bounds T :
  lookupKey "min" (attrsOf (sliderInput T)) = Some (AStr (valueString sliderMin)) /\
  lookupKey "max" (attrsOf (sliderInput T)) = Some (AStr (valueString sliderMax)) /\
  lookupKey "value" (attrsOf (sliderInput T)) = Some (ANum T).
Proof. repeat split; vm_compute; reflexivity. Qed.

(** A slider value sanitizes to itself and reads back unchanged. *)
Lemma sliderValue_roundtrip T :
  sliderValue T -> handleTemperatureChange (valueString (rangeSanitize T)) = Some T.
Proof.
  intros (k & -> & Hk). rewrite handleTemperatureChange_value. unfold sliderTemperature.
  rewrite rangeSanitize_IZR by exact Hk. reflexivity.
Qed.

(** ** The claim *)

Section Claim.
Context {S : Type} (toFixed2 : R -> S) (cfg : config R).
Hypothesis Hk : 0 <= baseSpeedFactor cfg.

(** C24: the slider round-trips through the page.  After the mount and any
    sequence of actions and frames, the page renders exactly one input,
    the range slider, whose [min] and [max] are the strings of the
    sanitization's bounds and whose [value] is the App's temperature; the
    browser's sanitization leaves that value alone and
    [handleTemperatureChange] reads it back unchanged, so re-rendering
    never moves the slider; the label shows the same number, and the
    props passed to the two children are the temperature and snapshots
    the children hold. *)
Theorem app_slider_roundtrip nts rnd evs :
  let a := appRun toFixed2 cfg (appMount (S:=S) cfg rnd) evs in
  exists input, elemsWithTag "input" (renderApp nts a) = [input] /\
    lookupKey "min" (attrsOf input) = Some (AStr (valueString sliderMin)) /\
    lookupKey "max" (attrsOf input) = Some (AStr (valueString sliderMax)) /\
    lookupKey "value" (attrsOf input) = Some (ANum (appTemperature a)) /\
    handleTemperatureChange (valueString (rangeSanitize (appTemperature a))) = Some (appTemperature a) /\
    map textContent (elemsWithTag "label" (renderApp nts a)) =
      ["Temperature: " ++ nts (appTemperature a) ++ " K"] /\
    exists st, chartComponent a = Some st /\
      componentsOf (renderApp nts a) =
        [("SimulationCanvas", [("temperature", PNum (tempRef (canvas a)))]);
         ("MBDistributionChart", [("temperature", PNum (temperature st)); ("snapshots", PNums (snapshots st))])].
Proof.
  cbv zeta. destruct (appRun_sliderInv toFixed2 cfg rnd evs) as [HT _].
  destruct (appRun_inv toFixed2 cfg Hk rnd evs) as (Ht & _ & st & Hst & _ & HTs & Hss).
  destruct (sliderInput_bounds (appTemperature (appRun toFixed2 cfg (appMount cfg rnd) evs)))
    as (Hmin & Hmax & Hval).
  eexists. split; [apply renderApp_inputs|].
  do 3 (split; [assumption|]). split; [apply sliderValue_roundtrip, HT|].
  split; [apply renderApp_label|]. exists st. split; [exact Hst|].
  rewrite renderApp_components, Ht, HTs, Hss. reflexivity.
Qed.
End Claim.

(** The page with the canvas's constants, the slider dragged to 250.4 and
    a snapshot taken. *)
Lemma app_slider_roundtrip_witness :
  0 <= baseSpeedFactor canvasConfig /\
  let a := appRun id canvasConfig (appMount (S:=R) canvasConfig (fun _ => 0.5))
             [Slide 250.4; TakeSnapshot] in
  exists input, elemsWithTag "input" (renderApp (fun _ => "250") a) = [input] /\
    lookupKey "min" (attrsOf input) = Some (AStr (valueString sliderMin)) /\
    lookupKey "max" (attrsOf input) = Some (AStr (valueString sliderMax)) /\
    lookupKey "value" (attrsOf input) = Some (ANum (appTemperature a)) /\
    handleTemperatureChange (valueString (rangeSanitize (appTemperature a))) = Some (appTemperature a) /\
    map textContent (elemsWithTag "label" (renderApp (fun _ => "250") a)) =
      ["Temperature: " ++ "250" ++ " K"] /\
    exists st, chartComponent a = Some st /\
      componentsOf (renderApp (fun _ => "250") a) =
        [("SimulationCanvas", [("temperature", PNum (tempRef (canvas a)))]);
         ("MBDistributionChart", [("temperature", PNum (temperature st)); ("snapshots", PNums (snapshots st))])].
Proof.
  assert (Hk : 0 <= baseSpeedFactor canvasConfig) by (simpl; lra).
  split; [exact Hk|]. exact (app_slider_roundtrip id canvasConfig Hk (fun _ => "250") (fun _ => 0.5) _).
Defined.
